(** * NyayMitra web client: chat, chat history, sidebar grouping and the
      rights-card wizard.

    The TypeScript components are embedded as pure functions over explicit
    component state.  An [async] handler is split at its [await]: the part
    that runs synchronously up to [fetch] returns the request it issues, and
    the continuation takes the outcome of the request.  Values the browser
    supplies ([Date.now()], [Math.random()], the local calendar) are
    arguments. *)

From Stdlib Require Import ZArith NArith String Ascii List Lia Permutation.
From Stdlib Require Import DecimalString Sorted.
From stdpp Require Import base option list.

Import ListNotations.
Local Open Scope N_scope.

(** ** JavaScript strings

    A JavaScript string is a sequence of UTF-16 code units; [length],
    [slice], [trim] and [includes] all work on code units. *)

Module JsString.

Definition jsstring : Type := list N.

(** An ASCII literal of the source, as code units. *)
Definition lit (s : string) : jsstring :=
  map N_of_ascii (list_ascii_of_string s).

(** WhiteSpace and LineTerminator code points of ECMAScript, the ones
    [String.prototype.trim] strips. *)
Definition isWhiteSpace (c : N) : bool :=
  (c =? 9) || (c =? 10) || (c =? 11) || (c =? 12) || (c =? 13) || (c =? 32)
  || (c =? 160) || (c =? 5760)
  || ((8192 <=? c) && (c <=? 8202))
  || (c =? 8232) || (c =? 8233) || (c =? 8239) || (c =? 8287)
  || (c =? 12288) || (c =? 65279).

Fixpoint trimStart (s : jsstring) : jsstring :=
  match s with
  | [] => []
  | c :: s' => if isWhiteSpace c then trimStart s' else s
  end.

Definition trimEnd (s : jsstring) : jsstring := rev (trimStart (rev s)).

Definition trim (s : jsstring) : jsstring := trimEnd (trimStart s).

(** JavaScript truthiness of a string: only the empty string is falsy. *)
Definition truthy (s : jsstring) : bool :=
  match s with [] => false | _ :: _ => true end.

Fixpoint startsWith (needle hay : jsstring) : bool :=
  match needle, hay with
  | [], _ => true
  | _ :: _, [] => false
  | a :: needle', b :: hay' => (a =? b) && startsWith needle' hay'
  end.

(** [hay.includes(needle)] *)
Fixpoint includes (needle hay : jsstring) : bool :=
  startsWith needle hay ||
  match hay with
  | [] => false
  | _ :: hay' => includes needle hay'
  end.

(** [s.slice(0, n)] for [0 <= n]. *)
Definition slice0 (n : nat) (s : jsstring) : jsstring := take n s.

(** Template-literal rendering of a non-negative integer. *)
Definition ofNumber (n : N) : jsstring :=
  lit (NilZero.string_of_uint (N.to_uint n)).

Definition eqb (a b : jsstring) : bool := bool_decide (a = b).

End JsString.

Import JsString.

(** ** JSON request bodies and fetch outcomes *)

(** The object literals handed to [JSON.stringify] are flat and hold strings
    only: a body is the list of its (key, value) pairs, in source order. *)
Definition JsonObject : Type := list (string * jsstring).

Definition keys (o : JsonObject) : list string := map fst o.

Definition field (k : string) (o : JsonObject) : option jsstring :=
  snd <$> find (fun kv => String.eqb (fst kv) k) o.

Record Request : Type := mkRequest {
  url : string;
  method : string;
  contentType : string;
  body : JsonObject;
}.

(** What awaiting [fetch] and then [response.json()] can yield, with 2xx
    bodies read at the types of the server contract.
    - [Threw e]: something threw before the handler had its data: the
      awaited [fetch] or [response.json()] rejected, or (in the chat
      handlers, which read [data.reply]) the 2xx body was JSON [null]; [e]
      is the [message] of the thrown value when it is an [Error], [None]
      otherwise.
    - [Ok data]: [response.ok] holds and the body parsed to [data].
    - [NotOk status detail]: [response.ok] is false (status outside 200-299)
      and the body is not JSON, or is a JSON value other than [null] whose
      [detail] member is absent ([None]) or a string ([Some]).
    - [NotOkNull status typeError]: [response.ok] is false and the body is
      JSON [null]; reading [errData.detail] throws a [TypeError], whose
      message (the engine's wording) is [typeError].
    - [NotOkDetail status isTruthy text]: [response.ok] is false and the
      body's [detail] member is a JSON value that is not a string (null, a
      boolean, a number, an array, an object); [isTruthy] is its
      truthiness and [text] what [new Error(detail)] takes as message,
      its conversion to a string (the empty string for an empty array). *)
Inductive FetchOutcome (D : Type) : Type :=
| Threw (e : option jsstring)
| Ok (data : D)
| NotOk (status : N) (detail : option jsstring)
| NotOkNull (status : N) (typeError : jsstring)
| NotOkDetail (status : N) (isTruthy : bool) (text : jsstring).

Arguments Threw {D} e.
Arguments Ok {D} data.
Arguments NotOk {D} status detail.
Arguments NotOkNull {D} status typeError.
Arguments NotOkDetail {D} status isTruthy text.

(** [errData.detail || `Server error: ${response.status}`] *)
Definition serverErrorMessage (status : N) (detail : option jsstring) : jsstring :=
  match detail with
  | Some d => if truthy d then d else lit "Server error: " ++ ofNumber status
  | None => lit "Server error: " ++ ofNumber status
  end.

(** The value bound to [message] in a [catch (err)] block of the handlers:
    [err instanceof Error ? err.message : fallback]; [inr data] when the
    [try] block got its [data] without throwing. *)
Definition caughtMessage {D} (fallback : jsstring) (out : FetchOutcome D)
  : jsstring + D :=
  match out with
  | Threw (Some m) => inl m
  | Threw None => inl fallback
  | Ok data => inr data
  | NotOk status detail => inl (serverErrorMessage status detail)
  | NotOkNull status typeError => inl typeError
  | NotOkDetail status isTruthy text =>
      inl (if isTruthy then text else lit "Server error: " ++ ofNumber status)
  end.

Definition isConnectionFailure (message : jsstring) : bool :=
  includes (lit "Failed to fetch") message || includes (lit "ECONNREFUSED") message.

(** ** Chat messages (shared by both chat components) *)

Inductive MessageRole : Type := user | bot.

Definition MessageRole_eqb (a b : MessageRole) : bool :=
  match a, b with
  | user, user | bot, bot => true
  | _, _ => false
  end.

(** [interface Message]; [location?] exists in [ChatInterface] only and
    stays [None] in [NyayMitraApp]. *)
Record Message : Type := mkMessage {
  id : jsstring;
  role : MessageRole;
  content : jsstring;
  timestamp : N;
  category : option jsstring;
  location : option jsstring;
}.

(** Body of a 2xx answer of [/api/chat]: [{reply, category?}]. *)
Record ChatData : Type := mkChatData {
  reply : jsstring;
  data_category : option jsstring;
}.

Definition chatRequest (message location session_id : jsstring) : Request :=
  {| url := "/api/chat";
     method := "POST";
     contentType := "application/json";
     body := [ ("message"%string, message);
               ("location"%string, location);
               ("session_id"%string, session_id) ] |}.

Definition LF : jsstring := [10].

(** The canned reply shown when the backend cannot be reached. *)
Definition BACKEND_NOT_CONNECTED : jsstring :=
  [9888; 65039] ++ lit " *Backend not connected*" ++ LF ++ LF ++
  lit "To see NyayMitra in action:" ++ LF ++ LF ++
  lit "1. Start the backend: `cd backend && uvicorn app.main:app --reload`" ++ LF ++
  lit "2. Refresh this page" ++ LF ++ LF ++
  [55357; 56542] ++ lit " For urgent legal help: **NALSA Toll-Free: 15100**" ++ LF ++
  [55356; 57104] ++ lit " Karnataka Legal Aid: **080-2235-0202**".

Definition tryAgain (message : jsstring) : jsstring :=
  lit "Error: " ++ message ++ lit ". Please try again.".

(** ** NyayMitraApp: the chat page with stored chat history *)

Module NyayMitraApp.

Record StoredChat : Type := mkStoredChat {
  chat_id : jsstring;
  title : jsstring;
  chat_messages : list Message;
  createdAt : jsstring;
}.

(** Component state: the [useState] cells, the [sessionId] ref and the
    array kept under [STORAGE_KEY] in [localStorage] ([None]: key absent). *)
Record State : Type := mkState {
  messages : list Message;
  isLoading : bool;
  error : option jsstring;
  activeCategory : option jsstring;
  chatHistory : list StoredChat;
  activeChatId : option jsstring;
  sidebarOpen : bool;
  sessionId : jsstring;
  localStorage : option (list StoredChat);
}.

Definition set_messages (v : list Message) (st : State) : State :=
  mkState v (isLoading st) (error st) (activeCategory st) (chatHistory st)
          (activeChatId st) (sidebarOpen st) (sessionId st) (localStorage st).
Definition set_isLoading (v : bool) (st : State) : State :=
  mkState (messages st) v (error st) (activeCategory st) (chatHistory st)
          (activeChatId st) (sidebarOpen st) (sessionId st) (localStorage st).
Definition set_error (v : option jsstring) (st : State) : State :=
  mkState (messages st) (isLoading st) v (activeCategory st) (chatHistory st)
          (activeChatId st) (sidebarOpen st) (sessionId st) (localStorage st).
Definition set_activeCategory (v : option jsstring) (st : State) : State :=
  mkState (messages st) (isLoading st) (error st) v (chatHistory st)
          (activeChatId st) (sidebarOpen st) (sessionId st) (localStorage st).
Definition set_chatHistory (v : list StoredChat) (st : State) : State :=
  mkState (messages st) (isLoading st) (error st) (activeCategory st) v
          (activeChatId st) (sidebarOpen st) (sessionId st) (localStorage st).
Definition set_activeChatId (v : option jsstring) (st : State) : State :=
  mkState (messages st) (isLoading st) (error st) (activeCategory st)
          (chatHistory st) v (sidebarOpen st) (sessionId st) (localStorage st).
Definition set_sidebarOpen (v : bool) (st : State) : State :=
  mkState (messages st) (isLoading st) (error st) (activeCategory st)
          (chatHistory st) (activeChatId st) v (sessionId st) (localStorage st).
Definition set_localStorage (v : option (list StoredChat)) (st : State) : State :=
  mkState (messages st) (isLoading st) (error st) (activeCategory st)
          (chatHistory st) (activeChatId st) (sidebarOpen st) (sessionId st) v.

Definition LOCATION : jsstring := lit "Bengaluru, Karnataka".

(** What the browser supplies to one run of a handler: [Date.now()],
    [new Date().toISOString()] and
    [Math.random().toString(36).slice(2, 8)]. *)
Record Env : Type := mkEnv {
  now : N;
  nowISO : jsstring;
  random36 : jsstring;
}.

Definition generateId (env : Env) : jsstring :=
  lit "chat_" ++ ofNumber (now env) ++ lit "_" ++ random36 env.

(** [activeChatId || generateId()] *)
Definition chatIdFor (env : Env) (active : option jsstring) : jsstring :=
  match active with
  | Some i => if truthy i then i else generateId env
  | None => generateId env
  end.

(** [!activeChatId] *)
Definition noActiveChat (active : option jsstring) : bool :=
  match active with
  | Some i => negb (truthy i)
  | None => true
  end.

Definition titleOf (msgs : list Message) : jsstring :=
  match find (fun m => MessageRole_eqb (role m) user) msgs with
  | Some firstUserMsg =>
      slice0 50 (content firstUserMsg)
      ++ (if (50 <? length (content firstUserMsg))%nat then lit "..." else [])
  | None => lit "New Chat"
  end.

(** [prev.findIndex((c) => c.id === chatId)], with [None] for [-1]. *)
Fixpoint findIndex {A} (p : A -> bool) (l : list A) : option nat :=
  match l with
  | [] => None
  | x :: l' => if p x then Some 0%nat else S <$> findIndex p l'
  end.

(** The updater handed to [setChatHistory] in [saveCurrentChat]. *)
Definition updateHistory (env : Env) (chatId title : jsstring)
    (msgs : list Message) (prev : list StoredChat) : list StoredChat :=
  let existing := findIndex (fun c => JsString.eqb (chat_id c) chatId) prev in
  let updated :=
    {| chat_id := chatId;
       title := title;
       chat_messages := msgs;
       createdAt :=
         match existing with
         | Some i => from_option createdAt [] (prev !! i)
         | None => nowISO env
         end |} in
  match existing with
  | Some i => <[i := updated]> prev
  | None => updated :: prev
  end.

(** [saveCurrentChat(msgs)] as built in a render where [activeChatId] had
    the value [active]. *)
Definition saveCurrentChat (env : Env) (active : option jsstring)
    (msgs : list Message) (st : State) : State :=
  match msgs with
  | [] => st
  | _ :: _ =>
      let chatId := chatIdFor env active in
      let newHistory := updateHistory env chatId (titleOf msgs) msgs (chatHistory st) in
      let st1 := set_localStorage (Some newHistory) (set_chatHistory newHistory st) in
      if noActiveChat active then set_activeChatId (Some chatId) st1 else st1
  end.

(** What the continuation of [sendMessage] after [await fetch] holds on to:
    the request it issued, its local [newMessages], and the [activeChatId]
    its [saveCurrentChat] was built with. *)
Record Pending : Type := mkPending {
  request : Request;
  newMessages : list Message;
  savedChatId : option jsstring;
}.

(** [sendMessage(text)] up to and including the call of [fetch]. *)
Definition sendMessage_begin (env : Env) (st : State) (text : jsstring)
  : State * option Pending :=
  let trimmed := trim text in
  if negb (truthy trimmed) || isLoading st then (st, None)
  else
    let st1 := set_error None st in
    let st2 := if (length (messages st) =? 0)%nat
               then set_sidebarOpen true st1 else st1 in
    let userMsg :=
      {| id := ofNumber (now env) ++ lit "_user";
         role := user;
         content := trimmed;
         timestamp := now env;
         category := None;
         location := None |} in
    let newMessages := messages st ++ [userMsg] in
    let st3 := set_isLoading true (set_messages newMessages st2) in
    (st3, Some {| request := chatRequest trimmed LOCATION (sessionId st);
                  newMessages := newMessages;
                  savedChatId := activeChatId st |}).

Definition botMessage (env : Env) (text : jsstring) (cat : option jsstring)
  : Message :=
  {| id := ofNumber (now env) ++ lit "_bot";
     role := bot;
     content := text;
     timestamp := now env;
     category := cat;
     location := None |}.

(** The rest of [sendMessage]: the [try] block after [await fetch], the
    [catch] and the [finally]. *)
Definition sendMessage_settle (env : Env) (p : Pending)
    (out : FetchOutcome ChatData) (st : State) : State :=
  let st' :=
    match caughtMessage (lit "Failed to get response") out with
    | inr data =>
        let botMsg := botMessage env (reply data) (data_category data) in
        let st1 :=
          match data_category data with
          | Some c => if truthy c then set_activeCategory (Some c) st else st
          | None => st
          end in
        let withBot := newMessages p ++ [botMsg] in
        saveCurrentChat env (savedChatId p) withBot (set_messages withBot st1)
    | inl message =>
        if isConnectionFailure message then
          let botMsg := botMessage env BACKEND_NOT_CONNECTED None in
          let withBot := newMessages p ++ [botMsg] in
          saveCurrentChat env (savedChatId p) withBot (set_messages withBot st)
        else set_error (Some (tryAgain message)) st
    end in
  set_isLoading false st'.

(** The state once the mount effect has loaded the stored chats. *)
Definition initial (sid : jsstring) (stored : option (list StoredChat)) : State :=
  {| messages := []; isLoading := false; error := None; activeCategory := None;
     chatHistory := from_option (fun x => x) [] stored; activeChatId := None;
     sidebarOpen := false; sessionId := sid; localStorage := stored |}.

Definition set_sessionId (v : jsstring) (st : State) : State :=
  mkState (messages st) (isLoading st) (error st) (activeCategory st)
          (chatHistory st) (activeChatId st) (sidebarOpen st) v (localStorage st).

Definition handleNewChat (env : Env) (st : State) : State :=
  set_sessionId (lit "session_" ++ ofNumber (now env))
    (set_sidebarOpen false
       (set_error None
          (set_activeCategory None
             (set_activeChatId None (set_messages [] st))))).

Definition handleSelectChat (chatId : jsstring) (st : State) : State :=
  match find (fun c => JsString.eqb (chat_id c) chatId) (chatHistory st) with
  | Some chat =>
      set_sessionId (lit "session_" ++ chatId)
        (set_activeChatId (Some chatId) (set_messages (chat_messages chat) st))
  | None => st
  end.

Definition handleDeleteChat (env : Env) (chatId : jsstring) (st : State) : State :=
  let updated :=
    List.filter (fun c => negb (JsString.eqb (chat_id c) chatId)) (chatHistory st) in
  let st1 := set_localStorage (Some updated) (set_chatHistory updated st) in
  match activeChatId st with
  | Some active => if JsString.eqb active chatId then handleNewChat env st1 else st1
  | None => st1
  end.

(** The text [handleCategoryClick] sends: [`Tell me about ${label} in India`]. *)
Definition categoryQuery (label : jsstring) : jsstring :=
  lit "Tell me about " ++ label ++ lit " in India".

(** *** The page as the user can drive it

    The component state together with the continuations of [sendMessage]
    that still await their answer. *)
Record Machine : Type := mkMachine {
  ui : State;
  inflight : list Pending;
}.

Inductive Event : Type :=
| Send (env : Env) (text : jsstring)
| CategoryClick (env : Env) (catId label : jsstring)
| Settled (env : Env) (out : FetchOutcome ChatData)
| NewChat (env : Env)
| SelectChat (chatId : jsstring)
| DeleteChat (env : Env) (chatId : jsstring)
| ToggleSidebar.

Definition send (env : Env) (text : jsstring) (m : Machine) : Machine :=
  match sendMessage_begin env (ui m) text with
  | (st, Some p) => mkMachine st (inflight m ++ [p])
  | (st, None) => mkMachine st (inflight m)
  end.

Definition dispatch (e : Event) (m : Machine) : Machine :=
  match e with
  | Send env text => send env text m
  | CategoryClick env catId label =>
      send env (categoryQuery label)
           (mkMachine (set_activeCategory (Some catId) (ui m)) (inflight m))
  | Settled env out =>
      match inflight m with
      | [] => m
      | p :: rest => mkMachine (sendMessage_settle env p out (ui m)) rest
      end
  | NewChat env => mkMachine (handleNewChat env (ui m)) (inflight m)
  | SelectChat chatId => mkMachine (handleSelectChat chatId (ui m)) (inflight m)
  | DeleteChat env chatId =>
      mkMachine (handleDeleteChat env chatId (ui m)) (inflight m)
  | ToggleSidebar =>
      mkMachine (set_sidebarOpen (negb (sidebarOpen (ui m))) (ui m)) (inflight m)
  end.

Definition run (events : list Event) (m : Machine) : Machine :=
  fold_left (fun m e => dispatch e m) events m.

Definition mounted (sid : jsstring) (stored : option (list StoredChat)) : Machine :=
  {| ui := initial sid stored; inflight := [] |}.

End NyayMitraApp.

(** ** ChatInterface: the chat component without stored history *)

Module ChatInterface.

Record State : Type := mkState {
  messages : list Message;
  inputValue : jsstring;
  location : jsstring;
  isLoading : bool;
  error : option jsstring;
  activeCategory : option jsstring;
  sessionId : jsstring;
}.

Definition set_messages (v : list Message) (st : State) : State :=
  mkState v (inputValue st) (location st) (isLoading st) (error st)
          (activeCategory st) (sessionId st).
Definition set_inputValue (v : jsstring) (st : State) : State :=
  mkState (messages st) v (location st) (isLoading st) (error st)
          (activeCategory st) (sessionId st).
Definition set_isLoading (v : bool) (st : State) : State :=
  mkState (messages st) (inputValue st) (location st) v (error st)
          (activeCategory st) (sessionId st).
Definition set_error (v : option jsstring) (st : State) : State :=
  mkState (messages st) (inputValue st) (location st) (isLoading st) v
          (activeCategory st) (sessionId st).
Definition set_activeCategory (v : option jsstring) (st : State) : State :=
  mkState (messages st) (inputValue st) (location st) (isLoading st) (error st)
          v (sessionId st).

(** [Date.now()] and [Math.random().toString(36).slice(2)]. *)
Record Env : Type := mkEnv {
  now : N;
  random36 : jsstring;
}.

(** [addMessage(role, content, category)] as built in a render where
    [location] had the value [loc]; the new message goes after whatever
    the list holds when the update runs. *)
Definition addMessage (env : Env) (loc : jsstring) (r : MessageRole)
    (text : jsstring) (cat : option jsstring) (st : State) : State :=
  let msg :=
    mkMessage (ofNumber (now env) ++ lit "_" ++ random36 env)  (* id *)
              r text
              (now env)                                        (* timestamp *)
              cat
              (Some loc)                                       (* location *) in
  set_messages (messages st ++ [msg]) st.

Record Pending : Type := mkPending {
  request : Request;
  savedLocation : jsstring;
}.

(** [sendMessage(text)] up to and including the call of [fetch]. *)
Definition sendMessage_begin (env : Env) (st : State) (text : jsstring)
  : State * option Pending :=
  let trimmed := trim text in
  if negb (truthy trimmed) || isLoading st then (st, None)
  else
    let st1 := set_inputValue [] (set_error None st) in
    let st2 := addMessage env (location st) user trimmed None st1 in
    let st3 := set_isLoading true st2 in
    (st3, Some {| request := chatRequest trimmed (location st) (sessionId st);
                  savedLocation := location st |}).

(** The rest of [sendMessage]. *)
Definition sendMessage_settle (env : Env) (p : Pending)
    (out : FetchOutcome ChatData) (st : State) : State :=
  let st' :=
    match caughtMessage (lit "Failed to get response") out with
    | inr data =>
        let st1 := addMessage env (savedLocation p) bot (reply data)
                              (data_category data) st in
        match data_category data with
        | Some c => if truthy c then set_activeCategory (Some c) st1 else st1
        | None => st1
        end
    | inl message =>
        if isConnectionFailure message then
          addMessage env (savedLocation p) bot BACKEND_NOT_CONNECTED None st
        else set_error (Some (tryAgain message)) st
    end in
  set_isLoading false st'.

Definition initial (sid : jsstring) : State :=
  {| messages := []; inputValue := []; location := lit "Bengaluru, Karnataka";
     isLoading := false; error := None; activeCategory := None;
     sessionId := sid |}.

Definition set_location (v : jsstring) (st : State) : State :=
  mkState (messages st) (inputValue st) v (isLoading st) (error st)
          (activeCategory st) (sessionId st).

Definition categoryQuery (label : jsstring) : jsstring :=
  lit "Tell me about " ++ label ++ lit " in India".

(** *** The component as the user can drive it *)
Record Machine : Type := mkMachine {
  ui : State;
  inflight : list Pending;
}.

Inductive Event : Type :=
| Send (env : Env) (text : jsstring)
| CategoryClick (env : Env) (catId label : jsstring)
| Settled (env : Env) (out : FetchOutcome ChatData)
| TypeInput (v : jsstring)
| TypeLocation (v : jsstring).

Definition send (env : Env) (text : jsstring) (m : Machine) : Machine :=
  match sendMessage_begin env (ui m) text with
  | (st, Some p) => mkMachine st (inflight m ++ [p])
  | (st, None) => mkMachine st (inflight m)
  end.

Definition dispatch (e : Event) (m : Machine) : Machine :=
  match e with
  | Send env text => send env text m
  | CategoryClick env catId label =>
      send env (categoryQuery label)
           (mkMachine (set_activeCategory (Some catId) (ui m)) (inflight m))
  | Settled env out =>
      match inflight m with
      | [] => m
      | p :: rest => mkMachine (sendMessage_settle env p out (ui m)) rest
      end
  | TypeInput v => mkMachine (set_inputValue v (ui m)) (inflight m)
  | TypeLocation v => mkMachine (set_location v (ui m)) (inflight m)
  end.

Definition run (events : list Event) (m : Machine) : Machine :=
  fold_left (fun m e => dispatch e m) events m.

Definition mounted (sid : jsstring) : Machine :=
  {| ui := initial sid; inflight := [] |}.

(** [handleKeyDown(e)] on the message box: Enter without Shift sends the
    current input; any other key leaves the component alone. *)
Definition handleKeyDown (env : Env) (key : jsstring) (shiftKey : bool)
    (st : State) : State * option Pending :=
  if JsString.eqb key (lit "Enter") && negb shiftKey
  then sendMessage_begin env st (inputValue st)
  else (st, None).

End ChatInterface.

(** ** RightsCardGenerator: the three-step rights-card wizard (modal) *)

Module RightsCardGenerator.

(** [interface RightsCardData]; [is_mock?] is [None] when absent. *)
Record RightsCardData : Type := mkRightsCardData {
  title : jsstring;
  situation : jsstring;
  situation_summary : jsstring;
  icon : jsstring;
  language : jsstring;
  your_rights : list jsstring;
  they_cannot : list jsstring;
  do_next : list jsstring;
  emergency_contacts : list jsstring;
  relevant_laws : list jsstring;
  is_mock : option bool;
}.

(** The members of [interface RightsCardData], in declaration order. *)
Definition RightsCardData_fields : list string :=
  [ "title"; "situation"; "situation_summary"; "icon"; "language";
    "your_rights"; "they_cannot"; "do_next"; "emergency_contacts";
    "relevant_laws"; "is_mock" ]%string.

(** The members of [cardData] the result step renders. *)
Definition rendered_fields : list string :=
  [ "title"; "situation_summary"; "your_rights"; "they_cannot"; "do_next";
    "emergency_contacts"; "relevant_laws" ]%string.

Record SituationOption : Type := mkSituationOption {
  sit_id : jsstring;
  sit_label : jsstring;
  sit_icon : jsstring;
  sit_description : jsstring;
  sit_color : jsstring;
}.

Definition SITUATIONS : list SituationOption :=
  [ mkSituationOption (lit "arrested") (lit "Arrested / Detained")
      [55357; 56980] (lit "Police arrested or detained you") (lit "#EF4444");
    mkSituationOption (lit "evicted") (lit "Being Evicted")
      [55356; 57312] (lit "Landlord is forcing you out") (lit "#F59E0B");
    mkSituationOption (lit "fired") (lit "Fired from Job")
      [55357; 56508] (lit "Wrongfully terminated by employer") (lit "#8B5CF6");
    mkSituationOption (lit "cheated") (lit "Cheated by Vendor")
      [55357; 57042] (lit "Consumer fraud or scam victim") (lit "#10B981") ].

Record LanguageOption : Type := mkLanguageOption {
  lang_id : jsstring;
  lang_label : jsstring;
  lang_native : jsstring;
}.

Definition LANGUAGES : list LanguageOption :=
  [ mkLanguageOption (lit "English") (lit "English") (lit "English");
    mkLanguageOption (lit "Hindi") (lit "Hindi")
      [2361; 2367; 2344; 2381; 2342; 2368];
    mkLanguageOption (lit "Kannada") (lit "Kannada")
      [3221; 3240; 3277; 3240; 3233] ].

Inductive Step : Type := select | configure | result.

Record State : Type := mkState {
  step : Step;
  selectedSituation : option jsstring;
  selectedLanguage : jsstring;
  isGenerating : bool;
  cardData : option RightsCardData;
  error : option jsstring;
}.

Definition set_step (v : Step) (st : State) : State :=
  mkState v (selectedSituation st) (selectedLanguage st) (isGenerating st)
          (cardData st) (error st).
Definition set_selectedSituation (v : option jsstring) (st : State) : State :=
  mkState (step st) v (selectedLanguage st) (isGenerating st)
          (cardData st) (error st).
Definition set_selectedLanguage (v : jsstring) (st : State) : State :=
  mkState (step st) (selectedSituation st) v (isGenerating st)
          (cardData st) (error st).
Definition set_isGenerating (v : bool) (st : State) : State :=
  mkState (step st) (selectedSituation st) (selectedLanguage st) v
          (cardData st) (error st).
Definition set_cardData (v : option RightsCardData) (st : State) : State :=
  mkState (step st) (selectedSituation st) (selectedLanguage st)
          (isGenerating st) v (error st).
Definition set_error (v : option jsstring) (st : State) : State :=
  mkState (step st) (selectedSituation st) (selectedLanguage st)
          (isGenerating st) (cardData st) v.

Definition initial : State :=
  {| step := select; selectedSituation := None;
     selectedLanguage := lit "English"; isGenerating := false;
     cardData := None; error := None |}.

Definition handleSituationSelect (situationId : jsstring) (st : State) : State :=
  set_step configure (set_selectedSituation (Some situationId) st).

Definition rightsCardRequest (situation language location : jsstring) : Request :=
  {| url := "/api/rights-card";
     method := "POST";
     contentType := "application/json";
     body := [ ("situation"%string, situation);
               ("language"%string, language);
               ("location"%string, location) ] |}.

(** [handleGenerate()] up to and including the call of [fetch];
    [location] is the component's prop. *)
Definition handleGenerate_begin (location : jsstring) (st : State)
  : State * option Request :=
  match selectedSituation st with
  | None => (st, None)
  | Some s =>
      if negb (truthy s) then (st, None)
      else (set_error None (set_isGenerating true st),
            Some (rightsCardRequest s (selectedLanguage st) location))
  end.

(** The rest of [handleGenerate], for every outcome but a 2xx answer with
    a null body, which [handleGenerate_settle_null] below covers. *)
Definition handleGenerate_settle (out : FetchOutcome RightsCardData)
    (st : State) : State :=
  let st' :=
    match caughtMessage (lit "Failed to generate card") out with
    | inr data => set_step result (set_cardData (Some data) st)
    | inl message =>
        if isConnectionFailure message
        then set_error
               (Some (lit "Backend not connected. Please start the backend server."))
               st
        else set_error (Some message) st
    end in
  set_isGenerating false st'.

(** The rest of [handleGenerate] for a 2xx answer whose body is JSON
    [null] (or another falsy value, which the component tells from a card
    by truthiness alone): [setCardData(data); setStep("result")] with no
    card in [data], then the [finally]. *)
Definition handleGenerate_settle_null (st : State) : State :=
  set_isGenerating false (set_step result (set_cardData None st)).

(** [handleDownload] changes the state only when the export throws. *)
Definition handleDownload_failed (st : State) : State :=
  set_error (Some (lit "Failed to download. Please try again.")) st.

Definition handleBack (st : State) : State :=
  match step st with
  | result => set_cardData None (set_step configure st)
  | configure => set_selectedSituation None (set_step select st)
  | select => st
  end.

Definition handleReset (st : State) : State :=
  set_error None
    (set_cardData None
       (set_selectedLanguage (lit "English")
          (set_selectedSituation None (set_step select st)))).

(** *** The component as the user can drive it

    The mounted component, the [location] prop its parent currently passes,
    the requests whose answer is still awaited, and the log of every request
    sent so far. *)
Record Machine : Type := mkMachine {
  ui : State;
  prop_location : jsstring;
  inflight : nat;
  sent : list Request;
}.

(** What can happen to the component.  A click names the rendered element
    by its position in the constant array it is mapped from. *)
Inductive Event : Type :=
| ClickSituation (i : nat)
| ClickLanguage (i : nat)
| ClickGenerate
| ClickBack
| ClickReset
| DownloadFailed
| Settled (out : FetchOutcome RightsCardData)
| PropLocation (location : jsstring)
| SettledNull.

Definition with_ui (f : State -> State) (m : Machine) : Machine :=
  mkMachine (f (ui m)) (prop_location m) (inflight m) (sent m).

Definition isSome {A} (o : option A) : bool :=
  match o with Some _ => true | None => false end.

(** One event, under the conditions the JSX renders the element with: the
    situation grid in step [select]; the language pills and the generate
    button (disabled while generating) in step [configure]; the back button
    outside step [select]; the result actions in step [result] with a
    card.  An event on an element that is not there changes nothing. *)
Definition dispatch (e : Event) (m : Machine) : Machine :=
  match e, step (ui m) with
  | ClickSituation i, select =>
      match SITUATIONS !! i with
      | Some sit => with_ui (handleSituationSelect (sit_id sit)) m
      | None => m
      end
  | ClickLanguage i, configure =>
      match LANGUAGES !! i with
      | Some lang => with_ui (set_selectedLanguage (lang_id lang)) m
      | None => m
      end
  | ClickGenerate, configure =>
      if isGenerating (ui m) then m
      else
        match handleGenerate_begin (prop_location m) (ui m) with
        | (st, Some r) =>
            mkMachine st (prop_location m) (S (inflight m)) (sent m ++ [r])
        | (st, None) => with_ui (fun _ => st) m
        end
  | ClickBack, (configure | result) => with_ui handleBack m
  | ClickReset, result =>
      if isSome (cardData (ui m)) then with_ui handleReset m else m
  | DownloadFailed, result =>
      if isSome (cardData (ui m)) then with_ui handleDownload_failed m else m
  | Settled out, _ =>
      match inflight m with
      | O => m
      | S n =>
          mkMachine (handleGenerate_settle out (ui m)) (prop_location m) n (sent m)
      end
  | PropLocation location, _ =>
      mkMachine (ui m) location (inflight m) (sent m)
  | SettledNull, _ =>
      match inflight m with
      | O => m
      | S n =>
          mkMachine (handleGenerate_settle_null (ui m)) (prop_location m) n (sent m)
      end
  | _, _ => m
  end.

Definition run (events : list Event) (m : Machine) : Machine :=
  fold_left (fun m e => dispatch e m) events m.

Definition mounted (location : jsstring) : Machine :=
  {| ui := initial; prop_location := location; inflight := 0%nat; sent := [] |}.

End RightsCardGenerator.

(** ** The standalone rights-card page *)

Module RightsCardPage.

(** [interface RightsCard] of the page. *)
Record RightsCard : Type := mkRightsCard {
  title : jsstring;
  entitlements : list jsstring;
  can_do : list jsstring;
  cannot_do : list jsstring;
  next_steps : list jsstring;
}.

Definition RightsCard_fields : list string :=
  [ "title"; "entitlements"; "can_do"; "cannot_do"; "next_steps" ]%string.

Definition SITUATIONS : list jsstring :=
  [ lit "Arrested by Police"; lit "Evicted without notice";
    lit "Fired unlawfully"; lit "Cheated by a vendor";
    lit "Domestic violence"; lit "Online fraud/scam" ].

Definition LANGUAGES : list jsstring :=
  [ lit "English"; lit "Hindi"; lit "Kannada"; lit "Tamil"; lit "Telugu";
    lit "Marathi" ].

Record State : Type := mkState {
  situation : jsstring;
  language : jsstring;
  loading : bool;
  cardData : option RightsCard;
  error : jsstring;
}.

Definition initial : State :=
  {| situation := nth 0 SITUATIONS []; language := nth 0 LANGUAGES [];
     loading := false; cardData := None; error := [] |}.

Definition setSituation (v : jsstring) (st : State) : State :=
  mkState v (language st) (loading st) (cardData st) (error st).
Definition setLanguage (v : jsstring) (st : State) : State :=
  mkState (situation st) v (loading st) (cardData st) (error st).

(** [handleGenerate()] up to and including the call of [fetch];
    [apiBase] is [process.env.NEXT_PUBLIC_API_URL || "http://localhost:8000"]. *)
Definition handleGenerate_begin (apiBase : string) (st : State)
  : State * Request :=
  (mkState (situation st) (language st) true None [],
   {| url := apiBase ++ "/api/rights-card";
      method := "POST";
      contentType := "application/json";
      body := [ ("situation"%string, situation st);
                ("language"%string, language st) ] |}).

(** The rest of [handleGenerate]: a response that is not ok throws
    [Error("Failed to generate card")] whatever its body;
    [err.message || "An error occurred"] becomes the error.  A 2xx answer
    with a null body is [handleGenerate_settle_null] below. *)
Definition handleGenerate_settle (out : FetchOutcome RightsCard) (st : State)
  : State :=
  let failed (message : jsstring) :=
    mkState (situation st) (language st) false (cardData st)
            (if truthy message then message else lit "An error occurred") in
  match out with
  | Ok data => mkState (situation st) (language st) false (Some data) (error st)
  | NotOk _ _ | NotOkNull _ _ | NotOkDetail _ _ _ =>
      failed (lit "Failed to generate card")
  | Threw (Some m) => failed m
  | Threw None => failed []
  end.

(** The rest of [handleGenerate] for a 2xx answer whose body is JSON
    [null]: [setCardData(data)] with [data = null], then the [finally]. *)
Definition handleGenerate_settle_null (st : State) : State :=
  mkState (situation st) (language st) false None (error st).

(** The page as the user can drive it: the two [select] elements offer the
    entries of [SITUATIONS] and [LANGUAGES]; the button is disabled while
    loading. *)
Inductive Event : Type :=
| ChooseSituation (i : nat)
| ChooseLanguage (i : nat)
| ClickGenerate
| Settled (out : FetchOutcome RightsCard)
| SettledNull.

Record Machine : Type := mkMachine {
  ui : State;
  inflight : nat;
  sent : list Request;
}.

Definition dispatch (apiBase : string) (e : Event) (m : Machine) : Machine :=
  match e with
  | ChooseSituation i =>
      match SITUATIONS !! i with
      | Some s => mkMachine (setSituation s (ui m)) (inflight m) (sent m)
      | None => m
      end
  | ChooseLanguage i =>
      match LANGUAGES !! i with
      | Some l => mkMachine (setLanguage l (ui m)) (inflight m) (sent m)
      | None => m
      end
  | ClickGenerate =>
      if loading (ui m) then m
      else
        let '(st, r) := handleGenerate_begin apiBase (ui m) in
        mkMachine st (S (inflight m)) (sent m ++ [r])
  | Settled out =>
      match inflight m with
      | O => m
      | S n => mkMachine (handleGenerate_settle out (ui m)) n (sent m)
      end
  | SettledNull =>
      match inflight m with
      | O => m
      | S n => mkMachine (handleGenerate_settle_null (ui m)) n (sent m)
      end
  end.

Definition run (apiBase : string) (events : list Event) (m : Machine) : Machine :=
  fold_left (fun m e => dispatch apiBase e m) events m.

Definition mounted : Machine :=
  {| ui := initial; inflight := 0%nat; sent := [] |}.



End RightsCardPage.

(** ** Sidebar: grouping the chat history by date *)

Module Sidebar.

(** The time value of a [Date]: milliseconds since the epoch, or [None] for
    an invalid date (NaN). *)
Definition TimeValue : Type := option Z.

Record ChatSession : Type := mkChatSession {
  id : jsstring;
  title : jsstring;
  createdAt : TimeValue;
  preview : jsstring;
}.

Record Group : Type := mkGroup {
  label : string;
  chats : list ChatSession;
}.

(** The three local-calendar instants [groupByDate] derives from
    [new Date()]: midnight of the current day, of the day before and of
    seven days before.  They are valid dates. *)
Record Calendar : Type := mkCalendar {
  today : Z;
  yesterday : Z;
  weekAgo : Z;
}.

Definition msPerDay : Z := 86400000.

(** The calendar of a zone at a fixed offset from UTC (no daylight saving),
    [offset] in milliseconds east of UTC. *)
Definition fixedOffsetCalendar (offset now : Z) : Calendar :=
  let t := (now - (now + offset) mod msPerDay)%Z in
  {| today := t; yesterday := (t - msPerDay)%Z; weekAgo := (t - 7 * msPerDay)%Z |}.

(** [d >= t] on dates: compares time values, false when [d] is invalid. *)
Definition date_ge (d : TimeValue) (t : Z) : bool :=
  match d with
  | Some v => (t <=? v)%Z
  | None => false
  end.

(** [groups[i].chats.push(chat)] *)
Definition push (chat : ChatSession) (g : Group) : Group :=
  {| label := label g; chats := chats g ++ [chat] |}.

(** Index of the group the body of the [forEach] pushes [chat] to. *)
Definition bucket (cal : Calendar) (chat : ChatSession) : nat :=
  let d := createdAt chat in
  if date_ge d (today cal) then 0
  else if date_ge d (yesterday cal) then 1
  else if date_ge d (weekAgo cal) then 2
  else 3.

Definition emptyGroups : list Group :=
  [ mkGroup "Today" []; mkGroup "Yesterday" [];
    mkGroup "Previous 7 Days" []; mkGroup "Older" [] ].

Definition groupByDate (cal : Calendar) (l : list ChatSession) : list Group :=
  let groups :=
    fold_left (fun groups chat => alter (push chat) (bucket cal chat) groups)
              l emptyGroups in
  List.filter (fun g => (0 <? length (chats g))%nat) groups.

(** The label of the group with index [i] in the array literal. *)
Definition labelAt (i : nat) : string :=
  from_option label "Older"%string (emptyGroups !! i).

End Sidebar.

(** ** The history as handed to the sidebar *)

Module AppSidebar.

(** [c.messages[c.messages.length - 1]?.content.slice(0, 60) || ""] *)
Definition previewOf (msgs : list Message) : jsstring :=
  match last msgs with
  | Some m => slice0 60 (content m)
  | None => []
  end.

(** [sidebarHistory]; [parseDate] is [new Date(isoString)] read as a time
    value. *)
Definition sidebarHistory (parseDate : jsstring -> Sidebar.TimeValue)
    (history : list NyayMitraApp.StoredChat) : list Sidebar.ChatSession :=
  map (fun c =>
         Sidebar.mkChatSession (NyayMitraApp.chat_id c) (NyayMitraApp.title c)
           (parseDate (NyayMitraApp.createdAt c))
           (previewOf (NyayMitraApp.chat_messages c)))
      history.

End AppSidebar.

(** ** GradientAIChatInput: the message box of the chat page *)

Module GradientAIChatInput.

Section Input.

(** The browser's [File] objects. *)
Variable File : Type.

Record State : Type := mkState {
  message : jsstring;
  attachedFiles : list File;
}.

(** [handleSubmit(e)]: [onSend] is the prop ([None] when it is not
    passed), [disabled] the prop of that name.  The result carries the
    argument [onSend] is called with, if it is called. *)
Definition handleSubmit {R} (onSend : option (jsstring -> R)) (disabled : bool)
    (st : State) : State * option R :=
  match onSend with
  | Some send =>
      if truthy (trim (message st)) && negb disabled
      then (mkState [] (attachedFiles st), Some (send (trim (message st))))
      else (st, None)
  | None => (st, None)
  end.

(** [handleKeyDown(e)]: Enter without Shift submits. *)
Definition handleKeyDown {R} (onSend : option (jsstring -> R)) (disabled : bool)
    (key : jsstring) (shiftKey : bool) (st : State) : State * option R :=
  if JsString.eqb key (lit "Enter") && negb shiftKey
  then handleSubmit onSend disabled st
  else (st, None).

(** [handleFileChange(e)] with [files = Array.from(e.target.files || [])]. *)
Definition handleFileChange (files : list File) (st : State) : State :=
  mkState (message st) (attachedFiles st ++ files).

(** [prev.filter((_, i) => i !== index)] *)
Definition filterOutIndex (index : nat) (prev : list File) : list File :=
  map snd
      (List.filter (fun p => negb (Nat.eqb (fst p) index))
                   (combine (seq 0 (length prev)) prev)).

Definition removeFile (index : nat) (st : State) : State :=
  mkState (message st) (filterOutIndex index (attachedFiles st)).

End Input.

Arguments mkState {File} message attachedFiles.
Arguments message {File} s.
Arguments attachedFiles {File} s.
Arguments handleSubmit {File R} onSend disabled st.
Arguments handleKeyDown {File R} onSend disabled key shiftKey st.
Arguments handleFileChange {File} files st.
Arguments filterOutIndex {File} index prev.
Arguments removeFile {File} index st.

End GradientAIChatInput.

(** ** The server side of [/api/chat] and [/api/rights-card]

    The backend is not part of the sources at hand; the two endpoints are
    written down from the specification. *)

Module Server.

(** Modelled from the spec: whether credentials for the hosted model are
    configured (section 6: their absence is a supported mode). *)
Inductive Credentials : Type := absent | configured.

(** Modelled from the spec: an HTTP answer of the backend, a 2xx with its
    body or a 4xx with a detail string (sections 6 and 7). *)
Inductive HttpResponse (D : Type) : Type :=
| Success (data : D)
| ClientError (detail : jsstring).

Arguments Success {D} data.
Arguments ClientError {D} detail.

Definition is2xx {D} (r : HttpResponse D) : bool :=
  match r with Success _ => true | ClientError _ => false end.

(** Modelled from the spec: the body of [POST /api/chat] (section 6). *)
Record ChatBody : Type := mkChatBody {
  message : jsstring;
  location : jsstring;
  session_id : jsstring;
}.

(** Modelled from the spec: the body of [POST /api/rights-card] (section 6). *)
Record RightsCardBody : Type := mkRightsCardBody {
  situation : jsstring;
  language : jsstring;
  card_location : jsstring;
}.

Section Endpoints.

(** The local pipeline in front of the model call: category detection and
    the prompt built from message, category, jurisdiction and lawyer
    block. *)
Variable detect_category : jsstring -> option jsstring.
Variable chat_prompt : ChatBody -> jsstring.
Variable card_prompt : RightsCardBody -> jsstring.

(** The hosted model: [None] when the call fails (network, auth, quota). *)
Variable chat_model : jsstring -> option jsstring.
Variable card_model : jsstring -> option RightsCardGenerator.RightsCardData.

(** The fixed mock reply and the canned static cards. *)
Variable MOCK_REPLY : jsstring.
Variable canned_card : jsstring -> jsstring -> RightsCardGenerator.RightsCardData.

(** The situation and language enumerations. *)
Variable situations : list jsstring.
Variable languages : list jsstring.

(** Modelled from the spec: membership in an enumeration (section 4.5). *)
Definition mem (x : jsstring) (l : list jsstring) : bool :=
  existsb (JsString.eqb x) l.

(** Modelled from the spec: a card with its mock flag set (section 4.5). *)
Definition tag_mock (b : bool) (c : RightsCardGenerator.RightsCardData)
  : RightsCardGenerator.RightsCardData :=
  RightsCardGenerator.mkRightsCardData
    (RightsCardGenerator.title c) (RightsCardGenerator.situation c)
    (RightsCardGenerator.situation_summary c) (RightsCardGenerator.icon c)
    (RightsCardGenerator.language c) (RightsCardGenerator.your_rights c)
    (RightsCardGenerator.they_cannot c) (RightsCardGenerator.do_next c)
    (RightsCardGenerator.emergency_contacts c)
    (RightsCardGenerator.relevant_laws c) (Some b).

(** Modelled from the spec: the LLM prompt/response service of section
    4.4 (backend [bedrock.py], absent from the sources).  It returns the
    model's text verbatim, the canned mock string when no credentials are
    configured, and degrades to the fixed mock response when the call
    fails. *)
Definition generate_reply (creds : Credentials) (req : ChatBody) : jsstring :=
  match creds with
  | absent => MOCK_REPLY
  | configured =>
      match chat_model (chat_prompt req) with
      | Some text => text
      | None => MOCK_REPLY
      end
  end.

(** Modelled from the spec: the handler of [POST /api/chat] of sections
    4.6 and 6 (backend route, absent from the sources): body
    [{message, location, session_id}], answer [{reply, category?}]. *)
Definition post_chat (creds : Credentials) (req : ChatBody)
  : HttpResponse ChatData :=
  Success {| reply := generate_reply creds req;
             data_category := detect_category (message req) |}.

(** Modelled from the spec: the rights-card template service of section
    4.5 (backend [rights_card.py], absent from the sources).  It attempts
    a structured-output model call; on failure or absent credentials it
    returns a canned static card tagged [is_mock = true]. *)
Definition generate_card (creds : Credentials) (req : RightsCardBody)
  : RightsCardGenerator.RightsCardData :=
  let canned := tag_mock true (canned_card (situation req) (language req)) in
  match creds with
  | absent => canned
  | configured =>
      match card_model (card_prompt req) with
      | Some card => card
      | None => canned
      end
  end.

(** Modelled from the spec: the handler of [POST /api/rights-card] of
    sections 4.5 and 6 (backend route, absent from the sources).  A
    situation or language outside the enumerations is answered with a 4xx
    carrying a detail string; there is no other validation. *)
Definition post_rights_card (creds : Credentials) (req : RightsCardBody)
  : HttpResponse RightsCardGenerator.RightsCardData :=
  if negb (mem (situation req) situations) then
    ClientError (lit "Invalid situation")
  else if negb (mem (language req) languages) then
    ClientError (lit "Invalid language")
  else Success (generate_card creds req).

End Endpoints.

End Server.

(** ** The RightsCard record as the specification words it *)

Module SpecShape.

Local Open Scope string_scope.

(** The ten fields of the specification's RightsCard, in its order: title,
    situation tag, summary, rights, prohibitions, action steps, emergency
    contacts, cited laws, language tag, mock flag. *)
Inductive Field : Type :=
| Title | SituationTag | Summary | Rights | Prohibitions | ActionSteps
| EmergencyContacts | CitedLaws | LanguageTag | MockFlag.

Definition RightsCard_shape : list Field :=
  [ Title; SituationTag; Summary; Rights; Prohibitions; ActionSteps;
    EmergencyContacts; CitedLaws; LanguageTag; MockFlag ].

Definition one_of (names : list string) (k : string) : bool :=
  existsb (String.eqb k) names.

(** The specification field an interface member stands for, by what the
    components render it as: [your_rights] and [entitlements] under "Your
    Rights", [they_cannot] and [cannot_do] under "They Cannot", [do_next]
    and [next_steps] as the next steps.  [icon] and [can_do] (what the
    authorities can do) stand for none of the ten. *)
Definition meaning (member : string) : option Field :=
  if one_of ["title"] member then Some Title
  else if one_of ["situation"] member then Some SituationTag
  else if one_of ["situation_summary"] member then Some Summary
  else if one_of ["your_rights"; "entitlements"] member then Some Rights
  else if one_of ["they_cannot"; "cannot_do"] member then Some Prohibitions
  else if one_of ["do_next"; "next_steps"] member then Some ActionSteps
  else if one_of ["emergency_contacts"] member then Some EmergencyContacts
  else if one_of ["relevant_laws"] member then Some CitedLaws
  else if one_of ["language"] member then Some LanguageTag
  else if one_of ["is_mock"] member then Some MockFlag
  else None.

(** The members of an interface that stand for no specification field. *)
Definition unmatched (members : list string) : list string :=
  List.filter (fun k => match meaning k with None => true | Some _ => false end)
              members.

(** The specification fields an interface covers, in declaration order. *)
Definition covered (members : list string) : list Field :=
  omap meaning members.

(** The members two interfaces have in common. *)
Definition common (a b : list string) : list string :=
  List.filter (fun k => one_of b k) a.

End SpecShape.

(** * Properties *)

(** ** Strings *)

Example trim_example :
  trim (lit "  hi there  ") = lit "hi there".
Proof. reflexivity. Qed.

Example includes_example :
  includes (lit "ECONNREFUSED") (lit "connect ECONNREFUSED 127.0.0.1:8000") = true.
Proof. reflexivity. Qed.

Example ofNumber_example : ofNumber 500 = lit "500".
Proof. reflexivity. Qed.

Lemma truthy_false_iff (s : jsstring) : truthy s = false <-> s = [].
Proof. destruct s; simpl; split; congruence. Qed.

Lemma truthy_true_iff (s : jsstring) : truthy s = true <-> s <> [].
Proof. destruct s; simpl; split; congruence. Qed.

(** A needle whose first code unit does not occur in the haystack is not
    included in it. *)
Lemma includes_head_absent (c : N) (needle hay : jsstring) :
  forallb (fun x => negb (c =? x)) hay = true ->
  includes (c :: needle) hay = false.
Proof.
  induction hay as [|h hay IH]; simpl; intros H; [reflexivity|].
  apply andb_prop in H as [Hh Hrest].
  apply negb_true_iff in Hh. rewrite Hh. simpl. auto.
Qed.

Definition isDigit (c : N) : bool := (48 <=? c) && (c <=? 57).

Lemma digits_of_uint (d : Decimal.uint) :
  forallb isDigit (lit (NilEmpty.string_of_uint d)) = true.
Proof. induction d; simpl; auto. Qed.

Lemma ofNumber_digits (n : N) : forallb isDigit (ofNumber n) = true.
Proof.
  unfold ofNumber, NilZero.string_of_uint.
  destruct (N.to_uint n) eqn:E; try reflexivity;
    rewrite <- E; apply digits_of_uint.
Qed.

Lemma forallb_weaken {A} (p q : A -> bool) (l : list A) :
  (forall x, p x = true -> q x = true) ->
  forallb p l = true -> forallb q l = true.
Proof.
  intros Hpq. induction l as [|x l IH]; simpl; [auto|].
  intros H. apply andb_prop in H as [Hx Hl].
  rewrite (Hpq _ Hx), (IH Hl). reflexivity.
Qed.

(** A status line [Server error: <status>] never looks like a connection
    failure. *)
Lemma serverError_not_connectionFailure (status : N) :
  isConnectionFailure (lit "Server error: " ++ ofNumber status) = false.
Proof.
  unfold isConnectionFailure.
  assert (Hno : forall c, 58 < c ->
            forallb (fun x => negb (c =? x)) (ofNumber status) = true).
  { intros c Hc. apply (forallb_weaken isDigit); [|apply ofNumber_digits].
    intros x Hx. unfold isDigit in Hx. apply andb_prop in Hx as [_ Hx].
    apply N.leb_le in Hx. apply negb_true_iff, N.eqb_neq. lia. }
  assert (Hhay : forall c, 58 < c -> c <> 83 -> c <> 101 -> c <> 114 ->
            c <> 118 -> c <> 111 ->
            forallb (fun x => negb (c =? x))
                    (lit "Server error: " ++ ofNumber status) = true).
  { intros c Hc H1 H2 H3 H4 H5. rewrite forallb_app, (Hno c Hc), andb_true_r.
    simpl. repeat (apply andb_true_intro; split);
      try reflexivity; apply negb_true_iff, N.eqb_neq; lia. }
  rewrite (includes_head_absent 70 (lit "ailed to fetch")) by (apply Hhay; lia).
  rewrite (includes_head_absent 69 (lit "CONNREFUSED")) by (apply Hhay; lia).
  reflexivity.
Qed.

(** ** Chat: sending a message *)

Definition appEnv : NyayMitraApp.Env :=
  NyayMitraApp.mkEnv 1700000000000 (lit "2023-11-14T22:13:20.000Z") (lit "k3x9ab").

Definition chatEnv : ChatInterface.Env :=
  ChatInterface.mkEnv 1700000000000 (lit "k3x9abq0z1").

Definition appStart : NyayMitraApp.State :=
  NyayMitraApp.initial (lit "session_1700000000000") None.

Definition chatStart : ChatInterface.State :=
  ChatInterface.initial (lit "session_1700000000000").

Lemma guard_blocks (text : jsstring) (loading : bool) :
  trim text = [] \/ loading = true ->
  negb (truthy (trim text)) || loading = true.
Proof.
  intros [H | H]; rewrite H; [reflexivity | apply orb_true_r].
Qed.

Lemma guard_passes (text : jsstring) :
  truthy (trim text) = true ->
  negb (truthy (trim text)) || false = false.
Proof. intros H. rewrite H. reflexivity. Qed.

(** *** A request in flight keeps the loading flag set *)

Module AppFlight.
Import NyayMitraApp.

Record Inv (m : Machine) : Prop := mkInv {
  inv_one : (length (inflight m) <= 1)%nat;
  inv_loading : inflight m <> [] -> isLoading (ui m) = true;
}.

Lemma app_Inv_frame (f : State -> State) (m : Machine) :
  (forall st, isLoading (f st) = isLoading st) ->
  Inv m -> Inv (mkMachine (f (ui m)) (inflight m)).
Proof.
  intros Hf [H1 H2]. split; cbn [ui inflight]; [exact H1|].
  rewrite Hf. exact H2.
Qed.

Lemma app_Inv_send env text m : Inv m -> Inv (send env text m).
Proof.
  intros [H1 H2]. unfold send, sendMessage_begin.
  destruct (negb (truthy (trim text)) || isLoading (ui m)) eqn:G.
  - destruct m; split; assumption.
  - apply orb_false_elim in G as [_ G].
    destruct (inflight m) as [|p rest] eqn:E.
    + split; cbn [ui inflight app length]; [lia | reflexivity].
    + rewrite H2 in G by discriminate. discriminate G.
Qed.

Lemma app_Inv_dispatch e m : Inv m -> Inv (dispatch e m).
Proof.
  intros H. destruct e; cbn [dispatch].
  - apply app_Inv_send, H.
  - apply app_Inv_send. apply (app_Inv_frame (set_activeCategory (Some catId))); auto.
  - destruct H as [H1 H2]. destruct (inflight m) as [|p rest] eqn:E.
    + split; rewrite ?E; [exact H1 | exact H2].
    + cbn [length] in H1. destruct rest; [|cbn [length] in H1; lia].
      split; cbn [ui inflight length]; [lia | congruence].
  - apply (app_Inv_frame (handleNewChat env)); auto.
  - apply (app_Inv_frame (handleSelectChat chatId)); [|exact H].
    intros st. unfold handleSelectChat. destruct (find _ _); reflexivity.
  - apply (app_Inv_frame (handleDeleteChat env chatId)); [|exact H].
    intros st. unfold handleDeleteChat.
    destruct (activeChatId st) as [a|]; [destruct (JsString.eqb a chatId)|];
      reflexivity.
  - apply (app_Inv_frame (fun st => set_sidebarOpen (negb (sidebarOpen st)) st)); auto.
Qed.

Lemma app_Inv_run events m : Inv m -> Inv (run events m).
Proof.
  revert m. induction events as [|e events IH]; intros m H; simpl; [exact H|].
  apply IH, app_Inv_dispatch, H.
Qed.

Lemma app_Inv_mounted sid stored : Inv (mounted sid stored).
Proof. split; simpl; [lia | congruence]. Qed.

End AppFlight.

Module ChatFlight.
Import ChatInterface.

Record Inv (m : Machine) : Prop := mkInv {
  inv_one : (length (inflight m) <= 1)%nat;
  inv_loading : inflight m <> [] -> isLoading (ui m) = true;
}.

Lemma chat_Inv_frame (f : State -> State) (m : Machine) :
  (forall st, isLoading (f st) = isLoading st) ->
  Inv m -> Inv (mkMachine (f (ui m)) (inflight m)).
Proof.
  intros Hf [H1 H2]. split; cbn [ui inflight]; [exact H1|].
  rewrite Hf. exact H2.
Qed.

Lemma chat_Inv_send env text m : Inv m -> Inv (send env text m).
Proof.
  intros [H1 H2]. unfold send, sendMessage_begin.
  destruct (negb (truthy (trim text)) || isLoading (ui m)) eqn:G.
  - destruct m; split; assumption.
  - apply orb_false_elim in G as [_ G].
    destruct (inflight m) as [|p rest] eqn:E.
    + split; cbn [ui inflight app length]; [lia | reflexivity].
    + rewrite H2 in G by discriminate. discriminate G.
Qed.

Lemma chat_Inv_dispatch e m : Inv m -> Inv (dispatch e m).
Proof.
  intros H. destruct e; cbn [dispatch].
  - apply chat_Inv_send, H.
  - apply chat_Inv_send. apply (chat_Inv_frame (set_activeCategory (Some catId))); auto.
  - destruct H as [H1 H2]. destruct (inflight m) as [|p rest] eqn:E.
    + split; rewrite ?E; [exact H1 | exact H2].
    + cbn [length] in H1. destruct rest; [|cbn [length] in H1; lia].
      split; cbn [ui inflight length]; [lia | congruence].
  - apply (chat_Inv_frame (set_inputValue v)); auto.
  - apply (chat_Inv_frame (set_location v)); auto.
Qed.

Lemma chat_Inv_run events m : Inv m -> Inv (run events m).
Proof.
  revert m. induction events as [|e events IH]; intros m H; simpl; [exact H|].
  apply IH, chat_Inv_dispatch, H.
Qed.

Lemma chat_Inv_mounted sid : Inv (mounted sid).
Proof. split; simpl; [lia | congruence]. Qed.

End ChatFlight.

(** C8. When the trimmed input is empty, or while the loading flag is set,
    [sendMessage] of either chat component returns at its guard: it issues
    no request and hands back the very state it was called in, so the
    message list, the error and the loading flag are unchanged.  The
    loading flag is set whenever a request is in flight, whatever the user
    did since the component was mounted. *)
Theorem sendMessage_noop_when_blank_or_loading (text : jsstring) :
  (forall env st,
     trim text = [] \/ NyayMitraApp.isLoading st = true ->
     NyayMitraApp.sendMessage_begin env st text = (st, None))
  /\ (forall env st,
        trim text = [] \/ ChatInterface.isLoading st = true ->
        ChatInterface.sendMessage_begin env st text = (st, None))
  /\ (forall events sid stored env,
        let m := NyayMitraApp.run events (NyayMitraApp.mounted sid stored) in
        trim text = [] \/ NyayMitraApp.inflight m <> [] ->
        NyayMitraApp.dispatch (NyayMitraApp.Send env text) m = m)
  /\ (forall events sid env,
        let m := ChatInterface.run events (ChatInterface.mounted sid) in
        trim text = [] \/ ChatInterface.inflight m <> [] ->
        ChatInterface.dispatch (ChatInterface.Send env text) m = m).
Proof.
  assert (HA : forall env st,
             trim text = [] \/ NyayMitraApp.isLoading st = true ->
             NyayMitraApp.sendMessage_begin env st text = (st, None)).
  { intros env st H. unfold NyayMitraApp.sendMessage_begin.
    rewrite (guard_blocks _ _ H). reflexivity. }
  assert (HC : forall env st,
             trim text = [] \/ ChatInterface.isLoading st = true ->
             ChatInterface.sendMessage_begin env st text = (st, None)).
  { intros env st H. unfold ChatInterface.sendMessage_begin.
    rewrite (guard_blocks _ _ H). reflexivity. }
  split; [exact HA|]. split; [exact HC|]. split.
  - intros events sid stored env m H.
    cbn [NyayMitraApp.dispatch]. unfold NyayMitraApp.send.
    rewrite HA; [destruct m; reflexivity|].
    destruct H as [H|H]; [left; exact H|right].
    apply (AppFlight.inv_loading _
             (AppFlight.app_Inv_run events _ (AppFlight.app_Inv_mounted sid stored))), H.
  - intros events sid env m H.
    cbn [ChatInterface.dispatch]. unfold ChatInterface.send.
    rewrite HC; [destruct m; reflexivity|].
    destruct H as [H|H]; [left; exact H|right].
    apply (ChatFlight.inv_loading _
             (ChatFlight.chat_Inv_run events _ (ChatFlight.chat_Inv_mounted sid))), H.
Qed.

Lemma sendMessage_noop_when_blank_or_loading_witness :
  let blank := [32; 9; 10] in
  let question := lit "What about the penalty?" in
  let m := NyayMitraApp.run [NyayMitraApp.Send appEnv (lit "I was fired")]
             (NyayMitraApp.mounted (lit "session_1700000000000") None) in
  (trim blank = [] \/ ChatInterface.isLoading chatStart = true)
  /\ ChatInterface.sendMessage_begin chatEnv chatStart blank = (chatStart, None)
  /\ (trim question = [] \/ NyayMitraApp.inflight m <> [])
  /\ NyayMitraApp.dispatch (NyayMitraApp.Send appEnv question) m = m.
Proof.
  intros blank question m.
  assert (H1 : trim blank = [] \/ ChatInterface.isLoading chatStart = true)
    by (left; reflexivity).
  assert (H2 : trim question = [] \/ NyayMitraApp.inflight m <> [])
    by (right; discriminate).
  split; [exact H1|].
  split; [exact (proj1 (proj2 (sendMessage_noop_when_blank_or_loading blank))
                   chatEnv chatStart H1)|].
  split; [exact H2|].
  exact (proj1 (proj2 (proj2 (sendMessage_noop_when_blank_or_loading question)))
           [NyayMitraApp.Send appEnv (lit "I was fired")]
           (lit "session_1700000000000") None appEnv H2).
Defined.

(** C4 as stated fails: a non-empty message submitted while a request is in
    flight (a topic click in the sidebar, say) is dropped at the guard, and
    so is a message of white space only. *)
Lemma sendMessage_drops_nonempty_message :
  let busy := NyayMitraApp.set_isLoading true appStart in
  lit "Tell me about Criminal Law in India" <> []
  /\ snd (NyayMitraApp.sendMessage_begin appEnv busy
            (lit "Tell me about Criminal Law in India")) = None
  /\ lit "   " <> []
  /\ snd (ChatInterface.sendMessage_begin chatEnv chatStart (lit "   ")) = None.
Proof. repeat split; discriminate. Qed.

(** C4, amended.  For every message whose trimmed text is non-empty,
    submitted while no request is in flight, either chat component puts
    the user message (the trimmed text) at the end of the conversation and
    issues one POST to [/api/chat] whose JSON body has exactly the fields
    [message] (the trimmed text), [location] and [session_id]; when the
    answer is 2xx, its [reply] is appended as a bot message that carries
    the answer's [category] (absent when the answer has none): on the chat
    page after the conversation as it stood with the user message, in the
    other component after the list as it stands when the answer arrives.
    A message submitted while the loading flag is set, or made of white
    space only, is dropped without a request and without a change. *)
Theorem sendMessage_posts_and_appends_reply (text : jsstring) :
  (truthy (trim text) = true ->
   (forall env st, NyayMitraApp.isLoading st = false ->
      exists st' p userMsg,
        NyayMitraApp.sendMessage_begin env st text = (st', Some p)
        /\ NyayMitraApp.request p =
             mkRequest "/api/chat" "POST" "application/json"
               [ ("message"%string, trim text);
                 ("location"%string, NyayMitraApp.LOCATION);
                 ("session_id"%string, NyayMitraApp.sessionId st) ]
        /\ role userMsg = user /\ content userMsg = trim text
        /\ NyayMitraApp.messages st' = NyayMitraApp.messages st ++ [userMsg]
        /\ NyayMitraApp.newMessages p = NyayMitraApp.messages st ++ [userMsg]
        /\ forall env' data st1,
             exists botMsg,
               NyayMitraApp.messages
                 (NyayMitraApp.sendMessage_settle env' p (Ok data) st1)
               = NyayMitraApp.messages st ++ [userMsg; botMsg]
               /\ role botMsg = bot
               /\ content botMsg = reply data
               /\ category botMsg = data_category data)
   /\
   (forall env st, ChatInterface.isLoading st = false ->
      exists st' p userMsg,
        ChatInterface.sendMessage_begin env st text = (st', Some p)
        /\ ChatInterface.request p =
             mkRequest "/api/chat" "POST" "application/json"
               [ ("message"%string, trim text);
                 ("location"%string, ChatInterface.location st);
                 ("session_id"%string, ChatInterface.sessionId st) ]
        /\ role userMsg = user /\ content userMsg = trim text
        /\ ChatInterface.messages st' = ChatInterface.messages st ++ [userMsg]
        /\ forall env' data st1,
             exists botMsg,
               ChatInterface.messages
                 (ChatInterface.sendMessage_settle env' p (Ok data) st1)
               = ChatInterface.messages st1 ++ [botMsg]
               /\ role botMsg = bot
               /\ content botMsg = reply data
               /\ category botMsg = data_category data))
  /\ (forall env st,
        trim text = [] \/ NyayMitraApp.isLoading st = true ->
        NyayMitraApp.sendMessage_begin env st text = (st, None))
  /\ (forall env st,
        trim text = [] \/ ChatInterface.isLoading st = true ->
        ChatInterface.sendMessage_begin env st text = (st, None)).
Proof.
  split; [|split].
  - intros Htext. split; intros env st Hload.
    + unfold NyayMitraApp.sendMessage_begin.
      rewrite Hload, (guard_passes _ Htext).
      eexists _, _,
        (mkMessage (ofNumber (NyayMitraApp.now env) ++ lit "_user") user
                   (trim text) (NyayMitraApp.now env) None None).
      split; [reflexivity|]. split; [reflexivity|].
      split; [reflexivity|]. split; [reflexivity|].
      split; [reflexivity|]. split; [reflexivity|].
      intros env' data st1.
      exists (NyayMitraApp.botMessage env' (reply data) (data_category data)).
      split; [|repeat split].
      unfold NyayMitraApp.sendMessage_settle, NyayMitraApp.saveCurrentChat.
      cbn [caughtMessage NyayMitraApp.newMessages NyayMitraApp.savedChatId].
      rewrite <- app_assoc. cbn [app].
      destruct (NyayMitraApp.messages st ++ _) eqn:E in |- *.
      * destruct (NyayMitraApp.messages st); discriminate E.
      * rewrite <- E.
        destruct (NyayMitraApp.noActiveChat _);
          destruct (data_category data) as [c|]; try destruct (truthy c);
          reflexivity.
    + unfold ChatInterface.sendMessage_begin.
      rewrite Hload, (guard_passes _ Htext).
      eexists _, _,
        (mkMessage (ofNumber (ChatInterface.now env) ++ lit "_"
                    ++ ChatInterface.random36 env)
                   user (trim text) (ChatInterface.now env) None
                   (Some (ChatInterface.location st))).
      split; [reflexivity|]. split; [reflexivity|].
      split; [reflexivity|]. split; [reflexivity|].
      split; [reflexivity|].
      intros env' data st1.
      exists (mkMessage
                (ofNumber (ChatInterface.now env') ++ lit "_"
                 ++ ChatInterface.random36 env')
                bot (reply data) (ChatInterface.now env') (data_category data)
                (Some (ChatInterface.location st))).
      split; [|repeat split].
      unfold ChatInterface.sendMessage_settle. simpl.
      destruct (data_category data) as [c|]; [destruct (truthy c)|]; reflexivity.
  - intros env st H. unfold NyayMitraApp.sendMessage_begin.
    rewrite (guard_blocks _ _ H). reflexivity.
  - intros env st H. unfold ChatInterface.sendMessage_begin.
    rewrite (guard_blocks _ _ H). reflexivity.
Qed.

Lemma sendMessage_posts_and_appends_reply_witness :
  let text := lit "  My landlord won't return my deposit " in
  truthy (trim text) = true
  /\ NyayMitraApp.isLoading appStart = false
  /\ exists st' p,
       NyayMitraApp.sendMessage_begin appEnv appStart text = (st', Some p)
       /\ keys (body (NyayMitraApp.request p))
          = [ "message"; "location"; "session_id" ]%string
       /\ field "message" (body (NyayMitraApp.request p))
          = Some (lit "My landlord won't return my deposit").
Proof.
  intros text.
  split; [reflexivity|]. split; [reflexivity|].
  destruct (proj1 (sendMessage_posts_and_appends_reply text) eq_refl) as [HA _].
  destruct (HA appEnv appStart eq_refl) as (st' & p & u & Hb & Hr & _).
  exists st', p. split; [exact Hb|]. rewrite Hr. split; reflexivity.
Defined.

(** ** Chat: what a request says about the conversation *)

Definition firstTurn : list Message :=
  [ mkMessage (lit "1699999990000_user") user (lit "I was fired yesterday")
      1699999990000 None None;
    mkMessage (lit "1699999995000_bot") bot (lit "You may claim notice pay.")
      1699999995000 (Some (lit "labour")) None ].

Definition otherTurn : list Message :=
  [ mkMessage (lit "1699999990000_user") user (lit "My landlord kept my deposit")
      1699999990000 None None;
    mkMessage (lit "1699999995000_bot") bot (lit "Send a written demand.")
      1699999995000 (Some (lit "property")) None ].

(** C1 as stated fails: the request of a follow-up message does not carry
    the prior conversation.  Two clients holding different histories send
    the very same request for the same text, so nothing computed from the
    request can give back the history the client holds. *)
Lemma request_does_not_carry_history :
  ~ exists decode : Request -> list Message,
      forall env st text p,
        NyayMitraApp.messages st <> [] ->
        snd (NyayMitraApp.sendMessage_begin env st text) = Some p ->
        decode (NyayMitraApp.request p) = NyayMitraApp.messages st.
Proof.
  intros [decode H].
  pose (st1 := NyayMitraApp.set_messages firstTurn appStart).
  pose (st2 := NyayMitraApp.set_messages otherTurn appStart).
  pose (text := lit "What about the penalty?").
  assert (H1 := H appEnv st1 text _ ltac:(discriminate) eq_refl).
  assert (H2 := H appEnv st2 text _ ltac:(discriminate) eq_refl).
  simpl in H1, H2. rewrite H1 in H2. discriminate H2.
Qed.

(** C1, amended.  The conversation is held by the client alone: a message
    that passes the guard is appended to the client's own list, and the
    request sent for it is built from the trimmed text, the location and
    the session id only, so it is the same whatever history the client
    holds. *)
Theorem request_independent_of_history
    (text : jsstring)
    (envA : NyayMitraApp.Env) (stA stA' : NyayMitraApp.State)
    (pA : NyayMitraApp.Pending)
    (envC : ChatInterface.Env) (stC stC' : ChatInterface.State)
    (pC : ChatInterface.Pending) :
  NyayMitraApp.sendMessage_begin envA stA text = (stA', Some pA) ->
  ChatInterface.sendMessage_begin envC stC text = (stC', Some pC) ->
  (NyayMitraApp.request pA
     = chatRequest (trim text) NyayMitraApp.LOCATION (NyayMitraApp.sessionId stA)
   /\ (exists userMsg,
         NyayMitraApp.messages stA' = NyayMitraApp.messages stA ++ [userMsg]
         /\ role userMsg = user /\ content userMsg = trim text)
   /\ forall env history,
        exists st' p,
          NyayMitraApp.sendMessage_begin env
            (NyayMitraApp.set_messages history stA) text = (st', Some p)
          /\ NyayMitraApp.request p = NyayMitraApp.request pA)
  /\
  (ChatInterface.request pC
     = chatRequest (trim text) (ChatInterface.location stC)
                   (ChatInterface.sessionId stC)
   /\ (exists userMsg,
         ChatInterface.messages stC' = ChatInterface.messages stC ++ [userMsg]
         /\ role userMsg = user /\ content userMsg = trim text)
   /\ forall env history,
        exists st' p,
          ChatInterface.sendMessage_begin env
            (ChatInterface.set_messages history stC) text = (st', Some p)
          /\ ChatInterface.request p = ChatInterface.request pC).
Proof.
  unfold NyayMitraApp.sendMessage_begin, ChatInterface.sendMessage_begin.
  intros HA HC. split.
  - destruct (negb (truthy (trim text)) || NyayMitraApp.isLoading stA) eqn:G;
      [discriminate|].
    injection HA as <- <-. simpl.
    split; [reflexivity|]. split.
    + eexists. split; [reflexivity|]. split; reflexivity.
    + intros env history. rewrite G. eexists _, _. split; reflexivity.
  - destruct (negb (truthy (trim text)) || ChatInterface.isLoading stC) eqn:G;
      [discriminate|].
    injection HC as <- <-. simpl.
    split; [reflexivity|]. split.
    + eexists. split; [reflexivity|]. split; reflexivity.
    + intros env history. rewrite G. eexists _, _. split; reflexivity.
Qed.

Lemma request_independent_of_history_witness :
  let text := lit "What about the penalty?" in
  let stA := NyayMitraApp.set_messages firstTurn appStart in
  let stC := ChatInterface.set_messages firstTurn chatStart in
  exists stA' pA stC' pC,
    NyayMitraApp.sendMessage_begin appEnv stA text = (stA', Some pA)
    /\ ChatInterface.sendMessage_begin chatEnv stC text = (stC', Some pC)
    /\ NyayMitraApp.request pA
       = chatRequest text NyayMitraApp.LOCATION (lit "session_1700000000000")
    /\ ChatInterface.request pC
       = chatRequest text (lit "Bengaluru, Karnataka") (lit "session_1700000000000").
Proof.
  intros text stA stC.
  eexists _, _, _, _.
  split; [reflexivity|]. split; [reflexivity|].
  pose proof (request_independent_of_history text appEnv stA _ _ chatEnv stC _ _
                eq_refl eq_refl) as [[HA _] [HC _]].
  split; [exact HA | exact HC].
Defined.

(** ** Chat: answers that are not 2xx *)

(** C6 as stated fails: a non-2xx answer whose [detail] mentions
    [ECONNREFUSED] is taken for an unreachable backend; a bot message is
    appended and no error is shown. *)
Lemma not_ok_answer_can_append_bot_message :
  let out : FetchOutcome ChatData :=
    NotOk 502 (Some (lit "connect ECONNREFUSED 127.0.0.1:8000")) in
  (exists stA pA,
     NyayMitraApp.sendMessage_begin appEnv appStart (lit "hello") = (stA, Some pA)
     /\ let stA' := NyayMitraApp.sendMessage_settle appEnv pA out stA in
        NyayMitraApp.messages stA'
          = NyayMitraApp.messages stA
            ++ [NyayMitraApp.botMessage appEnv BACKEND_NOT_CONNECTED None]
        /\ NyayMitraApp.error stA' = None)
  /\
  (exists stC pC,
     ChatInterface.sendMessage_begin chatEnv chatStart (lit "hello") = (stC, Some pC)
     /\ let stC' := ChatInterface.sendMessage_settle chatEnv pC out stC in
        length (ChatInterface.messages stC')
          = S (length (ChatInterface.messages stC))
        /\ ChatInterface.error stC' = None).
Proof.
  split; eexists _, _; (split; [reflexivity|]); split; reflexivity.
Qed.

(** The outcomes that are an answer with a non-2xx status. *)
Definition answeredNotOk {D} (out : FetchOutcome D) : bool :=
  match out with
  | NotOk _ _ | NotOkNull _ _ | NotOkDetail _ _ _ => true
  | Threw _ | Ok _ => false
  end.

(** C6, amended.  Whenever [/api/chat] answers with a non-2xx status the
    chat UI clears the loading flag and goes by an error text: the body's
    [detail] when that is a non-empty string; [Server error: <status>]
    when the body is not JSON or its [detail] is absent, an empty string
    or another falsy value; the [TypeError] text when the body is null;
    the string form of a truthy [detail] that is not a string.  When that
    text contains neither [Failed to fetch] nor [ECONNREFUSED], as is
    always so for [Server error: <status>], the UI appends no message,
    leaves the message list (and, on the chat page, the stored history)
    unchanged and shows [Error: <text>. Please try again.].  When the text
    contains one of the two, the UI instead appends the canned
    backend-not-connected reply as a bot message (on the chat page after
    the conversation as it stood with the user message) and leaves the
    error as it was. *)
Theorem not_ok_answer_shows_try_again
    (out : FetchOutcome ChatData)
    (env0 envA : NyayMitraApp.Env) (stA0 stA1 stA : NyayMitraApp.State)
    (textA : jsstring) (pA : NyayMitraApp.Pending)
    (envC : ChatInterface.Env) (pC : ChatInterface.Pending)
    (stC : ChatInterface.State) :
  answeredNotOk out = true ->
  NyayMitraApp.sendMessage_begin env0 stA0 textA = (stA1, Some pA) ->
  let stA' := NyayMitraApp.sendMessage_settle envA pA out stA in
  let stC' := ChatInterface.sendMessage_settle envC pC out stC in
  let serverError status := lit "Server error: " ++ ofNumber status in
  exists text,
    caughtMessage (lit "Failed to get response") out = inl text
    (* the error text *)
    /\ (forall status d, out = NotOk status (Some d) -> d <> [] -> text = d)
    /\ (forall status, out = NotOk status (Some []) -> text = serverError status)
    /\ (forall status, out = NotOk status None -> text = serverError status)
    /\ (forall status typeError, out = NotOkNull status typeError ->
          text = typeError)
    /\ (forall status t, out = NotOkDetail status true t -> text = t)
    /\ (forall status t, out = NotOkDetail status false t ->
          text = serverError status)
    /\ (forall status, isConnectionFailure (serverError status) = false)
    (* the loading flag *)
    /\ NyayMitraApp.isLoading stA' = false
    /\ ChatInterface.isLoading stC' = false
    (* a text without a marker *)
    /\ (isConnectionFailure text = false ->
        (NyayMitraApp.messages stA' = NyayMitraApp.messages stA
         /\ NyayMitraApp.chatHistory stA' = NyayMitraApp.chatHistory stA
         /\ NyayMitraApp.error stA'
            = Some (lit "Error: " ++ text ++ lit ". Please try again."))
        /\ (ChatInterface.messages stC' = ChatInterface.messages stC
            /\ ChatInterface.error stC'
               = Some (lit "Error: " ++ text ++ lit ". Please try again.")))
    (* a text with a marker *)
    /\ (isConnectionFailure text = true ->
        (NyayMitraApp.messages stA'
         = NyayMitraApp.messages stA1
           ++ [NyayMitraApp.botMessage envA BACKEND_NOT_CONNECTED None]
         /\ NyayMitraApp.error stA' = NyayMitraApp.error stA)
        /\ (exists botMsg,
              ChatInterface.messages stC' = ChatInterface.messages stC ++ [botMsg]
              /\ role botMsg = bot /\ content botMsg = BACKEND_NOT_CONNECTED
              /\ category botMsg = None)
        /\ ChatInterface.error stC' = ChatInterface.error stC).
Proof.
  intros Hnot Hbegin. cbv zeta.
  assert (Hnew : NyayMitraApp.newMessages pA = NyayMitraApp.messages stA1
                 /\ NyayMitraApp.newMessages pA <> []).
  { unfold NyayMitraApp.sendMessage_begin in Hbegin.
    destruct (negb (truthy (trim textA)) || NyayMitraApp.isLoading stA0);
      [discriminate Hbegin|].
    injection Hbegin as <- <-. split; [reflexivity|].
    cbn [NyayMitraApp.newMessages].
    destruct (NyayMitraApp.messages stA0); discriminate. }
  destruct Hnew as [Hnew Hne].
  destruct (caughtMessage (lit "Failed to get response") out) as [text|data] eqn:E.
  2: { destruct out; discriminate. }
  exists text. split; [reflexivity|].
  split.
  { intros status d -> Hd. cbv [caughtMessage serverErrorMessage] in E.
    apply truthy_true_iff in Hd. rewrite Hd in E. congruence. }
  split.
  { intros status ->. cbv [caughtMessage serverErrorMessage truthy] in E.
    congruence. }
  split.
  { intros status ->. cbv [caughtMessage serverErrorMessage] in E. congruence. }
  split.
  { intros status typeError ->. cbv [caughtMessage] in E. congruence. }
  split.
  { intros status t ->. cbv [caughtMessage] in E. congruence. }
  split.
  { intros status t ->. cbv [caughtMessage] in E. congruence. }
  split; [apply serverError_not_connectionFailure|].
  unfold NyayMitraApp.sendMessage_settle, ChatInterface.sendMessage_settle.
  rewrite E.
  split; [reflexivity|]. split; [reflexivity|]. split.
  - intros Hc. rewrite Hc. repeat split.
  - intros Hc. rewrite Hc. split; [|split].
    + unfold NyayMitraApp.saveCurrentChat. rewrite <- Hnew.
      destruct (NyayMitraApp.newMessages pA ++ _) eqn:E2;
        [destruct (NyayMitraApp.newMessages pA); discriminate E2|].
      rewrite <- E2.
      destruct (NyayMitraApp.noActiveChat _); split; reflexivity.
    + eexists. split; [reflexivity|]. repeat split.
    + reflexivity.
Qed.

Lemma not_ok_answer_shows_try_again_witness :
  let out : FetchOutcome ChatData := NotOk 500 None in
  answeredNotOk out = true
  /\ exists stA1 pA,
       NyayMitraApp.sendMessage_begin appEnv
         (NyayMitraApp.set_messages firstTurn appStart) (lit "hello")
       = (stA1, Some pA)
       /\ NyayMitraApp.messages
            (NyayMitraApp.sendMessage_settle appEnv pA out stA1)
          = NyayMitraApp.messages stA1
       /\ NyayMitraApp.error
            (NyayMitraApp.sendMessage_settle appEnv pA out stA1)
          = Some (lit "Error: Server error: 500. Please try again.").
Proof.
  intros out.
  split; [reflexivity|].
  eexists _, _. split; [reflexivity|].
  match goal with |- NyayMitraApp.messages (_ _ ?p _ ?st1) = _ /\ _ =>
    destruct (not_ok_answer_shows_try_again out appEnv appEnv
                (NyayMitraApp.set_messages firstTurn appStart) st1 st1
                (lit "hello") p chatEnv
                (ChatInterface.mkPending (NyayMitraApp.request p) (lit "x"))
                chatStart eq_refl eq_refl)
      as (text & _ & _ & _ & Hnone & _ & _ & _ & Hsafe & _ & _ & Hplain & _)
  end.
  rewrite (Hnone 500 eq_refl) in Hplain.
  destruct (Hplain (Hsafe 500)) as [(Hm & _ & He) _].
  split; [exact Hm | exact He].
Defined.

(** ** The rights-card wizard *)

Module WizardFacts.
Import RightsCardGenerator.

Definition sampleCard : RightsCardData :=
  {| title := lit "Know Your Rights: Arrest";
     situation := lit "arrested";
     situation_summary := lit "You have been arrested or detained.";
     icon := [55357; 56980];
     language := lit "English";
     your_rights := [lit "Right to know the grounds of arrest"];
     they_cannot := [lit "Detain you beyond 24 hours without a magistrate"];
     do_next := [lit "Ask for a lawyer"];
     emergency_contacts := [lit "NALSA: 15100"];
     relevant_laws := [lit "Article 22"];
     is_mock := Some true |}.

(** A session that walks the wizard forward to its result. *)
Definition forwardSession : list Event :=
  [ ClickSituation 0; ClickLanguage 2; ClickGenerate; Settled (Ok sampleCard) ].

Example forwardSession_reaches_result :
  let m := run forwardSession (mounted (lit "Bengaluru, Karnataka")) in
  step (ui m) = result
  /\ cardData (ui m) = Some sampleCard
  /\ sent m = [rightsCardRequest (lit "arrested") (lit "Kannada")
                                 (lit "Bengaluru, Karnataka")].
Proof. repeat split. Qed.

(** C3. The wizard's step is one of [select], [configure], [result].  The
    flow goes forward from [select] to [configure] by choosing a situation
    and on to [result] by a generated card; nothing leads forward out of
    [result], whose only exits are back (to [configure]) and reset (to
    [select]).  Going back from [result] re-enters [configure] and clears
    the card; going back from [configure] re-enters [select] and clears the
    selected situation. *)
Theorem wizard_three_steps_back_resets_downstream :
  (forall s : Step, s = select \/ s = configure \/ s = result)
  /\ (forall st,
        step st = result ->
        step (handleBack st) = configure
        /\ cardData (handleBack st) = None
        /\ selectedSituation (handleBack st) = selectedSituation st
        /\ selectedLanguage (handleBack st) = selectedLanguage st)
  /\ (forall st,
        step st = configure ->
        step (handleBack st) = select
        /\ selectedSituation (handleBack st) = None)
  /\ (forall st, step st = select -> handleBack st = st)
  /\ (forall e m,
        step (ui m) = result ->
        step (ui (dispatch e m)) = result
        \/ (e = ClickBack /\ step (ui (dispatch e m)) = configure
            /\ cardData (ui (dispatch e m)) = None)
        \/ (e = ClickReset
            /\ ui (dispatch e m) = set_isGenerating (isGenerating (ui m)) initial))
  /\ (forall i sit m,
        step (ui m) = select -> SITUATIONS !! i = Some sit ->
        step (ui (dispatch (ClickSituation i) m)) = configure
        /\ selectedSituation (ui (dispatch (ClickSituation i) m))
           = Some (sit_id sit))
  /\ (forall data m,
        (0 < inflight m)%nat ->
        step (ui (dispatch (Settled (Ok data)) m)) = result
        /\ cardData (ui (dispatch (Settled (Ok data)) m)) = Some data).
Proof.
  split; [intros []; auto|].
  split; [intros st H; unfold handleBack; rewrite H; repeat split|].
  split; [intros st H; unfold handleBack; rewrite H; repeat split|].
  split; [intros st H; unfold handleBack; rewrite H; reflexivity|].
  split; [|split].
  - intros e m H. unfold dispatch. rewrite H.
    destruct e; auto.
    + right; left. unfold with_ui, handleBack. simpl. rewrite H. auto.
    + destruct (isSome (cardData (ui m)));
        [right; right; split; reflexivity | left; exact H].
    + destruct (isSome (cardData (ui m))); left; simpl; exact H.
    + destruct (inflight m); [left; exact H|].
      left. simpl. unfold handleGenerate_settle.
      destruct (caughtMessage _ out) as [message|data];
        [destruct (isConnectionFailure message)|]; simpl; auto.
    + destruct (inflight m); [left; exact H|]. left. reflexivity.
  - intros i sit m H Hi. unfold dispatch. rewrite H, Hi. split; reflexivity.
  - intros data m H. unfold dispatch.
    destruct (inflight m); [lia|].
    destruct (step (ui m)); split; reflexivity.
Qed.

Lemma wizard_three_steps_back_resets_downstream_witness :
  let shown := ui (run forwardSession (mounted (lit "Bengaluru, Karnataka"))) in
  step shown = result
  /\ step (handleBack shown) = configure
  /\ cardData (handleBack shown) = None
  /\ step (handleBack shown) = configure
  /\ step (handleBack (handleBack shown)) = select
  /\ selectedSituation (handleBack (handleBack shown)) = None.
Proof.
  intros shown.
  destruct wizard_three_steps_back_resets_downstream
    as (_ & Hresult & Hconfigure & _).
  destruct (Hresult shown eq_refl) as (H1 & H2 & _).
  destruct (Hconfigure (handleBack shown) H1) as (H3 & H4).
  repeat split; assumption.
Defined.

(** *** Requests of the wizard *)

Definition offeredSituation (s : jsstring) : Prop :=
  exists sit, In sit SITUATIONS /\ s = sit_id sit.

Definition offeredLanguage (l : jsstring) : Prop :=
  exists lang, In lang LANGUAGES /\ l = lang_id lang.

Definition goodRequest (r : Request) : Prop :=
  exists s l location,
    offeredSituation s /\ offeredLanguage l
    /\ r = rightsCardRequest s l location.

Record Inv (m : Machine) : Prop := mkInv {
  inv_situation :
    forall s, selectedSituation (ui m) = Some s -> offeredSituation s;
  inv_language : offeredLanguage (selectedLanguage (ui m));
  inv_sent : Forall goodRequest (sent m);
}.

Lemma lookup_In {A} (l : list A) (i : nat) (x : A) : l !! i = Some x -> In x l.
Proof.
  revert i. induction l as [|y l IH]; intros [|i] H; simpl in *;
    try discriminate.
  - left. congruence.
  - right. eauto.
Qed.

Lemma english_offered : offeredLanguage (lit "English").
Proof. eexists. split; [left; reflexivity | reflexivity]. Qed.

Lemma wizard_Inv_mounted (location : jsstring) : Inv (mounted location).
Proof.
  split; simpl; [discriminate | apply english_offered | constructor].
Qed.

Lemma settle_keeps_selection out st :
  selectedSituation (handleGenerate_settle out st) = selectedSituation st
  /\ selectedLanguage (handleGenerate_settle out st) = selectedLanguage st.
Proof.
  unfold handleGenerate_settle.
  destruct (caughtMessage _ out) as [message|data];
    [destruct (isConnectionFailure message)|]; split; reflexivity.
Qed.

Lemma wizard_Inv_dispatch (e : Event) (m : Machine) : Inv m -> Inv (dispatch e m).
Proof.
  intros [Hs Hl Hr]. unfold dispatch.
  destruct e as [i|i| | | | |out|location| ], (step (ui m)) eqn:Hstep;
    try (split; assumption).
  - (* a situation card *)
    destruct (SITUATIONS !! i) as [sit|] eqn:Hi; [|split; assumption].
    split; simpl; try assumption.
    intros s [= <-]. exists sit. split; [eapply lookup_In; eauto | reflexivity].
  - (* a language pill *)
    destruct (LANGUAGES !! i) as [lang|] eqn:Hi; [|split; assumption].
    split; simpl; try assumption.
    exists lang. split; [eapply lookup_In; eauto | reflexivity].
  - (* generate *)
    destruct (isGenerating (ui m)); [split; assumption|].
    unfold handleGenerate_begin.
    destruct (selectedSituation (ui m)) as [s|] eqn:Hsel;
      [|split; simpl; try rewrite Hsel; assumption || discriminate].
    destruct (negb (truthy s));
      [split; simpl; try rewrite Hsel; assumption|].
    split; simpl; try rewrite Hsel; try assumption.
    apply Forall_app. split; [assumption|].
    constructor; [|constructor].
    exists s, (selectedLanguage (ui m)), (prop_location m). auto.
  - (* back from configure *)
    split; simpl; unfold handleBack; rewrite ?Hstep; simpl;
      try assumption; discriminate.
  - (* back from result *)
    split; simpl; unfold handleBack; rewrite ?Hstep; simpl; assumption.
  - (* reset *)
    destruct (isSome (cardData (ui m))); [|split; assumption].
    split; simpl; [discriminate | apply english_offered | assumption].
  - (* failed download *)
    destruct (isSome (cardData (ui m))); split; assumption.
  - destruct (inflight m); [split; assumption|].
    destruct (settle_keeps_selection out (ui m)) as [E1 E2].
    split; cbn [ui sent]; rewrite ?E1, ?E2; assumption.
  - destruct (inflight m); [split; assumption|].
    destruct (settle_keeps_selection out (ui m)) as [E1 E2].
    split; cbn [ui sent]; rewrite ?E1, ?E2; assumption.
  - destruct (inflight m); [split; assumption|].
    destruct (settle_keeps_selection out (ui m)) as [E1 E2].
    split; cbn [ui sent]; rewrite ?E1, ?E2; assumption.
  - destruct (inflight m); split; simpl; assumption.
  - destruct (inflight m); split; simpl; assumption.
  - destruct (inflight m); split; simpl; assumption.
Qed.

Lemma wizard_Inv_run (events : list Event) (m : Machine) : Inv m -> Inv (run events m).
Proof.
  revert m. induction events as [|e events IH]; intros m H; simpl; [exact H|].
  apply IH, wizard_Inv_dispatch, H.
Qed.

End WizardFacts.

Module PageFacts.
Import RightsCardPage.

Definition goodRequest (r : Request) : Prop :=
  exists s l,
    In s SITUATIONS /\ In l LANGUAGES
    /\ body r = [ ("situation"%string, s); ("language"%string, l) ].

Record Inv (m : Machine) : Prop := mkInv {
  inv_situation : In (situation (ui m)) SITUATIONS;
  inv_language : In (language (ui m)) LANGUAGES;
  inv_sent : Forall goodRequest (sent m);
}.

Lemma page_Inv_mounted : Inv mounted.
Proof. split; simpl; auto. Qed.

Lemma page_Inv_dispatch apiBase (e : Event) (m : Machine) :
  Inv m -> Inv (dispatch apiBase e m).
Proof.
  intros [Hs Hl Hr]. unfold dispatch. destruct e as [i|i| |out| ].
  - destruct (SITUATIONS !! i) as [s|] eqn:Hi; [|split; assumption].
    split; cbn [ui sent situation language setSituation]; try assumption.
    eapply WizardFacts.lookup_In; eauto.
  - destruct (LANGUAGES !! i) as [l|] eqn:Hi; [|split; assumption].
    split; cbn [ui sent situation language setLanguage]; try assumption.
    eapply WizardFacts.lookup_In; eauto.
  - destruct (loading (ui m)); [split; assumption|].
    split; cbn [ui sent situation language handleGenerate_begin];
      try assumption.
    apply Forall_app. split; [assumption|].
    constructor; [|constructor].
    exists (situation (ui m)), (language (ui m)). auto.
  - destruct (inflight m); [split; assumption|].
    split; cbn [ui sent]; try assumption;
      destruct out as [[msg|]|data|status detail|status te|status b text];
      assumption.
  - destruct (inflight m); [split; assumption|].
    split; cbn [ui sent]; assumption.
Qed.

Lemma page_Inv_run apiBase (events : list Event) (m : Machine) :
  Inv m -> Inv (run apiBase events m).
Proof.
  revert m. induction events as [|e events IH]; intros m H; simpl; [exact H|].
  apply IH, page_Inv_dispatch, H.
Qed.

End PageFacts.

(** C2 as stated fails for the standalone rights-card page: the body it
    posts has the two fields [situation] and [language] and no
    [location], and its situation is one of the page's own labels, not one
    of the wizard's situation ids. *)
Lemma page_request_has_no_location :
  let m := RightsCardPage.run "http://localhost:8000"
             [RightsCardPage.ClickGenerate] RightsCardPage.mounted in
  exists r,
    RightsCardPage.sent m = [r]
    /\ url r = "http://localhost:8000/api/rights-card"%string
    /\ keys (body r) = [ "situation"; "language" ]%string
    /\ keys (body r) <> [ "situation"; "language"; "location" ]%string
    /\ field "location" (body r) = None
    /\ field "situation" (body r) = Some (lit "Arrested by Police")
    /\ ~ In (lit "Arrested by Police")
            (map RightsCardGenerator.sit_id RightsCardGenerator.SITUATIONS).
Proof.
  eexists. split; [reflexivity|]. repeat split; try discriminate.
  simpl. intros H. repeat destruct H as [H|H]; try discriminate H. exact H.
Qed.

(** C2, amended.  Every request the rights-card wizard sends to
    [/api/rights-card] has a JSON body with exactly the three fields
    [situation], [language] and [location], its situation being the id of
    one of the four offered situations and its language the id of one of
    the three offered languages.  Every request the standalone page sends
    has exactly the two fields [situation] and [language], drawn from the
    page's own six situations and six languages. *)
Theorem rights_card_request_bodies :
  (forall location events r,
     In r (RightsCardGenerator.sent
             (RightsCardGenerator.run events
                (RightsCardGenerator.mounted location))) ->
     url r = "/api/rights-card"%string /\ method r = "POST"%string
     /\ keys (body r) = [ "situation"; "language"; "location" ]%string
     /\ (exists sit, In sit RightsCardGenerator.SITUATIONS
           /\ field "situation" (body r) = Some (RightsCardGenerator.sit_id sit))
     /\ (exists lang, In lang RightsCardGenerator.LANGUAGES
           /\ field "language" (body r) = Some (RightsCardGenerator.lang_id lang)))
  /\
  (forall apiBase events r,
     In r (RightsCardPage.sent
             (RightsCardPage.run apiBase events RightsCardPage.mounted)) ->
     keys (body r) = [ "situation"; "language" ]%string
     /\ (exists s, In s RightsCardPage.SITUATIONS
           /\ field "situation" (body r) = Some s)
     /\ (exists l, In l RightsCardPage.LANGUAGES
           /\ field "language" (body r) = Some l)).
Proof.
  split.
  - intros location events r Hin.
    pose proof (WizardFacts.inv_sent _
                  (WizardFacts.wizard_Inv_run events _ (WizardFacts.wizard_Inv_mounted location)))
      as Hall.
    rewrite List.Forall_forall in Hall.
    destruct (Hall r Hin) as (s & l & loc & [sit [Hsit ->]] & [lang [Hlang ->]] & ->).
    repeat split; eauto.
  - intros apiBase events r Hin.
    pose proof (PageFacts.inv_sent _
                  (PageFacts.page_Inv_run apiBase events _ PageFacts.page_Inv_mounted))
      as Hall.
    rewrite List.Forall_forall in Hall.
    destruct (Hall r Hin) as (s & l & Hs & Hl & ->).
    repeat split; eauto.
Qed.

Lemma rights_card_request_bodies_witness :
  let r := RightsCardGenerator.rightsCardRequest
             (lit "arrested") (lit "Kannada") (lit "Bengaluru, Karnataka") in
  In r (RightsCardGenerator.sent
          (RightsCardGenerator.run WizardFacts.forwardSession
             (RightsCardGenerator.mounted (lit "Bengaluru, Karnataka"))))
  /\ keys (body r) = [ "situation"; "language"; "location" ]%string.
Proof.
  intros r.
  assert (Hin : In r (RightsCardGenerator.sent
                        (RightsCardGenerator.run WizardFacts.forwardSession
                           (RightsCardGenerator.mounted (lit "Bengaluru, Karnataka")))))
    by (left; reflexivity).
  split; [exact Hin|].
  destruct rights_card_request_bodies as [Hwizard _].
  exact (proj1 (proj2 (proj2 (Hwizard _ _ r Hin)))).
Defined.

(** ** The shape of a rights card *)

(** C5 as stated fails: the two rights-card clients read different
    records.  The page's interface has five members, four of the wizard's
    eleven are not even shared by name, and the wizard's own interface
    has a member, [icon], that is none of the specification's ten fields. *)
Lemma rights_card_clients_read_different_shapes :
  RightsCardPage.RightsCard_fields <> RightsCardGenerator.RightsCardData_fields
  /\ SpecShape.covered RightsCardPage.RightsCard_fields
     <> SpecShape.RightsCard_shape
  /\ SpecShape.unmatched RightsCardGenerator.RightsCardData_fields
     = [ "icon"%string ]
  /\ length RightsCardGenerator.RightsCardData_fields
     <> length SpecShape.RightsCard_shape.
Proof. repeat split; discriminate. Qed.

(** C5, amended.  The record the rights-card wizard consumes has the
    specification's ten fields (title, situation tag, summary, rights,
    prohibitions, action steps, emergency contacts, cited laws, language
    tag, mock flag), each exactly once, and an [icon] member besides.  The
    standalone page reads another record: title, rights ([entitlements]),
    what may be done ([can_do]), prohibitions ([cannot_do]) and action
    steps ([next_steps]); the two interfaces have only [title] in common. *)
Theorem rights_card_shapes :
  Permutation (SpecShape.covered RightsCardGenerator.RightsCardData_fields)
              SpecShape.RightsCard_shape
  /\ SpecShape.unmatched RightsCardGenerator.RightsCardData_fields
     = [ "icon"%string ]
  /\ NoDup RightsCardGenerator.RightsCardData_fields
  /\ RightsCardPage.RightsCard_fields
     = [ "title"; "entitlements"; "can_do"; "cannot_do"; "next_steps" ]%string
  /\ SpecShape.covered RightsCardPage.RightsCard_fields
     = [ SpecShape.Title; SpecShape.Rights; SpecShape.Prohibitions;
         SpecShape.ActionSteps ]
  /\ SpecShape.unmatched RightsCardPage.RightsCard_fields = [ "can_do"%string ]
  /\ SpecShape.common RightsCardGenerator.RightsCardData_fields
                      RightsCardPage.RightsCard_fields
     = [ "title"%string ].
Proof.
  split.
  - cbv [SpecShape.covered SpecShape.RightsCard_shape]. simpl.
    do 3 apply perm_skip.
    apply (Permutation_cons_app
             [SpecShape.Rights; SpecShape.Prohibitions; SpecShape.ActionSteps;
              SpecShape.EmergencyContacts; SpecShape.CitedLaws]
             [SpecShape.MockFlag]).
    reflexivity.
  - split; [reflexivity|]. split; [|repeat split].
    unfold RightsCardGenerator.RightsCardData_fields.
    repeat (apply NoDup_cons_2;
            [ rewrite list_elem_of_In; simpl; intros H;
              repeat destruct H as [H|H]; try discriminate H; exact H |]).
    apply NoDup_nil_2.
Qed.

(** ** Saving the current chat *)

Section SaveCurrentChat.
Import NyayMitraApp.

Lemma findIndex_None {A} (p : A -> bool) (l : list A) :
  (forall x, In x l -> p x = false) -> findIndex p l = None.
Proof.
  induction l as [|x l IH]; simpl; intros H; [reflexivity|].
  rewrite (H x (or_introl eq_refl)), IH by auto. reflexivity.
Qed.

Lemma findIndex_first {A} (p : A -> bool) (l : list A) (i : nat) (x : A) :
  l !! i = Some x -> p x = true ->
  (forall j y, (j < i)%nat -> l !! j = Some y -> p y = false) ->
  findIndex p l = Some i.
Proof.
  revert i. induction l as [|h l IH]; intros [|i] Hi Hp Hfirst; simpl in *;
    try discriminate.
  - injection Hi as ->. rewrite Hp. reflexivity.
  - rewrite (Hfirst 0%nat h) by (simpl; auto; lia).
    rewrite (IH i Hi Hp); [reflexivity|].
    intros j y Hj Hy. apply (Hfirst (S j) y); [lia | exact Hy].
Qed.

Lemma eqb_true (a b : jsstring) : JsString.eqb a b = true <-> a = b.
Proof. unfold JsString.eqb. apply bool_decide_eq_true. Qed.

Lemma eqb_false (a b : jsstring) : JsString.eqb a b = false <-> a <> b.
Proof. unfold JsString.eqb. apply bool_decide_eq_false. Qed.

Lemma find_first_user (before after : list Message) (m : Message) :
  Forall (fun x => role x <> user) before -> role m = user ->
  find (fun x => MessageRole_eqb (role x) user) (before ++ m :: after) = Some m.
Proof.
  intros Hb Hm. induction Hb as [|x before Hx _ IH]; simpl.
  - rewrite Hm. reflexivity.
  - destruct (role x); [congruence | exact IH].
Qed.

Lemma find_no_user (msgs : list Message) :
  Forall (fun x => role x <> user) msgs ->
  find (fun x => MessageRole_eqb (role x) user) msgs = None.
Proof.
  intros H. induction H as [|x msgs Hx _ IH]; simpl; [reflexivity|].
  destruct (role x); [congruence | exact IH].
Qed.

Lemma saveCurrentChat_history env active msgs st :
  msgs <> [] ->
  chatHistory (saveCurrentChat env active msgs st)
    = updateHistory env (chatIdFor env active) (titleOf msgs) msgs (chatHistory st)
  /\ localStorage (saveCurrentChat env active msgs st)
     = Some (chatHistory (saveCurrentChat env active msgs st)).
Proof.
  intros H. unfold saveCurrentChat. destruct msgs as [|m msgs]; [congruence|].
  destruct (noActiveChat active); split; reflexivity.
Qed.

(** C9. For a non-empty message list, [saveCurrentChat] stores a chat
    under the active chat id (a generated one when there is none) whose
    title is the text of the first user message, cut to its first 50 code
    units and followed by [...] exactly when the text is longer than 50,
    or [New Chat] when no message is from the user.  When no stored chat
    has that id the chat is put in front of the history with the current
    time as [createdAt]; otherwise the first stored chat with that id is
    replaced where it stands and keeps its [createdAt], the history keeps
    its length, and every other entry is unchanged.  The stored array is
    written to local storage. *)
Theorem saveCurrentChat_titles_and_places_chat
    (env : Env) (active : option jsstring) (msgs : list Message) (st : State) :
  msgs <> [] ->
  let chatId := chatIdFor env active in
  let prev := chatHistory st in
  let st' := saveCurrentChat env active msgs st in
  (* the title *)
  (forall before m after,
     msgs = before ++ m :: after ->
     Forall (fun x => role x <> user) before -> role m = user ->
     ((length (content m) <= 50)%nat -> titleOf msgs = content m)
     /\ ((50 < length (content m))%nat ->
         titleOf msgs = take 50 (content m) ++ lit "..."))
  /\ (Forall (fun x => role x <> user) msgs -> titleOf msgs = lit "New Chat")
  (* a chat that is not in the history yet *)
  /\ ((forall c, In c prev -> chat_id c <> chatId) ->
      chatHistory st'
        = mkStoredChat chatId (titleOf msgs) msgs (nowISO env) :: prev)
  (* a chat that is *)
  /\ (forall i c,
        prev !! i = Some c -> chat_id c = chatId ->
        (forall j c', (j < i)%nat -> prev !! j = Some c' -> chat_id c' <> chatId) ->
        chatHistory st'
          = <[i := mkStoredChat chatId (titleOf msgs) msgs (createdAt c)]> prev
        /\ chatHistory st' !! i
           = Some (mkStoredChat chatId (titleOf msgs) msgs (createdAt c))
        /\ length (chatHistory st') = length prev
        /\ forall j, j <> i -> chatHistory st' !! j = prev !! j)
  /\ localStorage st' = Some (chatHistory st').
Proof.
  intros Hne chatId prev st'.
  destruct (saveCurrentChat_history env active msgs st Hne) as [Hh Hs].
  fold st' chatId prev in Hh, Hs.
  split; [|split; [|split; [|split]]].
  - intros before m after -> Hb Hm. unfold titleOf.
    rewrite (find_first_user _ _ _ Hb Hm). split; intros Hlen.
    + replace (50 <? length (content m))%nat with false
        by (symmetry; apply Nat.ltb_ge; exact Hlen).
      unfold slice0. rewrite take_ge by exact Hlen. apply app_nil_r.
    + replace (50 <? length (content m))%nat with true
        by (symmetry; apply Nat.ltb_lt; exact Hlen).
      reflexivity.
  - intros Hnone. unfold titleOf. rewrite (find_no_user _ Hnone). reflexivity.
  - intros Hfresh. rewrite Hh. unfold updateHistory.
    rewrite findIndex_None; [reflexivity|].
    intros c Hc. apply eqb_false. apply Hfresh, Hc.
  - intros i c Hi Hid Hfirst.
    assert (Hfind : findIndex (fun c => JsString.eqb (chat_id c) chatId) prev
                    = Some i).
    { apply (findIndex_first _ _ _ c Hi); [apply eqb_true, Hid|].
      intros j c' Hj Hc'. apply eqb_false. eapply Hfirst; eauto. }
    assert (Hst : chatHistory st'
              = <[i := mkStoredChat chatId (titleOf msgs) msgs (createdAt c)]> prev).
    { rewrite Hh. unfold updateHistory. rewrite Hfind, Hi. reflexivity. }
    split; [exact Hst|]. rewrite Hst.
    split; [apply list_lookup_insert_eq; eapply lookup_lt_Some; eauto|].
    split; [apply length_insert|].
    intros j Hj. apply list_lookup_insert_ne. congruence.
  - exact Hs.
Qed.

End SaveCurrentChat.

Definition longComplaint : jsstring :=
  lit "My employer hasn't paid salary for 2 months and refuses to talk to me".

Definition savedHistory : list NyayMitraApp.StoredChat :=
  [ NyayMitraApp.mkStoredChat (lit "chat_1_aaaaaa") (lit "Deposit") firstTurn
      (lit "2023-11-10T08:00:00.000Z");
    NyayMitraApp.mkStoredChat (lit "chat_2_bbbbbb") (lit "Salary") otherTurn
      (lit "2023-11-12T09:30:00.000Z") ].

Lemma saveCurrentChat_titles_and_places_chat_witness :
  let msgs := [ mkMessage (lit "1700000000000_user") user longComplaint
                          1700000000000 None None ] in
  let st := NyayMitraApp.set_chatHistory savedHistory appStart in
  msgs <> []
  /\ NyayMitraApp.chatHistory
       (NyayMitraApp.saveCurrentChat appEnv (Some (lit "chat_2_bbbbbb")) msgs st)
     = [ NyayMitraApp.mkStoredChat (lit "chat_1_aaaaaa") (lit "Deposit") firstTurn
           (lit "2023-11-10T08:00:00.000Z");
         NyayMitraApp.mkStoredChat (lit "chat_2_bbbbbb")
           (lit "My employer hasn't paid salary for 2 months and re...")
           msgs (lit "2023-11-12T09:30:00.000Z") ].
Proof.
  intros msgs st.
  assert (Hne : msgs <> []) by discriminate.
  split; [exact Hne|].
  pose proof (saveCurrentChat_titles_and_places_chat appEnv
                (Some (lit "chat_2_bbbbbb")) msgs st Hne) as (_ & _ & _ & Hin & _).
  destruct (Hin 1%nat _ eq_refl eq_refl) as [Heq _].
  - intros [|j] c' Hj Hc'; [|lia]. injection Hc' as <-. discriminate.
  - rewrite Heq. reflexivity.
Defined.

(** ** Grouping the history by date *)

Module SidebarFacts.
Import Sidebar.

Definition inBucket (cal : Calendar) (k : nat) (l : list ChatSession)
  : list ChatSession :=
  List.filter (fun c => Nat.eqb (bucket cal c) k) l.

Lemma bucket_lt_4 cal c : (bucket cal c < 4)%nat.
Proof.
  unfold bucket.
  repeat match goal with |- context [if ?b then _ else _] => destruct b end; lia.
Qed.

(** The loop leaves in group [k] what it held, followed by the chats of
    bucket [k] in their order of arrival. *)
Lemma forEach_groups cal (l : list ChatSession) :
  forall a0 a1 a2 a3,
    fold_left (fun groups chat => alter (push chat) (bucket cal chat) groups) l
      [ mkGroup "Today" a0; mkGroup "Yesterday" a1;
        mkGroup "Previous 7 Days" a2; mkGroup "Older" a3 ]
    = [ mkGroup "Today" (a0 ++ inBucket cal 0 l);
        mkGroup "Yesterday" (a1 ++ inBucket cal 1 l);
        mkGroup "Previous 7 Days" (a2 ++ inBucket cal 2 l);
        mkGroup "Older" (a3 ++ inBucket cal 3 l) ].
Proof.
  induction l as [|c l IH]; intros a0 a1 a2 a3.
  - simpl. rewrite !app_nil_r. reflexivity.
  - cbn [fold_left]. unfold inBucket. cbn [List.filter]. fold (inBucket cal).
    pose proof (bucket_lt_4 cal c) as Hlt.
    destruct (bucket cal c) as [|[|[|[|k]]]]; [| | | |lia];
      simpl alter; unfold push; cbn [chats label Nat.eqb];
      rewrite IH; unfold inBucket; rewrite <- ?app_assoc; reflexivity.
Qed.

Lemma groupByDate_eq cal l :
  groupByDate cal l
  = List.filter (fun g => (0 <? length (chats g))%nat)
      [ mkGroup "Today" (inBucket cal 0 l);
        mkGroup "Yesterday" (inBucket cal 1 l);
        mkGroup "Previous 7 Days" (inBucket cal 2 l);
        mkGroup "Older" (inBucket cal 3 l) ].
Proof.
  unfold groupByDate, emptyGroups. rewrite forEach_groups. reflexivity.
Qed.

Lemma concat_drop_empty (gs : list Group) :
  concat (map chats (List.filter (fun g => (0 <? length (chats g))%nat) gs))
  = concat (map chats gs).
Proof.
  induction gs as [|g gs IH]; simpl; [reflexivity|].
  destruct (chats g) eqn:E; simpl; rewrite ?E; simpl; rewrite IH; reflexivity.
Qed.

Lemma buckets_partition cal (l : list ChatSession) :
  Permutation
    (inBucket cal 0 l ++ inBucket cal 1 l ++ inBucket cal 2 l ++ inBucket cal 3 l)
    l.
Proof.
  induction l as [|c l IH]; [constructor|].
  unfold inBucket. cbn [List.filter]. fold (inBucket cal).
  pose proof (bucket_lt_4 cal c) as Hlt.
  destruct (bucket cal c) as [|[|[|[|k]]]]; [| | | |lia]; cbn [Nat.eqb].
  - apply perm_skip, IH.
  - symmetry. apply Permutation_cons_app. symmetry. exact IH.
  - symmetry. rewrite app_assoc. apply Permutation_cons_app.
    rewrite <- app_assoc. symmetry. exact IH.
  - symmetry. rewrite 2!app_assoc. apply Permutation_cons_app.
    rewrite <- 2!app_assoc. symmetry. exact IH.
Qed.

Lemma nonempty_length {A} (l : list A) : (0 <? length l)%nat = true <-> l <> [].
Proof.
  destruct l as [|x l].
  - split; [intros H; cbv in H; discriminate H | intros H; contradiction H; reflexivity].
  - split; [intros _; discriminate | intros _; reflexivity].
Qed.

End SidebarFacts.

Lemma sublist_map_filter {A B} (f : A -> B) (p : A -> bool) (l : list A) :
  sublist (map f (List.filter p l)) (map f l).
Proof.
  induction l as [|x l IH]; simpl; [constructor|].
  destruct (p x); simpl; [apply sublist_skip | apply sublist_cons]; exact IH.
Qed.

Lemma group_of_groupByDate cal l g :
  In g (Sidebar.groupByDate cal l) <->
  Sidebar.chats g <> []
  /\ exists k, (k < 4)%nat
       /\ g = Sidebar.mkGroup (Sidebar.labelAt k) (SidebarFacts.inBucket cal k l).
Proof.
  rewrite SidebarFacts.groupByDate_eq, filter_In, SidebarFacts.nonempty_length.
  split.
  - intros [Hin Hne]. split; [exact Hne|]. simpl in Hin.
    destruct Hin as [<-|[<-|[<-|[<-|[]]]]];
      [exists 0%nat | exists 1%nat | exists 2%nat | exists 3%nat];
      (split; [lia | reflexivity]).
  - intros [Hne (k & Hk & ->)]. split; [|exact Hne].
    destruct k as [|[|[|[|k]]]]; [| | | |lia]; simpl; auto.
Qed.

(** C10. [groupByDate] partitions the chats it is given.  Its groups bear
    the labels Today, Yesterday, Previous 7 Days, Older, in that order and
    without the ones that would be empty.  A chat goes to the group chosen
    by comparing its [createdAt] with the midnights of the current day, of
    the day before and of seven days before (a chat with an invalid date is
    Older); each group holds exactly the chats so chosen, in their order in
    the input; every chat of the input is in one group and no other; and
    the groups put together are a rearrangement of the input, nothing lost
    or repeated. *)
Theorem groupByDate_partitions
    (cal : Sidebar.Calendar) (l : list Sidebar.ChatSession) :
  let gs := Sidebar.groupByDate cal l in
  sublist (map Sidebar.label gs)
          [ "Today"; "Yesterday"; "Previous 7 Days"; "Older" ]%string
  /\ (forall g, In g gs ->
        Sidebar.chats g <> []
        /\ Sidebar.chats g
           = List.filter
               (fun c => String.eqb (Sidebar.labelAt (Sidebar.bucket cal c))
                                    (Sidebar.label g)) l)
  /\ (forall c, In c l ->
        exists g,
          In g gs /\ In c (Sidebar.chats g)
          /\ Sidebar.label g = Sidebar.labelAt (Sidebar.bucket cal c)
          /\ forall g', In g' gs -> In c (Sidebar.chats g') -> g' = g)
  /\ Permutation (concat (map Sidebar.chats gs)) l
  /\ (forall c,
        Sidebar.labelAt (Sidebar.bucket cal c)
        = match Sidebar.createdAt c with
          | None => "Older"
          | Some v =>
              if (Sidebar.today cal <=? v)%Z then "Today"
              else if (Sidebar.yesterday cal <=? v)%Z then "Yesterday"
              else if (Sidebar.weekAgo cal <=? v)%Z then "Previous 7 Days"
              else "Older"
          end%string).
Proof.
  intros gs.
  assert (Hlabel : forall k c, (k < 4)%nat ->
            String.eqb (Sidebar.labelAt (Sidebar.bucket cal c)) (Sidebar.labelAt k)
            = Nat.eqb (Sidebar.bucket cal c) k).
  { intros k c Hk. pose proof (SidebarFacts.bucket_lt_4 cal c) as Hb.
    destruct (Sidebar.bucket cal c) as [|[|[|[|b]]]]; [| | | |lia];
      destruct k as [|[|[|[|k]]]]; try lia; reflexivity. }
  split; [|split; [|split; [|split]]].
  - subst gs. rewrite SidebarFacts.groupByDate_eq.
    apply (sublist_map_filter Sidebar.label).
  - intros g Hg. apply group_of_groupByDate in Hg as [Hne (k & Hk & ->)].
    split; [exact Hne|]. cbn [Sidebar.chats Sidebar.label].
    unfold SidebarFacts.inBucket. apply filter_ext.
    intros c. symmetry. apply Hlabel, Hk.
  - intros c Hc.
    pose proof (SidebarFacts.bucket_lt_4 cal c) as Hb.
    assert (Hmem : In c (SidebarFacts.inBucket cal (Sidebar.bucket cal c) l)).
    { unfold SidebarFacts.inBucket. apply filter_In. split; [exact Hc|].
      apply Nat.eqb_refl. }
    exists (Sidebar.mkGroup (Sidebar.labelAt (Sidebar.bucket cal c))
              (SidebarFacts.inBucket cal (Sidebar.bucket cal c) l)).
    split; [|split; [exact Hmem|split; [reflexivity|]]].
    + apply group_of_groupByDate. split; [|eauto].
      cbn [Sidebar.chats]. intros E. rewrite E in Hmem. destruct Hmem.
    + intros g' Hg' Hin.
      apply group_of_groupByDate in Hg' as [_ (k & Hk & ->)].
      cbn [Sidebar.chats] in Hin. unfold SidebarFacts.inBucket in Hin.
      apply filter_In in Hin as [_ Hin]. apply Nat.eqb_eq in Hin.
      rewrite Hin. reflexivity.
  - subst gs. rewrite SidebarFacts.groupByDate_eq, SidebarFacts.concat_drop_empty.
    simpl. rewrite app_nil_r. apply SidebarFacts.buckets_partition.
  - intros c. unfold Sidebar.bucket, Sidebar.date_ge.
    destruct (Sidebar.createdAt c) as [v|]; [|reflexivity].
    destruct (Sidebar.today cal <=? v)%Z; [reflexivity|].
    destruct (Sidebar.yesterday cal <=? v)%Z; [reflexivity|].
    destruct (Sidebar.weekAgo cal <=? v)%Z; reflexivity.
Qed.

Definition istCalendar : Sidebar.Calendar :=
  Sidebar.fixedOffsetCalendar 19800000 1700000000000.

Definition threeChats : list Sidebar.ChatSession :=
  [ Sidebar.mkChatSession (lit "chat_3") (lit "Salary") (Some 1699990000000%Z) [];
    Sidebar.mkChatSession (lit "chat_2") (lit "Deposit") (Some 1699700000000%Z) [];
    Sidebar.mkChatSession (lit "chat_1") (lit "Broken") None [] ].

Example groupByDate_threeChats :
  Sidebar.groupByDate istCalendar threeChats
  = [ Sidebar.mkGroup "Today"
        [Sidebar.mkChatSession (lit "chat_3") (lit "Salary") (Some 1699990000000%Z) []];
      Sidebar.mkGroup "Previous 7 Days"
        [Sidebar.mkChatSession (lit "chat_2") (lit "Deposit") (Some 1699700000000%Z) []];
      Sidebar.mkGroup "Older"
        [Sidebar.mkChatSession (lit "chat_1") (lit "Broken") None []] ].
Proof. reflexivity. Qed.

Lemma groupByDate_partitions_witness :
  let c := Sidebar.mkChatSession (lit "chat_2") (lit "Deposit")
             (Some 1699700000000%Z) [] in
  In c threeChats
  /\ exists g,
       In g (Sidebar.groupByDate istCalendar threeChats)
       /\ In c (Sidebar.chats g)
       /\ Sidebar.label g = "Previous 7 Days"%string.
Proof.
  intros c.
  assert (Hc : In c threeChats) by (right; left; reflexivity).
  split; [exact Hc|].
  destruct (groupByDate_partitions istCalendar threeChats) as (_ & _ & Hone & _).
  destruct (Hone c Hc) as (g & Hg & Hin & Hl & _).
  exists g. split; [exact Hg|]. split; [exact Hin|]. rewrite Hl. reflexivity.
Defined.

(** ** The endpoints without a working model *)

Section ServerFacts.
Import Server.

Variable detect_category : jsstring -> option jsstring.
Variable chat_prompt : ChatBody -> jsstring.
Variable card_prompt : RightsCardBody -> jsstring.
Variable chat_model : jsstring -> option jsstring.
Variable card_model : jsstring -> option RightsCardGenerator.RightsCardData.
Variable MOCK_REPLY : jsstring.
Variable canned_card : jsstring -> jsstring -> RightsCardGenerator.RightsCardData.
Variable situations : list jsstring.
Variable languages : list jsstring.

(** C7. When the credentials of the hosted model are absent, or the call
    to the model fails, [POST /api/chat] answers 2xx with the fixed mock
    reply, and [POST /api/rights-card], for a situation and a language of
    the enumerations, answers 2xx with the canned card tagged
    [is_mock = true]; neither answers with an error. *)
Theorem endpoints_degrade_to_mock
    (creds : Credentials) (chat : ChatBody) (card : RightsCardBody) :
  creds = absent
  \/ (chat_model (chat_prompt chat) = None
      /\ card_model (card_prompt card) = None) ->
  In (situation card) situations ->
  In (language card) languages ->
  (is2xx (post_chat detect_category chat_prompt chat_model MOCK_REPLY creds chat)
     = true
   /\ exists data,
        post_chat detect_category chat_prompt chat_model MOCK_REPLY creds chat
          = Success data
        /\ reply data = MOCK_REPLY)
  /\
  (is2xx (post_rights_card card_prompt card_model canned_card situations
            languages creds card) = true
   /\ exists data,
        post_rights_card card_prompt card_model canned_card situations
          languages creds card = Success data
        /\ RightsCardGenerator.is_mock data = Some true
        /\ data = tag_mock true (canned_card (situation card) (language card))).
Proof.
  intros Hfail Hsit Hlang.
  assert (Hreply : generate_reply chat_prompt chat_model MOCK_REPLY creds chat
                   = MOCK_REPLY).
  { unfold generate_reply.
    destruct Hfail as [-> | [-> _]]; [|destruct creds]; reflexivity. }
  assert (Hcard : generate_card card_prompt card_model canned_card creds card
                  = tag_mock true (canned_card (situation card) (language card))).
  { unfold generate_card.
    destruct Hfail as [-> | [_ ->]]; [|destruct creds]; reflexivity. }
  assert (Hmem : forall x l, In x l -> mem x l = true).
  { intros x l Hx. unfold mem. apply existsb_exists. exists x.
    split; [exact Hx | apply bool_decide_eq_true; reflexivity]. }
  split.
  - split; [reflexivity|]. eexists. split; [reflexivity|]. exact Hreply.
  - unfold post_rights_card.
    rewrite (Hmem _ _ Hsit), (Hmem _ _ Hlang). cbn [negb is2xx].
    split; [reflexivity|]. eexists. split; [reflexivity|].
    rewrite Hcard. split; reflexivity.
Qed.

End ServerFacts.

Lemma endpoints_degrade_to_mock_witness :
  let situations := [lit "arrested"; lit "evicted"; lit "fired"; lit "cheated"] in
  let languages := [lit "English"; lit "Hindi"; lit "Kannada"] in
  let canned (s l : jsstring) :=
    RightsCardGenerator.mkRightsCardData (lit "Know Your Rights") s
      (lit "Summary") [] l [lit "right"] [lit "prohibition"] [lit "step"]
      [lit "NALSA: 15100"] [lit "Article 22"] None in
  let chat := Server.mkChatBody (lit "My landlord won't return my deposit")
                (lit "Koramangala") (lit "session_1") in
  let card := Server.mkRightsCardBody (lit "evicted") (lit "Hindi")
                (lit "Koramangala") in
  In (Server.situation card) situations
  /\ In (Server.language card) languages
  /\ Server.is2xx
       (Server.post_chat (fun _ => Some (lit "property")) Server.message
          (fun _ => None) (lit "mock reply") Server.configured chat) = true
  /\ Server.is2xx
       (Server.post_rights_card Server.situation (fun _ => None) canned
          situations languages Server.configured card) = true.
Proof.
  intros situations languages canned chat card.
  assert (Hs : In (Server.situation card) situations)
    by (right; left; reflexivity).
  assert (Hl : In (Server.language card) languages)
    by (right; left; reflexivity).
  split; [exact Hs|]. split; [exact Hl|].
  pose proof (endpoints_degrade_to_mock (fun _ => Some (lit "property"))
                Server.message Server.situation (fun _ => None) (fun _ => None)
                (lit "mock reply") canned situations languages
                Server.configured chat card
                (or_intror (conj eq_refl eq_refl)) Hs Hl) as [[HA _] [HB _]].
  split; [exact HA | exact HB].
Defined.

(** * Further properties of the components *)

(** ** Trimming and searching *)

Lemma trimStart_idem (s : jsstring) : trimStart (trimStart s) = trimStart s.
Proof.
  induction s as [|c s IH]; simpl; [reflexivity|].
  destruct (isWhiteSpace c) eqn:E; [exact IH|]. simpl. rewrite E. reflexivity.
Qed.

Lemma trimStart_snoc (s : jsstring) (c : N) :
  isWhiteSpace c = false -> trimStart (s ++ [c]) = trimStart s ++ [c].
Proof.
  intros Hc. induction s as [|x s IH]; simpl.
  - rewrite Hc. reflexivity.
  - destruct (isWhiteSpace x); [exact IH | reflexivity].
Qed.

Lemma trimStart_fixed (s : jsstring) :
  trimStart s = s -> trimStart (trimEnd s) = trimEnd s.
Proof.
  destruct s as [|c s]; [reflexivity|]. simpl.
  destruct (isWhiteSpace c) eqn:E.
  - intros H. exfalso.
    assert (Hlen : forall t, (length (trimStart t) <= length t)%nat).
    { induction t as [|x t IHt]; simpl; [lia|].
      destruct (isWhiteSpace x); simpl; lia. }
    specialize (Hlen s). rewrite H in Hlen. simpl in Hlen. lia.
  - intros _. unfold trimEnd. simpl rev.
    rewrite (trimStart_snoc _ _ E), rev_app_distr. simpl. rewrite E. reflexivity.
Qed.

Lemma trimEnd_idem (s : jsstring) : trimEnd (trimEnd s) = trimEnd s.
Proof. unfold trimEnd. rewrite rev_involutive, trimStart_idem. reflexivity. Qed.

Lemma trim_idem (s : jsstring) : trim (trim s) = trim s.
Proof.
  unfold trim.
  rewrite (trimStart_fixed (trimStart s) (trimStart_idem s)).
  apply trimEnd_idem.
Qed.

Lemma startsWith_app (needle rest : jsstring) :
  startsWith needle (needle ++ rest) = true.
Proof.
  induction needle as [|c needle IH]; simpl; [reflexivity|].
  rewrite N.eqb_refl. exact IH.
Qed.

Lemma includes_app (needle before after : jsstring) :
  includes needle (before ++ needle ++ after) = true.
Proof.
  induction before as [|c before IH].
  - simpl app. destruct (needle ++ after) eqn:E; simpl.
    + destruct needle; [reflexivity | discriminate E].
    + rewrite <- E, startsWith_app. reflexivity.
  - simpl. rewrite IH. apply orb_true_r.
Qed.

(** ** Chat: an unreachable backend *)

(** X1. A thrown error whose message contains [Failed to fetch] or
    [ECONNREFUSED] anywhere makes either chat component append the canned
    backend-not-connected reply as a bot message, leave the error as it
    was and clear the loading flag; the chat page also saves the
    conversation with that reply. *)
Theorem connection_failure_appends_canned_reply
    (marker before after : jsstring)
    (envA : NyayMitraApp.Env) (pA : NyayMitraApp.Pending) (stA : NyayMitraApp.State)
    (envC : ChatInterface.Env) (pC : ChatInterface.Pending) (stC : ChatInterface.State) :
  marker = lit "Failed to fetch" \/ marker = lit "ECONNREFUSED" ->
  let out : FetchOutcome ChatData := Threw (Some (before ++ marker ++ after)) in
  let stA' := NyayMitraApp.sendMessage_settle envA pA out stA in
  let stC' := ChatInterface.sendMessage_settle envC pC out stC in
  let withBot :=
    NyayMitraApp.newMessages pA
    ++ [NyayMitraApp.botMessage envA BACKEND_NOT_CONNECTED None] in
  (NyayMitraApp.messages stA' = withBot
   /\ NyayMitraApp.error stA' = NyayMitraApp.error stA
   /\ NyayMitraApp.isLoading stA' = false
   /\ NyayMitraApp.chatHistory stA'
      = NyayMitraApp.updateHistory envA
          (NyayMitraApp.chatIdFor envA (NyayMitraApp.savedChatId pA))
          (NyayMitraApp.titleOf withBot) withBot (NyayMitraApp.chatHistory stA))
  /\
  (exists botMsg,
     ChatInterface.messages stC' = ChatInterface.messages stC ++ [botMsg]
     /\ role botMsg = bot /\ content botMsg = BACKEND_NOT_CONNECTED
     /\ category botMsg = None)
  /\ ChatInterface.error stC' = ChatInterface.error stC
  /\ ChatInterface.isLoading stC' = false.
Proof.
  intros Hmarker. cbv zeta.
  assert (Hfail : isConnectionFailure (before ++ marker ++ after) = true).
  { unfold isConnectionFailure. destruct Hmarker as [-> | ->];
      rewrite includes_app; [reflexivity | apply orb_true_r]. }
  unfold NyayMitraApp.sendMessage_settle, ChatInterface.sendMessage_settle,
    caughtMessage.
  rewrite Hfail. split; [|split; [|split; reflexivity]].
  - unfold NyayMitraApp.saveCurrentChat.
    destruct (NyayMitraApp.newMessages pA ++ _) eqn:E;
      [destruct (NyayMitraApp.newMessages pA); discriminate E|].
    rewrite <- E.
    destruct (NyayMitraApp.noActiveChat _); repeat split.
  - eexists. split; [reflexivity|]. repeat split.
Qed.

Lemma connection_failure_appends_canned_reply_witness :
  let pA := NyayMitraApp.mkPending
              (chatRequest (lit "hello") NyayMitraApp.LOCATION (lit "s"))
              firstTurn None in
  (lit "Failed to fetch" = lit "Failed to fetch"
   \/ lit "Failed to fetch" = lit "ECONNREFUSED")
  /\ NyayMitraApp.messages
       (NyayMitraApp.sendMessage_settle appEnv pA
          (Threw (Some (lit "TypeError: Failed to fetch"))) appStart)
     = firstTurn ++ [NyayMitraApp.botMessage appEnv BACKEND_NOT_CONNECTED None].
Proof.
  intros pA.
  assert (H : lit "Failed to fetch" = lit "Failed to fetch"
              \/ lit "Failed to fetch" = lit "ECONNREFUSED") by (left; reflexivity).
  split; [exact H|].
  exact (proj1 (proj1 (connection_failure_appends_canned_reply
                         (lit "Failed to fetch") (lit "TypeError: ") []
                         appEnv pA appStart chatEnv
                         (ChatInterface.mkPending (NyayMitraApp.request pA) [])
                         chatStart H))).
Defined.

(** ** The stored chat history *)

Section HistoryFacts.
Import NyayMitraApp.

Definition hasId (chatId : jsstring) (c : StoredChat) : bool :=
  JsString.eqb (chat_id c) chatId.

Lemma findIndex_Some {A} (p : A -> bool) (l : list A) (i : nat) :
  findIndex p l = Some i ->
  exists x, l !! i = Some x /\ p x = true
            /\ forall j y, (j < i)%nat -> l !! j = Some y -> p y = false.
Proof.
  revert i. induction l as [|h l IH]; intros i H; simpl in H; [discriminate|].
  destruct (p h) eqn:Hp.
  - injection H as <-. exists h. split; [reflexivity|]. split; [exact Hp|].
    intros j y Hj. lia.
  - destruct (findIndex p l) as [k|] eqn:Hk; [|discriminate].
    injection H as <-. destruct (IH k eq_refl) as (x & Hx & Hpx & Hfirst).
    exists x. split; [exact Hx|]. split; [exact Hpx|].
    intros [|j] y Hj Hy; simpl in Hy.
    + injection Hy as <-. exact Hp.
    + apply (Hfirst j); [lia | exact Hy].
Qed.

Lemma findIndex_None_inv {A} (p : A -> bool) (l : list A) :
  findIndex p l = None -> forall x, In x l -> p x = false.
Proof.
  induction l as [|h l IH]; simpl; intros H x Hx; [destruct Hx|].
  destruct (p h) eqn:Hp; [discriminate|].
  destruct (findIndex p l) eqn:Hk; [discriminate|].
  destruct Hx as [<- | Hx]; [exact Hp | apply IH; [reflexivity | exact Hx]].
Qed.

Lemma find_insert_at_findIndex {A} (p : A -> bool) (l : list A) (i : nat) (u : A) :
  findIndex p l = Some i -> p u = true -> find p (<[i := u]> l) = Some u.
Proof.
  revert i. induction l as [|h l IH]; intros i H Hu; simpl in H; [discriminate|].
  destruct (p h) eqn:Hp.
  - injection H as <-. simpl. rewrite Hu. reflexivity.
  - destruct (findIndex p l) as [k|] eqn:Hk; [|discriminate].
    injection H as <-. simpl. rewrite Hp. apply IH; [reflexivity | exact Hu].
Qed.

Lemma filter_insert_rejected {A} (p : A -> bool) (l : list A) (i : nat) (x u : A) :
  l !! i = Some x -> p x = false -> p u = false ->
  List.filter p (<[i := u]> l) = List.filter p l.
Proof.
  revert i. induction l as [|h l IH]; intros [|i] Hi Hx Hu; simpl in *;
    try discriminate.
  - injection Hi as ->. rewrite Hx, Hu. reflexivity.
  - rewrite (IH i Hi Hx Hu). reflexivity.
Qed.

Lemma chatIdFor_truthy env active : truthy (chatIdFor env active) = true.
Proof.
  unfold chatIdFor. destruct active as [i|]; [destruct (truthy i) eqn:E|];
    try exact E; reflexivity.
Qed.

Lemma chatIdFor_active env (chatId : jsstring) :
  truthy chatId = true -> chatIdFor env (Some chatId) = chatId.
Proof. intros H. unfold chatIdFor. rewrite H. reflexivity. Qed.

(** After a save the first stored chat bearing the chat's id is the saved
    one. *)
Lemma updateHistory_find env chatId ttl msgs prev :
  exists created,
    find (hasId chatId) (updateHistory env chatId ttl msgs prev)
    = Some (mkStoredChat chatId ttl msgs created).
Proof.
  unfold updateHistory. fold (hasId chatId).
  assert (Hu : forall created,
            hasId chatId (mkStoredChat chatId ttl msgs created) = true)
    by (intros; apply bool_decide_eq_true; reflexivity).
  destruct (findIndex (hasId chatId) prev) as [i|] eqn:E.
  - eexists. apply find_insert_at_findIndex; [exact E | apply Hu].
  - eexists. simpl. rewrite Hu. reflexivity.
Qed.

Lemma handleDeleteChat_history env chatId st :
  chatHistory (handleDeleteChat env chatId st)
  = List.filter (fun c => negb (hasId chatId c)) (chatHistory st)
  /\ localStorage (handleDeleteChat env chatId st)
     = Some (chatHistory (handleDeleteChat env chatId st)).
Proof.
  unfold handleDeleteChat.
  destruct (activeChatId st) as [a|]; [destruct (JsString.eqb a chatId)|];
    split; reflexivity.
Qed.

(** X2. Deleting a chat removes every stored chat with that id and nothing
    else, keeps the others in their order, and writes the result to local
    storage.  When the deleted chat is the active one the page goes back to
    an empty new chat; otherwise the conversation on screen, the active
    chat and the session id are untouched.  The loading flag never
    changes. *)
Theorem handleDeleteChat_removes_that_chat
    (env : Env) (chatId : jsstring) (st : State) :
  let st' := handleDeleteChat env chatId st in
  chatHistory st' = List.filter (fun c => negb (hasId chatId c)) (chatHistory st)
  /\ (forall c, In c (chatHistory st')
                <-> In c (chatHistory st) /\ chat_id c <> chatId)
  /\ sublist (chatHistory st') (chatHistory st)
  /\ localStorage st' = Some (chatHistory st')
  /\ isLoading st' = isLoading st
  /\ (activeChatId st = Some chatId ->
      messages st' = [] /\ activeChatId st' = None /\ error st' = None
      /\ sessionId st' = lit "session_" ++ ofNumber (now env))
  /\ (activeChatId st <> Some chatId ->
      messages st' = messages st /\ activeChatId st' = activeChatId st
      /\ sessionId st' = sessionId st).
Proof.
  cbv zeta.
  destruct (handleDeleteChat_history env chatId st) as [Hh _].
  split; [exact Hh|]. rewrite Hh.
  split; [|split; [|split; [|split; [|split]]]].
  - intros c. rewrite filter_In, negb_true_iff. unfold hasId.
    rewrite eqb_false. reflexivity.
  - generalize (chatHistory st). intros l.
    induction l as [|c l IH]; simpl; [constructor|].
    destruct (negb (hasId chatId c)); [apply sublist_skip | apply sublist_cons];
      exact IH.
  - unfold handleDeleteChat.
    destruct (activeChatId st) as [a|]; [destruct (JsString.eqb a chatId)|];
      reflexivity.
  - unfold handleDeleteChat.
    destruct (activeChatId st) as [a|]; [destruct (JsString.eqb a chatId)|];
      reflexivity.
  - intros Ha. unfold handleDeleteChat. rewrite Ha.
    replace (JsString.eqb chatId chatId) with true
      by (symmetry; apply eqb_true; reflexivity).
    repeat split.
  - intros Ha. unfold handleDeleteChat.
    destruct (activeChatId st) as [a|] eqn:Ea;
      [|repeat split; cbn; rewrite ?Ea; reflexivity].
    destruct (JsString.eqb a chatId) eqn:E;
      [|repeat split; cbn; rewrite ?Ea; reflexivity].
    apply eqb_true in E. congruence.
Qed.

Lemma handleDeleteChat_removes_that_chat_witness :
  let st := set_activeChatId (Some (lit "chat_1_aaaaaa"))
              (set_chatHistory savedHistory appStart) in
  activeChatId st = Some (lit "chat_1_aaaaaa")
  /\ messages (handleDeleteChat appEnv (lit "chat_1_aaaaaa") st) = []
  /\ activeChatId (handleDeleteChat appEnv (lit "chat_1_aaaaaa") st) = None.
Proof.
  intros st.
  split; [reflexivity|].
  destruct (handleDeleteChat_removes_that_chat appEnv (lit "chat_1_aaaaaa") st)
    as (_ & _ & _ & _ & _ & Hactive & _).
  destruct (Hactive eq_refl) as (H1 & H2 & _).
  split; [exact H1 | exact H2].
Defined.

(** X3. Selecting a chat right after it was saved brings back exactly the
    messages that were saved, makes that chat the active one and names the
    session after it. *)
Theorem select_after_save_restores_messages
    (env : Env) (active : option jsstring) (msgs : list Message) (st : State) :
  msgs <> [] ->
  let chatId := chatIdFor env active in
  let st' := handleSelectChat chatId (saveCurrentChat env active msgs st) in
  messages st' = msgs
  /\ activeChatId st' = Some chatId
  /\ sessionId st' = lit "session_" ++ chatId.
Proof.
  intros Hne. cbv zeta.
  destruct (saveCurrentChat_history env active msgs st Hne) as [Hh _].
  destruct (updateHistory_find env (chatIdFor env active) (titleOf msgs) msgs
              (chatHistory st)) as [created Hfind].
  unfold handleSelectChat. fold (hasId (chatIdFor env active)).
  rewrite Hh, Hfind. repeat split.
Qed.

Lemma select_after_save_restores_messages_witness :
  firstTurn <> []
  /\ messages
       (handleSelectChat (lit "chat_2_bbbbbb")
          (saveCurrentChat appEnv (Some (lit "chat_2_bbbbbb")) firstTurn
             (set_chatHistory savedHistory appStart)))
     = firstTurn.
Proof.
  assert (H : firstTurn <> []) by discriminate.
  split; [exact H|].
  exact (proj1 (select_after_save_restores_messages appEnv
                  (Some (lit "chat_2_bbbbbb")) firstTurn
                  (set_chatHistory savedHistory appStart) H)).
Defined.

(** X4. Deleting a chat right after it was saved leaves the history as it
    was before the save, less any chat that already bore that id; for a
    chat that was new, the history is back to what it was. *)
Theorem delete_after_save_restores_history
    (env env' : Env) (active : option jsstring) (msgs : list Message) (st : State) :
  msgs <> [] ->
  let chatId := chatIdFor env active in
  let st' := handleDeleteChat env' chatId (saveCurrentChat env active msgs st) in
  chatHistory st'
    = List.filter (fun c => negb (hasId chatId c)) (chatHistory st)
  /\ ((forall c, In c (chatHistory st) -> chat_id c <> chatId) ->
      chatHistory st' = chatHistory st).
Proof.
  intros Hne. cbv zeta.
  destruct (saveCurrentChat_history env active msgs st Hne) as [Hh _].
  destruct (handleDeleteChat_history env' (chatIdFor env active)
              (saveCurrentChat env active msgs st)) as [Hd _].
  set (chatId := chatIdFor env active) in *.
  assert (Hu : forall created,
            negb (hasId chatId (mkStoredChat chatId (titleOf msgs) msgs created))
            = false).
  { intros. apply negb_false_iff, bool_decide_eq_true. reflexivity. }
  assert (Heq : chatHistory
                  (handleDeleteChat env' chatId (saveCurrentChat env active msgs st))
                = List.filter (fun c => negb (hasId chatId c)) (chatHistory st)).
  { rewrite Hd, Hh. unfold updateHistory. fold (hasId chatId).
    destruct (findIndex (hasId chatId) (chatHistory st)) as [i|] eqn:E.
    - destruct (findIndex_Some _ _ _ E) as (x & Hx & Hpx & _).
      rewrite Hx. cbn [from_option].
      apply (filter_insert_rejected _ _ _ x); [exact Hx | | apply Hu].
      rewrite Hpx. reflexivity.
    - simpl. rewrite Hu. reflexivity. }
  split; [exact Heq|].
  intros Hfresh. rewrite Heq.
  generalize Hfresh. generalize (chatHistory st). intros l Hl.
  induction l as [|c l IH]; simpl; [reflexivity|].
  replace (hasId chatId c) with false
    by (symmetry; apply eqb_false, Hl; left; reflexivity).
  simpl. rewrite IH; [reflexivity|]. intros c' Hc'. apply Hl. right. exact Hc'.
Qed.

Lemma delete_after_save_restores_history_witness :
  firstTurn <> []
  /\ chatHistory
       (handleDeleteChat appEnv (chatIdFor appEnv None)
          (saveCurrentChat appEnv None firstTurn
             (set_chatHistory savedHistory appStart)))
     = savedHistory.
Proof.
  assert (H : firstTurn <> []) by discriminate.
  split; [exact H|].
  apply (proj2 (delete_after_save_restores_history appEnv appEnv None firstTurn
                  (set_chatHistory savedHistory appStart) H)).
  intros c Hc. simpl in Hc.
  destruct Hc as [<- | [<- | []]]; discriminate.
Defined.

Lemma map_insert_same {A B} (f : A -> B) (l : list A) (i : nat) (x u : A) :
  l !! i = Some x -> f u = f x -> map f (<[i := u]> l) = map f l.
Proof.
  revert i. induction l as [|h l IH]; intros [|i] Hi Hf; simpl in *;
    try discriminate.
  - injection Hi as ->. rewrite Hf. reflexivity.
  - rewrite (IH i Hi Hf). reflexivity.
Qed.

(** The ids of the history after a save: unchanged when the chat was
    there, one more in front when it was not. *)
Lemma updateHistory_ids env chatId ttl msgs prev :
  (In chatId (map chat_id prev)
   /\ map chat_id (updateHistory env chatId ttl msgs prev) = map chat_id prev
   /\ map createdAt (updateHistory env chatId ttl msgs prev) = map createdAt prev)
  \/ (~ In chatId (map chat_id prev)
      /\ updateHistory env chatId ttl msgs prev
         = mkStoredChat chatId ttl msgs (nowISO env) :: prev).
Proof.
  unfold updateHistory. fold (hasId chatId).
  destruct (findIndex (hasId chatId) prev) as [i|] eqn:E.
  - left. destruct (findIndex_Some _ _ _ E) as (x & Hx & Hpx & _).
    apply eqb_true in Hpx. rewrite Hx. cbn [from_option].
    split; [|split].
    + apply in_map_iff. exists x. split; [exact Hpx|].
      apply list_elem_of_In. eapply list_elem_of_lookup_2; eauto.
    + apply (map_insert_same _ _ _ x); [exact Hx | symmetry; exact Hpx].
    + apply (map_insert_same _ _ _ x); [exact Hx | reflexivity].
  - right. split; [|reflexivity].
    intros Hin. apply in_map_iff in Hin as (c & Hc & Hin).
    pose proof (findIndex_None_inv _ _ E c Hin) as Hp.
    apply eqb_false in Hp. congruence.
Qed.

Lemma saveCurrentChat_frame env active msgs st :
  messages (saveCurrentChat env active msgs st) = messages st
  /\ isLoading (saveCurrentChat env active msgs st) = isLoading st
  /\ error (saveCurrentChat env active msgs st) = error st
  /\ sessionId (saveCurrentChat env active msgs st) = sessionId st.
Proof.
  unfold saveCurrentChat. destruct msgs; [repeat split|].
  destruct (noActiveChat active); repeat split.
Qed.

Lemma filter_hasId_unique chatId (l : list StoredChat) (c : StoredChat) :
  NoDup (map chat_id l) -> find (hasId chatId) l = Some c ->
  List.filter (hasId chatId) l = [c].
Proof.
  induction l as [|h l IH]; simpl; intros Hnd Hfind; [discriminate|].
  apply NoDup_cons in Hnd as [Hh Hl].
  destruct (hasId chatId h) eqn:E.
  - injection Hfind as <-. f_equal.
    apply eqb_true in E.
    assert (Hnone : forall x, In x l -> hasId chatId x = false).
    { intros x Hx. apply eqb_false. intros Hid. apply Hh.
      apply list_elem_of_In, in_map_iff. exists x. split; [congruence | exact Hx]. }
    clear - Hnone. induction l as [|x l IHl]; [reflexivity|]. simpl.
    rewrite (Hnone x (or_introl eq_refl)). apply IHl.
    intros y Hy. apply Hnone. right. exact Hy.
  - apply IH; assumption.
Qed.

(** X5. Saving a conversation a second time under its chat id, with any
    newer message list, keeps the history's ids and creation times exactly
    as the first save left them, and the first entry bearing the id now
    holds the newer messages; saving the same messages again changes
    nothing.  When the stored chats had distinct ids to begin with, the
    chat occupies one entry: after both saves the ids are still distinct
    and the only entry with the chat's id is the one holding the newer
    messages. *)
Theorem second_save_reuses_the_entry
    (env1 env2 : Env) (active : option jsstring)
    (msgs1 msgs2 : list Message) (st : State) :
  msgs1 <> [] -> msgs2 <> [] ->
  let chatId := chatIdFor env1 active in
  let st1 := saveCurrentChat env1 active msgs1 st in
  let st2 := saveCurrentChat env2 (Some chatId) msgs2 st1 in
  map chat_id (chatHistory st2) = map chat_id (chatHistory st1)
  /\ map createdAt (chatHistory st2) = map createdAt (chatHistory st1)
  /\ (exists created,
        find (hasId chatId) (chatHistory st2)
        = Some (mkStoredChat chatId (titleOf msgs2) msgs2 created))
  /\ (msgs2 = msgs1 -> chatHistory st2 = chatHistory st1)
  /\ (NoDup (map chat_id (chatHistory st)) ->
      NoDup (map chat_id (chatHistory st2))
      /\ exists created,
           List.filter (hasId chatId) (chatHistory st2)
           = [mkStoredChat chatId (titleOf msgs2) msgs2 created]).
Proof.
  intros H1 H2. cbv zeta.
  set (chatId := chatIdFor env1 active).
  set (st1 := saveCurrentChat env1 active msgs1 st).
  destruct (saveCurrentChat_history env1 active msgs1 st H1) as [Hh1 _].
  destruct (saveCurrentChat_history env2 (Some chatId) msgs2 st1 H2) as [Hh2 _].
  fold st1 chatId in Hh1.
  rewrite (chatIdFor_active env2 chatId (chatIdFor_truthy env1 active)) in Hh2.
  destruct (updateHistory_find env1 chatId (titleOf msgs1) msgs1 (chatHistory st))
    as [created Hfind].
  rewrite <- Hh1 in Hfind.
  assert (Hin : In chatId (map chat_id (chatHistory st1))).
  { apply find_some in Hfind as [Hin _].
    apply in_map_iff. eexists. split; [|exact Hin]. reflexivity. }
  destruct (updateHistory_ids env2 chatId (titleOf msgs2) msgs2 (chatHistory st1))
    as [(_ & Hids & Hcreated) | [Hout _]]; [|contradiction].
  rewrite Hh2. split; [exact Hids|]. split; [exact Hcreated|].
  split; [|split].
  - apply updateHistory_find.
  - intros ->. unfold updateHistory. fold (hasId chatId).
    destruct (findIndex (hasId chatId) (chatHistory st1)) as [i|] eqn:E.
    + destruct (findIndex_Some _ _ _ E) as (x & Hx & Hpx & Hfirst).
      rewrite Hx. cbn [from_option]. apply list_insert_id.
      rewrite Hx. f_equal.
      (* the first entry with the id is the one the first save wrote *)
      assert (Hx' : find (hasId chatId) (chatHistory st1) = Some x).
      { clear - Hx Hpx Hfirst. revert i Hx Hfirst.
        induction (chatHistory st1) as [|h l IH]; intros [|i] Hx Hfirst;
          simpl in *; try discriminate.
        - injection Hx as ->. rewrite Hpx. reflexivity.
        - rewrite (Hfirst 0%nat h) by (simpl; auto; lia).
          apply (IH i Hx). intros j y Hj Hy. apply (Hfirst (S j)); [lia|exact Hy]. }
      rewrite Hfind in Hx'. injection Hx' as <-. reflexivity.
    + pose proof (findIndex_None_inv _ _ E _ (proj1 (find_some _ _ Hfind))) as Hp.
      simpl in Hp. unfold hasId, JsString.eqb in Hp.
      rewrite bool_decide_eq_false in Hp. contradiction Hp. reflexivity.
  - intros Hnd.
    assert (Hnd1 : NoDup (map chat_id (chatHistory st1))).
    { rewrite Hh1.
      destruct (updateHistory_ids env1 chatId (titleOf msgs1) msgs1 (chatHistory st))
        as [(_ & Hsame & _) | [Hfresh ->]].
      - rewrite Hsame. exact Hnd.
      - simpl. apply NoDup_cons. split; [|exact Hnd].
        intros Hin'. apply Hfresh, list_elem_of_In, Hin'. }
    split; [rewrite Hids; exact Hnd1|].
    destruct (updateHistory_find env2 chatId (titleOf msgs2) msgs2 (chatHistory st1))
      as [created2 Hfind2].
    exists created2. apply filter_hasId_unique; [|exact Hfind2].
    rewrite Hids. exact Hnd1.
Qed.

Lemma second_save_reuses_the_entry_witness :
  firstTurn <> [] /\ otherTurn <> []
  /\ map createdAt
       (chatHistory
          (saveCurrentChat appEnv (Some (chatIdFor appEnv None)) otherTurn
             (saveCurrentChat appEnv None firstTurn
                (set_chatHistory savedHistory appStart))))
     = map createdAt
         (chatHistory
            (saveCurrentChat appEnv None firstTurn
               (set_chatHistory savedHistory appStart))).
Proof.
  assert (H1 : firstTurn <> []) by discriminate.
  assert (H2 : otherTurn <> []) by discriminate.
  split; [exact H1|]. split; [exact H2|].
  exact (proj1 (proj2 (second_save_reuses_the_entry appEnv appEnv None firstTurn
                         otherTurn (set_chatHistory savedHistory appStart) H1 H2))).
Defined.

End HistoryFacts.

(** ** The chat page over whole sessions *)

Module AppRunFacts.
Import NyayMitraApp.

(** The history has no two chats with one id, and is what local storage
    holds. *)
Record Stored (st : State) : Prop := mkStored {
  stored_nodup : NoDup (map chat_id (chatHistory st));
  stored_mirror : chatHistory st = from_option (fun x => x) [] (localStorage st);
}.

Lemma Stored_frame (st st' : State) :
  chatHistory st' = chatHistory st -> localStorage st' = localStorage st ->
  Stored st -> Stored st'.
Proof. intros Hh Hl [H1 H2]. split; rewrite Hh, ?Hl; assumption. Qed.

Lemma NoDup_map_filter {A B} (f : A -> B) (p : A -> bool) (l : list A) :
  NoDup (map f l) -> NoDup (map f (List.filter p l)).
Proof.
  induction l as [|x l IH]; simpl; intros H; [constructor|].
  apply NoDup_cons in H as [Hx Hl].
  destruct (p x); simpl; [|auto].
  apply NoDup_cons. split; [|auto].
  intros Hin. apply Hx. apply list_elem_of_In in Hin. apply list_elem_of_In.
  apply in_map_iff in Hin as (y & Hy & Hin). apply in_map_iff.
  exists y. split; [exact Hy|]. apply filter_In in Hin. tauto.
Qed.

Lemma Stored_save env active msgs st :
  Stored st -> Stored (saveCurrentChat env active msgs st).
Proof.
  intros [H1 H2]. destruct msgs as [|m msgs]; [split; assumption|].
  destruct (saveCurrentChat_history env active (m :: msgs) st ltac:(discriminate))
    as [Hh Hs].
  split; [|rewrite Hs; reflexivity].
  rewrite Hh.
  destruct (updateHistory_ids env (chatIdFor env active) (titleOf (m :: msgs))
              (m :: msgs) (chatHistory st)) as [(_ & Hids & _) | [Hout ->]].
  - rewrite Hids. exact H1.
  - simpl. apply NoDup_cons. split; [|exact H1].
    intros Hin. apply Hout. apply list_elem_of_In. exact Hin.
Qed.

Lemma Stored_settle env p out st : Stored st -> Stored (sendMessage_settle env p out st).
Proof.
  intros H. unfold sendMessage_settle.
  match goal with |- Stored (set_isLoading false ?inner) =>
    apply (Stored_frame inner); [reflexivity | reflexivity |]
  end.
  destruct (caughtMessage _ out) as [message|data].
  - destruct (isConnectionFailure message).
    + apply Stored_save. apply (Stored_frame st); [reflexivity..|exact H].
    + apply (Stored_frame st); [reflexivity..|exact H].
  - apply Stored_save.
    destruct (data_category data) as [c|]; [destruct (truthy c)|];
      apply (Stored_frame st); try reflexivity; exact H.
Qed.

Lemma Stored_begin env st text :
  Stored st -> Stored (fst (sendMessage_begin env st text)).
Proof.
  intros H. unfold sendMessage_begin.
  destruct (negb (truthy (trim text)) || isLoading st); [exact H|].
  cbn [fst]. apply (Stored_frame st); [| |exact H];
    destruct (length (messages st) =? 0)%nat; reflexivity.
Qed.

Lemma Stored_send env text m : Stored (ui m) -> Stored (ui (send env text m)).
Proof.
  intros H. unfold send.
  pose proof (Stored_begin env (ui m) text H) as Hb.
  destruct (sendMessage_begin env (ui m) text) as [st [p|]]; exact Hb.
Qed.

Lemma Stored_dispatch e m : Stored (ui m) -> Stored (ui (dispatch e m)).
Proof.
  intros H. destruct e; cbn [dispatch].
  - apply Stored_send, H.
  - apply Stored_send. cbn [ui]. apply (Stored_frame (ui m)); [reflexivity..|exact H].
  - destruct (inflight m); [exact H|]. cbn [ui]. apply Stored_settle, H.
  - cbn [ui]. apply (Stored_frame (ui m)); [reflexivity..|exact H].
  - cbn [ui]. apply (Stored_frame (ui m)); [| |exact H];
      unfold handleSelectChat; destruct (find _ _); reflexivity.
  - cbn [ui]. destruct H as [H1 H2].
    destruct (handleDeleteChat_history env chatId (ui m)) as [Hh Hs].
    split; [|rewrite Hs; reflexivity].
    rewrite Hh. apply NoDup_map_filter, H1.
  - cbn [ui]. apply (Stored_frame (ui m)); [reflexivity..|exact H].
Qed.

Lemma Stored_run events m : Stored (ui m) -> Stored (ui (run events m)).
Proof.
  revert m. induction events as [|e events IH]; intros m H; simpl; [exact H|].
  apply IH, Stored_dispatch, H.
Qed.

(** The loading flag is not set without a request in flight. *)
Definition Busy (m : Machine) : Prop :=
  isLoading (ui m) = true -> inflight m <> [].

Lemma Busy_frame (f : State -> State) (m : Machine) :
  (forall st, isLoading (f st) = isLoading st) ->
  Busy m -> Busy (mkMachine (f (ui m)) (inflight m)).
Proof. intros Hf H. unfold Busy in *. cbn [ui inflight]. rewrite Hf. exact H. Qed.

Lemma Busy_send env text m : Busy m -> Busy (send env text m).
Proof.
  intros H. unfold send, sendMessage_begin.
  destruct (negb (truthy (trim text)) || isLoading (ui m)).
  - destruct m; exact H.
  - intros _. cbn [inflight]. destruct (inflight m); discriminate.
Qed.

Lemma Busy_dispatch e m : Busy m -> Busy (dispatch e m).
Proof.
  intros H. destruct e; cbn [dispatch].
  - apply Busy_send, H.
  - apply Busy_send. apply (Busy_frame (set_activeCategory (Some catId))); auto.
  - destruct (inflight m) eqn:E; [exact H|]. intros Hl. discriminate Hl.
  - apply (Busy_frame (handleNewChat env)); auto.
  - apply (Busy_frame (handleSelectChat chatId)); [|exact H].
    intros st. unfold handleSelectChat. destruct (find _ _); reflexivity.
  - apply (Busy_frame (handleDeleteChat env chatId)); [|exact H].
    intros st. unfold handleDeleteChat.
    destruct (activeChatId st) as [a|]; [destruct (JsString.eqb a chatId)|];
      reflexivity.
  - apply (Busy_frame (fun st => set_sidebarOpen (negb (sidebarOpen st)) st)); auto.
Qed.

Lemma Busy_run events m : Busy m -> Busy (run events m).
Proof.
  revert m. induction events as [|e events IH]; intros m H; simpl; [exact H|].
  apply IH, Busy_dispatch, H.
Qed.

End AppRunFacts.

(** X6. Whatever the user does on the chat page (sending, answers
    arriving, new chat, selecting, deleting, topic clicks), if the chats
    loaded from local storage have distinct ids then the history never
    holds two chats with one id, and the history on screen is always
    exactly what local storage holds. *)
Theorem history_ids_stay_distinct_and_stored
    (events : list NyayMitraApp.Event) (sid : jsstring)
    (stored : option (list NyayMitraApp.StoredChat)) :
  NoDup (map NyayMitraApp.chat_id (from_option (fun x => x) [] stored)) ->
  let st := NyayMitraApp.ui
              (NyayMitraApp.run events (NyayMitraApp.mounted sid stored)) in
  NoDup (map NyayMitraApp.chat_id (NyayMitraApp.chatHistory st))
  /\ NyayMitraApp.chatHistory st
     = from_option (fun x => x) [] (NyayMitraApp.localStorage st).
Proof.
  intros H. cbv zeta.
  assert (H0 : AppRunFacts.Stored
                 (NyayMitraApp.ui (NyayMitraApp.mounted sid stored)))
    by (split; [exact H | reflexivity]).
  destruct (AppRunFacts.Stored_run events _ H0) as [H1 H2].
  split; assumption.
Qed.

Lemma history_ids_stay_distinct_and_stored_witness :
  let events :=
    [ NyayMitraApp.Send appEnv (lit "I was fired");
      NyayMitraApp.Settled appEnv (Ok (mkChatData (lit "Claim notice pay.") None));
      NyayMitraApp.DeleteChat appEnv (lit "chat_1_aaaaaa") ] in
  NoDup (map NyayMitraApp.chat_id (from_option (fun x => x) [] (Some savedHistory)))
  /\ map NyayMitraApp.chat_id
       (NyayMitraApp.chatHistory
          (NyayMitraApp.ui
             (NyayMitraApp.run events
                (NyayMitraApp.mounted (lit "session_1") (Some savedHistory)))))
     = [ lit "chat_1700000000000_k3x9ab"; lit "chat_2_bbbbbb" ]
  /\ NoDup (map NyayMitraApp.chat_id
              (NyayMitraApp.chatHistory
                 (NyayMitraApp.ui
                    (NyayMitraApp.run events
                       (NyayMitraApp.mounted (lit "session_1") (Some savedHistory)))))).
Proof.
  intros events.
  assert (H : NoDup (map NyayMitraApp.chat_id
                       (from_option (fun x => x) [] (Some savedHistory)))).
  { simpl. apply NoDup_cons. split.
    - intros Hin. apply list_elem_of_In in Hin. simpl in Hin.
      destruct Hin as [Hin|[]]. discriminate Hin.
    - apply NoDup_singleton. }
  split; [exact H|]. split; [reflexivity|].
  exact (proj1 (history_ids_stay_distinct_and_stored events (lit "session_1")
                  (Some savedHistory) H)).
Defined.

(** X7. On the chat page the loading flag is set exactly while a request is
    in flight, and there is never more than one request in flight,
    whatever the user does. *)
Theorem app_loading_iff_one_request_in_flight
    (events : list NyayMitraApp.Event) (sid : jsstring)
    (stored : option (list NyayMitraApp.StoredChat)) :
  let m := NyayMitraApp.run events (NyayMitraApp.mounted sid stored) in
  (length (NyayMitraApp.inflight m) <= 1)%nat
  /\ (NyayMitraApp.isLoading (NyayMitraApp.ui m) = true
      <-> NyayMitraApp.inflight m <> []).
Proof.
  cbv zeta.
  destruct (AppFlight.app_Inv_run events _ (AppFlight.app_Inv_mounted sid stored))
    as [H1 H2].
  assert (H3 := AppRunFacts.Busy_run events (NyayMitraApp.mounted sid stored)
                  ltac:(intros H; discriminate H)).
  split; [exact H1|]. split; [exact H3 | exact H2].
Qed.

Lemma app_loading_iff_one_request_in_flight_witness :
  let m := NyayMitraApp.run [NyayMitraApp.Send appEnv (lit "I was fired")]
             (NyayMitraApp.mounted (lit "session_1") None) in
  NyayMitraApp.inflight m <> []
  /\ NyayMitraApp.isLoading (NyayMitraApp.ui m) = true.
Proof.
  intros m.
  assert (H : NyayMitraApp.inflight m <> []) by discriminate.
  split; [exact H|].
  exact (proj2 (proj2 (app_loading_iff_one_request_in_flight
                         [NyayMitraApp.Send appEnv (lit "I was fired")]
                         (lit "session_1") None)) H).
Defined.

(** X8. The first exchange of a new chat is stored as the newest entry of
    the history: after [handleNewChat], a message that passes the guard and
    is answered 2xx leaves on screen the user message and the reply, and
    puts in front of the history a chat with a generated id (taken here not
    to be in use), those two messages, the current time as [createdAt],
    and as title the trimmed text, cut to 50 code units plus [...] when
    longer; that chat becomes the active one. *)
Theorem first_exchange_of_new_chat_is_stored
    (env0 env1 env2 : NyayMitraApp.Env) (st : NyayMitraApp.State)
    (text : jsstring) (data : ChatData) :
  NyayMitraApp.isLoading st = false ->
  truthy (trim text) = true ->
  (forall c, In c (NyayMitraApp.chatHistory st) ->
             NyayMitraApp.chat_id c <> NyayMitraApp.generateId env2) ->
  exists st1 p userMsg,
    NyayMitraApp.sendMessage_begin env1 (NyayMitraApp.handleNewChat env0 st) text
    = (st1, Some p)
    /\ role userMsg = user /\ content userMsg = trim text
    /\ let st2 := NyayMitraApp.sendMessage_settle env2 p (Ok data) st1 in
       let botMsg := NyayMitraApp.botMessage env2 (reply data) (data_category data) in
       NyayMitraApp.messages st2 = [userMsg; botMsg]
       /\ NyayMitraApp.chatHistory st2
          = NyayMitraApp.mkStoredChat (NyayMitraApp.generateId env2)
              (take 50 (trim text)
               ++ (if (50 <? length (trim text))%nat then lit "..." else []))
              [userMsg; botMsg] (NyayMitraApp.nowISO env2)
            :: NyayMitraApp.chatHistory st
       /\ NyayMitraApp.localStorage st2 = Some (NyayMitraApp.chatHistory st2)
       /\ NyayMitraApp.activeChatId st2 = Some (NyayMitraApp.generateId env2)
       /\ NyayMitraApp.isLoading st2 = false.
Proof.
  intros Hload Htext Hfresh.
  unfold NyayMitraApp.sendMessage_begin.
  replace (NyayMitraApp.isLoading (NyayMitraApp.handleNewChat env0 st))
    with false by (symmetry; exact Hload).
  rewrite (guard_passes _ Htext).
  eexists _, _,
    (mkMessage (ofNumber (NyayMitraApp.now env1) ++ lit "_user") user (trim text)
               (NyayMitraApp.now env1) None None).
  split; [reflexivity|]. split; [reflexivity|].
  split; [reflexivity|]. cbv zeta.
  unfold NyayMitraApp.sendMessage_settle. cbn [caughtMessage].
  cbn [NyayMitraApp.newMessages NyayMitraApp.savedChatId NyayMitraApp.activeChatId
       NyayMitraApp.handleNewChat NyayMitraApp.set_sessionId
       NyayMitraApp.set_sidebarOpen NyayMitraApp.set_error
       NyayMitraApp.set_activeCategory NyayMitraApp.set_activeChatId
       NyayMitraApp.set_messages NyayMitraApp.messages app].
  unfold NyayMitraApp.saveCurrentChat.
  cbn [NyayMitraApp.noActiveChat NyayMitraApp.chatIdFor].
  assert (Hup : forall ttl msgs prev,
            (forall c, In c prev ->
                       NyayMitraApp.chat_id c <> NyayMitraApp.generateId env2) ->
            NyayMitraApp.updateHistory env2 (NyayMitraApp.generateId env2) ttl msgs prev
            = NyayMitraApp.mkStoredChat (NyayMitraApp.generateId env2) ttl msgs
                (NyayMitraApp.nowISO env2) :: prev).
  { intros ttl msgs prev Hp. unfold NyayMitraApp.updateHistory.
    rewrite findIndex_None; [reflexivity|].
    intros c Hc. apply eqb_false, Hp, Hc. }
  destruct (data_category data) as [c|]; [destruct (truthy c)|];
    cbn; rewrite Hup by exact Hfresh; repeat split.
Qed.

Lemma first_exchange_of_new_chat_is_stored_witness :
  NyayMitraApp.isLoading (NyayMitraApp.set_chatHistory savedHistory appStart) = false
  /\ truthy (trim (lit " I was fired ")) = true
  /\ exists st1 p,
       NyayMitraApp.sendMessage_begin appEnv
         (NyayMitraApp.handleNewChat appEnv
            (NyayMitraApp.set_chatHistory savedHistory appStart))
         (lit " I was fired ")
       = (st1, Some p)
       /\ length (NyayMitraApp.chatHistory
                    (NyayMitraApp.sendMessage_settle appEnv p
                       (Ok (mkChatData (lit "Claim notice pay.") None)) st1))
          = 3%nat.
Proof.
  split; [reflexivity|]. split; [reflexivity|].
  destruct (first_exchange_of_new_chat_is_stored appEnv appEnv appEnv
              (NyayMitraApp.set_chatHistory savedHistory appStart)
              (lit " I was fired ")
              (mkChatData (lit "Claim notice pay.") None) eq_refl eq_refl)
    as (st1 & p & u & Hb & _ & _ & _ & Hh & _).
  - intros c Hc. simpl in Hc. destruct Hc as [<- | [<- | []]]; discriminate.
  - exists st1, p. split; [exact Hb|]. rewrite Hh. reflexivity.
Defined.

(** ** The sidebar *)

Lemma groups_concat cal (l : list Sidebar.ChatSession) :
  concat (map Sidebar.chats (Sidebar.groupByDate cal l))
  = SidebarFacts.inBucket cal 0 l ++ SidebarFacts.inBucket cal 1 l
    ++ SidebarFacts.inBucket cal 2 l ++ SidebarFacts.inBucket cal 3 l.
Proof.
  rewrite SidebarFacts.groupByDate_eq, SidebarFacts.concat_drop_empty.
  simpl. rewrite app_nil_r. reflexivity.
Qed.

(** X9. The sidebar shows every stored chat exactly once: the ids of the
    chats in its date groups, taken together, are a rearrangement of the
    ids of the stored history; each shown chat carries the id and title of
    a stored chat and a preview of at most 60 code units. *)
Theorem sidebar_shows_each_stored_chat_once
    (parseDate : jsstring -> Sidebar.TimeValue) (cal : Sidebar.Calendar)
    (history : list NyayMitraApp.StoredChat) :
  let shown :=
    concat (map Sidebar.chats
              (Sidebar.groupByDate cal (AppSidebar.sidebarHistory parseDate history))) in
  Permutation (map Sidebar.id shown) (map NyayMitraApp.chat_id history)
  /\ length shown = length history
  /\ Forall (fun c =>
               (length (Sidebar.preview c) <= 60)%nat
               /\ exists stored,
                    In stored history
                    /\ Sidebar.id c = NyayMitraApp.chat_id stored
                    /\ Sidebar.title c = NyayMitraApp.title stored)
            shown.
Proof.
  cbv zeta. rewrite groups_concat.
  pose proof (SidebarFacts.buckets_partition cal
                (AppSidebar.sidebarHistory parseDate history)) as Hperm.
  assert (Hids : map Sidebar.id (AppSidebar.sidebarHistory parseDate history)
                 = map NyayMitraApp.chat_id history).
  { unfold AppSidebar.sidebarHistory. rewrite map_map. reflexivity. }
  split; [|split].
  - rewrite <- Hids. apply Permutation_map, Hperm.
  - rewrite (Permutation_length Hperm).
    unfold AppSidebar.sidebarHistory. apply length_map.
  - apply List.Forall_forall. intros c Hc.
    apply (Permutation_in _ Hperm) in Hc.
    unfold AppSidebar.sidebarHistory in Hc.
    apply in_map_iff in Hc as (stored & <- & Hin).
    split; [|exists stored; auto].
    cbn [Sidebar.preview]. unfold AppSidebar.previewOf.
    destruct (last _); [|simpl; lia].
    unfold slice0. rewrite length_take. lia.
Qed.

(** The order the code compares dates in, with an invalid date older than
    any valid one. *)
Definition notOlder (a b : Sidebar.ChatSession) : Prop :=
  match Sidebar.createdAt a, Sidebar.createdAt b with
  | Some x, Some y => (y <= x)%Z
  | _, None => True
  | None, Some _ => False
  end.

Lemma bucket_monotone cal a b :
  (Sidebar.weekAgo cal <= Sidebar.yesterday cal)%Z ->
  (Sidebar.yesterday cal <= Sidebar.today cal)%Z ->
  notOlder a b -> (Sidebar.bucket cal a <= Sidebar.bucket cal b)%nat.
Proof.
  intros H1 H2. unfold notOlder, Sidebar.bucket, Sidebar.date_ge.
  destruct (Sidebar.createdAt a) as [x|], (Sidebar.createdAt b) as [y|];
    intros H; try contradiction;
    repeat match goal with
           | |- context [(?u <=? ?v)%Z] => destruct (Z.leb_spec u v)
           end; lia.
Qed.

Lemma inBucket_below cal (k j : nat) (l : list Sidebar.ChatSession) :
  Forall (fun c => (k <= Sidebar.bucket cal c)%nat) l -> (j < k)%nat ->
  SidebarFacts.inBucket cal j l = [].
Proof.
  intros H Hj. induction H as [|c l Hc _ IH]; [reflexivity|].
  unfold SidebarFacts.inBucket in *. simpl.
  replace (Sidebar.bucket cal c =? j)%nat with false
    by (symmetry; apply Nat.eqb_neq; lia).
  exact IH.
Qed.

Lemma buckets_in_order cal (l : list Sidebar.ChatSession) :
  StronglySorted (fun a b => (Sidebar.bucket cal a <= Sidebar.bucket cal b)%nat) l ->
  SidebarFacts.inBucket cal 0 l ++ SidebarFacts.inBucket cal 1 l
  ++ SidebarFacts.inBucket cal 2 l ++ SidebarFacts.inBucket cal 3 l = l.
Proof.
  intros H. induction H as [|c l Hs IH Hc]; [reflexivity|].
  pose proof (SidebarFacts.bucket_lt_4 cal c) as Hlt.
  assert (Hbelow : forall j, (j < Sidebar.bucket cal c)%nat ->
                     SidebarFacts.inBucket cal j l = []).
  { intros j Hj. apply (inBucket_below cal (Sidebar.bucket cal c)); [|exact Hj].
    exact Hc. }
  unfold SidebarFacts.inBucket at 1 2 3 4. cbn [List.filter].
  fold (SidebarFacts.inBucket cal 0 l) (SidebarFacts.inBucket cal 1 l)
       (SidebarFacts.inBucket cal 2 l) (SidebarFacts.inBucket cal 3 l).
  destruct (Sidebar.bucket cal c) as [|[|[|[|k]]]]; [| | | |lia]; cbn [Nat.eqb].
  - simpl. f_equal. exact IH.
  - rewrite (Hbelow 0%nat) in * by lia. simpl in *. f_equal. exact IH.
  - rewrite (Hbelow 0%nat), (Hbelow 1%nat) in * by lia. simpl in *.
    f_equal. exact IH.
  - rewrite (Hbelow 0%nat), (Hbelow 1%nat), (Hbelow 2%nat) in * by lia.
    simpl in *. f_equal. exact IH.
Qed.

(** X10. With the three midnights in calendar order, a chat that is not
    older than another is never put in an older group than it; and when
    the chats come newest first (invalid dates last), as the prepending
    history delivers them, reading the groups top to bottom gives back the
    input list in its exact order. *)
Theorem groupByDate_keeps_newest_first_order
    (cal : Sidebar.Calendar) (l : list Sidebar.ChatSession) :
  (Sidebar.weekAgo cal <= Sidebar.yesterday cal)%Z ->
  (Sidebar.yesterday cal <= Sidebar.today cal)%Z ->
  (forall a b, notOlder a b ->
               (Sidebar.bucket cal a <= Sidebar.bucket cal b)%nat)
  /\ (StronglySorted notOlder l ->
      concat (map Sidebar.chats (Sidebar.groupByDate cal l)) = l).
Proof.
  intros H1 H2. split.
  - intros a b. apply bucket_monotone; assumption.
  - intros Hs. rewrite groups_concat. apply buckets_in_order.
    induction Hs as [|c l Hs IH Hc]; constructor; [exact IH|].
    eapply Forall_impl; [exact Hc|].
    intros b Hb. apply bucket_monotone; assumption.
Qed.

Lemma groupByDate_keeps_newest_first_order_witness :
  (Sidebar.weekAgo istCalendar <= Sidebar.yesterday istCalendar)%Z
  /\ (Sidebar.yesterday istCalendar <= Sidebar.today istCalendar)%Z
  /\ StronglySorted notOlder threeChats
  /\ concat (map Sidebar.chats (Sidebar.groupByDate istCalendar threeChats))
     = threeChats.
Proof.
  assert (H1 : (Sidebar.weekAgo istCalendar <= Sidebar.yesterday istCalendar)%Z)
    by (vm_compute; discriminate).
  assert (H2 : (Sidebar.yesterday istCalendar <= Sidebar.today istCalendar)%Z)
    by (vm_compute; discriminate).
  assert (Hs : StronglySorted notOlder threeChats).
  { unfold threeChats.
    repeat (constructor; [|repeat constructor; try exact I;
                            unfold notOlder; simpl; lia]).
    constructor. }
  split; [exact H1|]. split; [exact H2|]. split; [exact Hs|].
  exact (proj2 (groupByDate_keeps_newest_first_order istCalendar threeChats H1 H2) Hs).
Defined.

(** ** ChatInterface over whole sessions *)

Module ChatRunFacts.
Import ChatInterface.

Definition Busy (m : Machine) : Prop :=
  isLoading (ui m) = true -> inflight m <> [].

Lemma chat_Busy_dispatch e m : Busy m -> Busy (dispatch e m).
Proof.
  intros H. unfold Busy in *. destruct e; cbn [dispatch].
  - unfold send, sendMessage_begin.
    destruct (negb (truthy (trim text)) || isLoading (ui m));
      [destruct m; exact H|].
    intros _. cbn [inflight]. destruct (inflight m); discriminate.
  - unfold send, sendMessage_begin. cbn [ui inflight].
    destruct (negb (truthy (trim (categoryQuery label)))
              || isLoading (set_activeCategory (Some catId) (ui m))) eqn:G.
    + exact H.
    + intros _. cbn [inflight]. destruct (inflight m); discriminate.
  - case_eq (inflight m); [intros _; exact H|].
    intros p rest _ Hl. discriminate Hl.
  - exact H.
  - exact H.
Qed.

Lemma chat_Busy_run events m : Busy m -> Busy (run events m).
Proof.
  revert m. induction events as [|e events IH]; intros m H; simpl; [exact H|].
  apply IH, chat_Busy_dispatch, H.
Qed.

Lemma begin_extends env st text :
  exists added,
    messages (fst (sendMessage_begin env st text)) = messages st ++ added.
Proof.
  unfold sendMessage_begin.
  destruct (negb (truthy (trim text)) || isLoading st).
  - exists []. rewrite app_nil_r. reflexivity.
  - eexists. reflexivity.
Qed.

Lemma settle_extends env p out st :
  exists added,
    messages (sendMessage_settle env p out st) = messages st ++ added.
Proof.
  unfold sendMessage_settle.
  destruct (caughtMessage _ out) as [message|data].
  - destruct (isConnectionFailure message).
    + eexists. reflexivity.
    + exists []. rewrite app_nil_r. reflexivity.
  - destruct (data_category data) as [c|]; [destruct (truthy c)|];
      eexists; reflexivity.
Qed.

Lemma dispatch_extends e m :
  exists added, messages (ui (dispatch e m)) = messages (ui m) ++ added.
Proof.
  destruct e; cbn [dispatch].
  - unfold send. destruct (begin_extends env (ui m) text) as [added H].
    destruct (sendMessage_begin env (ui m) text) as [st [p|]];
      exists added; exact H.
  - unfold send.
    destruct (begin_extends env (set_activeCategory (Some catId) (ui m))
                (categoryQuery label)) as [added H].
    cbn [ui]. destruct (sendMessage_begin env _ _) as [st [p|]];
      exists added; exact H.
  - destruct (inflight m); [exists []; rewrite app_nil_r; reflexivity|].
    apply settle_extends.
  - exists []. rewrite app_nil_r. reflexivity.
  - exists []. rewrite app_nil_r. reflexivity.
Qed.

Lemma run_extends events m :
  exists added, messages (ui (run events m)) = messages (ui m) ++ added.
Proof.
  revert m. induction events as [|e events IH]; intros m; simpl.
  - exists []. rewrite app_nil_r. reflexivity.
  - destruct (IH (dispatch e m)) as [a2 H2].
    destruct (dispatch_extends e m) as [a1 H1].
    exists (a1 ++ a2). fold (run events (dispatch e m)).
    rewrite H2, H1, app_assoc. reflexivity.
Qed.

End ChatRunFacts.

(** X11. In the chat component without stored history the conversation
    only ever grows at its end: whatever happens (sending, topic clicks,
    typing, answers or failures arriving), the messages shown before are
    still there, in the same order, as the beginning of the list.  The
    loading flag is set exactly while a request is in flight, and at most
    one is. *)
Theorem chat_messages_only_grow
    (events : list ChatInterface.Event) (m : ChatInterface.Machine)
    (more : list ChatInterface.Event) (sid : jsstring) :
  (exists added,
     ChatInterface.messages (ChatInterface.ui (ChatInterface.run events m))
     = ChatInterface.messages (ChatInterface.ui m) ++ added)
  /\ let r := ChatInterface.run more (ChatInterface.mounted sid) in
     (length (ChatInterface.inflight r) <= 1)%nat
     /\ (ChatInterface.isLoading (ChatInterface.ui r) = true
         <-> ChatInterface.inflight r <> []).
Proof.
  split; [apply ChatRunFacts.run_extends|]. cbv zeta.
  destruct (ChatFlight.chat_Inv_run more _ (ChatFlight.chat_Inv_mounted sid))
    as [H1 H2].
  assert (H3 := ChatRunFacts.chat_Busy_run more (ChatInterface.mounted sid)
                  ltac:(intros H; discriminate H)).
  split; [exact H1|]. split; [exact H3 | exact H2].
Qed.

(** X12. In the chat component's message box, Shift+Enter and every key
    other than Enter send nothing and change nothing.  Enter sends the
    typed text: when its trimmed form is non-empty and nothing is loading,
    one request goes out carrying the trimmed text and the box is emptied;
    otherwise nothing is sent and the typed text stays in the box. *)
Theorem chat_enter_key_sends_input
    (env : ChatInterface.Env) (key : jsstring) (shiftKey : bool)
    (st : ChatInterface.State) :
  let r := ChatInterface.handleKeyDown env key shiftKey st in
  (key <> lit "Enter" \/ shiftKey = true -> r = (st, None))
  /\ (key = lit "Enter" -> shiftKey = false ->
      (truthy (trim (ChatInterface.inputValue st)) = true ->
       ChatInterface.isLoading st = false ->
       exists p,
         snd r = Some p
         /\ field "message" (body (ChatInterface.request p))
            = Some (trim (ChatInterface.inputValue st))
         /\ ChatInterface.inputValue (fst r) = []
         /\ ChatInterface.isLoading (fst r) = true)
      /\ (trim (ChatInterface.inputValue st) = []
          \/ ChatInterface.isLoading st = true ->
          r = (st, None))).
Proof.
  cbv zeta. unfold ChatInterface.handleKeyDown. split.
  - intros [Hk | Hs].
    + replace (JsString.eqb key (lit "Enter")) with false
        by (symmetry; apply eqb_false, Hk).
      reflexivity.
    + rewrite Hs, andb_false_r. reflexivity.
  - intros -> ->.
    replace (JsString.eqb (lit "Enter") (lit "Enter")) with true by reflexivity.
    cbn [andb negb]. unfold ChatInterface.sendMessage_begin. split.
    + intros Ht Hl. rewrite Hl, (guard_passes _ Ht).
      eexists. split; [reflexivity|]. repeat split.
    + intros H. rewrite (guard_blocks _ _ H). reflexivity.
Qed.

Lemma chat_enter_key_sends_input_witness :
  let st := ChatInterface.set_inputValue (lit " my landlord ") chatStart in
  truthy (trim (ChatInterface.inputValue st)) = true
  /\ ChatInterface.isLoading st = false
  /\ exists p,
       snd (ChatInterface.handleKeyDown chatEnv (lit "Enter") false st) = Some p
       /\ field "message" (body (ChatInterface.request p)) = Some (lit "my landlord").
Proof.
  intros st.
  split; [reflexivity|]. split; [reflexivity|].
  destruct (proj1 (proj2 (chat_enter_key_sends_input chatEnv (lit "Enter") false st)
                     eq_refl eq_refl) eq_refl eq_refl) as (p & Hp & Hm & _).
  exists p. split; [exact Hp | exact Hm].
Defined.

Lemma chat_messages_only_grow_witness :
  let events :=
    [ ChatInterface.Send chatEnv (lit "I was fired");
      ChatInterface.Settled chatEnv (NotOk 500 None) ] in
  ChatInterface.inflight (ChatInterface.run events (ChatInterface.mounted (lit "s")))
  = []
  /\ ChatInterface.isLoading
       (ChatInterface.ui (ChatInterface.run events (ChatInterface.mounted (lit "s"))))
     <> true.
Proof.
  intros events.
  split; [reflexivity|].
  intros Hl.
  exact (proj1 (proj2 (proj2 (chat_messages_only_grow [] (ChatInterface.mounted (lit "s"))
                                events (lit "s")))) Hl eq_refl).
Defined.

(** ** The message box of the chat page *)

Section InputFacts.
Import GradientAIChatInput.

Variable File : Type.

(** X13. The message box wired into the chat page ([onSend] is
    [sendMessage], [disabled] is the loading flag).  Submitting text
    whose trimmed form is empty, or submitting while loading, calls
    nothing and keeps the typed text and the attachments.  Any other
    submit empties the box and is never turned down by [sendMessage]: one
    request goes out whose message is the typed text trimmed, and the user
    message with that text is put at the end of the conversation. *)
Theorem input_submit_reaches_sendMessage
    (env : NyayMitraApp.Env) (app : NyayMitraApp.State) (inp : State File) :
  let r := handleSubmit (Some (NyayMitraApp.sendMessage_begin env app))
                        (NyayMitraApp.isLoading app) inp in
  (trim (message inp) = [] \/ NyayMitraApp.isLoading app = true ->
   r = (inp, None))
  /\ (truthy (trim (message inp)) = true ->
      NyayMitraApp.isLoading app = false ->
      exists app' p userMsg,
        r = (mkState [] (attachedFiles inp), Some (app', Some p))
        /\ NyayMitraApp.request p
           = chatRequest (trim (message inp)) NyayMitraApp.LOCATION
                         (NyayMitraApp.sessionId app)
        /\ NyayMitraApp.messages app' = NyayMitraApp.messages app ++ [userMsg]
        /\ role userMsg = user /\ content userMsg = trim (message inp)).
Proof.
  cbv zeta. unfold handleSubmit. split.
  - intros [H | H]; rewrite H;
      [reflexivity | cbn [negb]; rewrite andb_false_r; reflexivity].
  - intros Ht Hl. rewrite Ht, Hl. cbn [andb negb].
    unfold NyayMitraApp.sendMessage_begin.
    rewrite trim_idem, Hl, (guard_passes _ Ht).
    eexists _, _, _. split; [reflexivity|]. split; [reflexivity|].
    cbn [NyayMitraApp.messages NyayMitraApp.set_isLoading NyayMitraApp.set_messages].
    split; [reflexivity|]. split; reflexivity.
Qed.

(** X14. Removing an attachment removes exactly the file at that position:
    the files before it keep their place, the files after it move up by
    one, and the list is one shorter; a position past the end removes
    nothing.  Removing the position where a file was just attached gives
    back the attachments as they were. *)
Theorem removeFile_removes_that_position (index : nat) (st : State File) :
  attachedFiles (removeFile index st)
  = take index (attachedFiles st) ++ drop (S index) (attachedFiles st)
  /\ message (removeFile index st) = message st
  /\ ((index < length (attachedFiles st))%nat ->
      S (length (attachedFiles (removeFile index st))) = length (attachedFiles st))
  /\ ((length (attachedFiles st) <= index)%nat ->
      removeFile index st = st)
  /\ (forall f,
        removeFile (length (attachedFiles st)) (handleFileChange [f] st) = st).
Proof.
  assert (Hfilter : forall i (l : list File) k,
            map snd (List.filter (fun p => negb (Nat.eqb (fst p) i))
                                 (combine (seq k (length l)) l))
            = if (i <? k)%nat then l
              else take (i - k) l ++ drop (S (i - k)) l).
  { intros i. induction l as [|x l IH]; intros k.
    - destruct (i <? k)%nat; [reflexivity|].
      rewrite take_nil. reflexivity.
    - cbn [length seq combine List.filter fst]. specialize (IH (S k)).
      destruct (Nat.ltb_spec i k) as [Hlt | Hge].
      + replace (k =? i)%nat with false by (symmetry; apply Nat.eqb_neq; lia).
        cbn [negb map snd]. rewrite IH.
        replace (i <? S k)%nat with true by (symmetry; apply Nat.ltb_lt; lia).
        reflexivity.
      + destruct (Nat.eqb_spec k i) as [-> | Hne].
        * cbn [negb]. rewrite IH.
          replace (i <? S i)%nat with true
            by (symmetry; apply Nat.ltb_lt; lia).
          rewrite Nat.sub_diag. reflexivity.
        * cbn [negb map snd]. rewrite IH.
          replace (i <? S k)%nat with false
            by (symmetry; apply Nat.ltb_ge; lia).
          replace (i - k)%nat with (S (i - S k)) by lia.
          reflexivity. }
  assert (Heq : forall i (l : list File),
            filterOutIndex i l = take i l ++ drop (S i) l).
  { intros i l. unfold filterOutIndex. rewrite Hfilter.
    replace (i <? 0)%nat with false by reflexivity.
    rewrite Nat.sub_0_r. reflexivity. }
  split; [apply Heq|]. split; [reflexivity|]. split; [|split].
  - intros Hlt. cbn [removeFile attachedFiles]. rewrite Heq.
    rewrite length_app, length_take, length_drop. lia.
  - intros Hge. destruct st as [msg files]. unfold removeFile.
    cbn [message attachedFiles] in *. rewrite Heq.
    rewrite take_ge, drop_ge, app_nil_r by lia. reflexivity.
  - intros f. destruct st as [msg files].
    unfold removeFile, handleFileChange. cbn [message attachedFiles].
    rewrite Heq, take_app_length.
    rewrite drop_ge by (rewrite length_app; simpl; lia).
    rewrite app_nil_r. reflexivity.
Qed.

End InputFacts.

Lemma input_submit_reaches_sendMessage_witness :
  let inp := GradientAIChatInput.mkState (File := nat) (lit "  I was fired ") [7%nat] in
  truthy (trim (GradientAIChatInput.message inp)) = true
  /\ NyayMitraApp.isLoading appStart = false
  /\ exists app' p,
       GradientAIChatInput.handleSubmit
         (Some (NyayMitraApp.sendMessage_begin appEnv appStart))
         (NyayMitraApp.isLoading appStart) inp
       = (GradientAIChatInput.mkState [] [7%nat], Some (app', Some p))
       /\ field "message" (body (NyayMitraApp.request p)) = Some (lit "I was fired").
Proof.
  intros inp.
  split; [reflexivity|]. split; [reflexivity|].
  destruct (proj2 (input_submit_reaches_sendMessage nat appEnv appStart inp)
              eq_refl eq_refl) as (app' & p & u & Hr & Hq & _).
  exists app', p. split; [exact Hr|]. rewrite Hq. reflexivity.
Defined.

Lemma removeFile_removes_that_position_witness :
  let st := GradientAIChatInput.mkState (File := nat) (lit "hi") [10; 20; 30]%nat in
  (1 < length (GradientAIChatInput.attachedFiles st))%nat
  /\ GradientAIChatInput.attachedFiles (GradientAIChatInput.removeFile 1 st)
     = [10; 30]%nat
  /\ S (length (GradientAIChatInput.attachedFiles
                  (GradientAIChatInput.removeFile 1 st))) = 3%nat.
Proof.
  intros st.
  assert (H : (1 < length (GradientAIChatInput.attachedFiles st))%nat)
    by (simpl; lia).
  split; [exact H|].
  destruct (removeFile_removes_that_position nat 1 st) as (H1 & _ & H2 & _).
  split; [rewrite H1; reflexivity | exact (H2 H)].
Defined.

(** ** The rights-card wizard over whole sessions *)

Module WizardRunFacts.
Import RightsCardGenerator.

Definition atResult (s : Step) : bool :=
  match s with result => true | _ => false end.

Definition BACKEND_DOWN : jsstring :=
  lit "Backend not connected. Please start the backend server.".

(** What holds of the wizard whatever happens to it. *)
Record Flow (m : Machine) : Prop := mkFlow {
  flow_inflight : inflight m = if isGenerating (ui m) then 1%nat else 0%nat;
  flow_card : isSome (cardData (ui m)) = true -> step (ui m) = result;
}.

(** What holds as long as no 2xx answer came with a null body. *)
Definition Carded (m : Machine) : Prop :=
  step (ui m) = result -> isSome (cardData (ui m)) = true.

Lemma Flow_mounted location : Flow (mounted location).
Proof. split; [reflexivity | discriminate]. Qed.

Lemma Carded_mounted location : Carded (mounted location).
Proof. intros H. discriminate H. Qed.

Lemma settle_caught out st message :
  caughtMessage (lit "Failed to generate card") out = inl message ->
  step (handleGenerate_settle out st) = step st
  /\ cardData (handleGenerate_settle out st) = cardData st
  /\ selectedSituation (handleGenerate_settle out st) = selectedSituation st
  /\ selectedLanguage (handleGenerate_settle out st) = selectedLanguage st
  /\ isGenerating (handleGenerate_settle out st) = false
  /\ error (handleGenerate_settle out st)
     = Some (if isConnectionFailure message then BACKEND_DOWN else message).
Proof.
  intros H. unfold handleGenerate_settle. rewrite H.
  destruct (isConnectionFailure message); repeat split.
Qed.

Lemma settle_got out st data :
  caughtMessage (lit "Failed to generate card") out = inr data ->
  step (handleGenerate_settle out st) = result
  /\ cardData (handleGenerate_settle out st) = Some data
  /\ isGenerating (handleGenerate_settle out st) = false.
Proof.
  intros H. unfold handleGenerate_settle. rewrite H. repeat split.
Qed.

Lemma settle_cases out st :
  (step (handleGenerate_settle out st) = step st
   /\ cardData (handleGenerate_settle out st) = cardData st
   \/ step (handleGenerate_settle out st) = result
      /\ isSome (cardData (handleGenerate_settle out st)) = true)
  /\ isGenerating (handleGenerate_settle out st) = false.
Proof.
  destruct (caughtMessage (lit "Failed to generate card") out)
    as [message|data] eqn:E.
  - destruct (settle_caught out st message E) as (H1 & H2 & _ & _ & H5 & _).
    split; [left; split; assumption | exact H5].
  - destruct (settle_got out st data E) as (H1 & H2 & H3).
    split; [right; split; [exact H1 | rewrite H2; reflexivity] | exact H3].
Qed.

(** The effect of one event on the step and the card, for the events that
    are not the arrival of an answer. *)
Lemma Flow_dispatch e m : Flow m -> Flow (dispatch e m).
Proof.
  intros [Hi Hc]. unfold dispatch.
  assert (Hsame : Flow m) by (split; assumption).
  destruct e as [i|i| | | | |out|location| ], (step (ui m)) eqn:Hstep;
    try exact Hsame.
  - destruct (SITUATIONS !! i); [|exact Hsame].
    split; cbn; [exact Hi | intros H; specialize (Hc H); discriminate Hc].
  - destruct (LANGUAGES !! i); [|exact Hsame].
    split; cbn; rewrite ?Hstep; [exact Hi | exact Hc].
  - destruct (isGenerating (ui m)) eqn:Hg; [exact Hsame|].
    unfold handleGenerate_begin.
    destruct (selectedSituation (ui m)) as [s|];
      [destruct (negb (truthy s))|];
      try (destruct m; exact Hsame).
    split; cbn; rewrite ?Hstep; [rewrite Hi; reflexivity | exact Hc].
  - split; cbn; unfold handleBack; rewrite Hstep; cbn;
      [exact Hi | intros H; specialize (Hc H); discriminate Hc].
  - split; cbn; unfold handleBack; rewrite Hstep; cbn;
      [exact Hi | intros H; discriminate H].
  - destruct (isSome (cardData (ui m))); [|exact Hsame].
    split; cbn; [exact Hi | intros H; discriminate H].
  - destruct (isSome (cardData (ui m))) eqn:Hcard; [|exact Hsame].
    split; cbn; rewrite ?Hstep; [exact Hi | reflexivity].
  - destruct (inflight m) as [|n] eqn:En; [exact Hsame|].
    destruct (isGenerating (ui m)); [|discriminate Hi]. injection Hi as ->.
    destruct (settle_cases out (ui m)) as [[[H1 H2] | [H1 H2]] H3];
      split; cbn [ui inflight]; rewrite ?H3, ?H1, ?H2, ?Hstep; auto.
  - destruct (inflight m) as [|n] eqn:En; [exact Hsame|].
    destruct (isGenerating (ui m)); [|discriminate Hi]. injection Hi as ->.
    destruct (settle_cases out (ui m)) as [[[H1 H2] | [H1 H2]] H3];
      split; cbn [ui inflight]; rewrite ?H3, ?H1, ?H2, ?Hstep; auto.
  - destruct (inflight m) as [|n] eqn:En; [exact Hsame|].
    destruct (isGenerating (ui m)); [|discriminate Hi]. injection Hi as ->.
    destruct (settle_cases out (ui m)) as [[[H1 H2] | [H1 H2]] H3];
      split; cbn [ui inflight]; rewrite ?H3, ?H1, ?H2, ?Hstep; auto.
  - split; cbn; rewrite ?Hstep; [exact Hi | exact Hc].
  - split; cbn; rewrite ?Hstep; [exact Hi | exact Hc].
  - split; cbn; rewrite ?Hstep; [exact Hi | exact Hc].
  - destruct (inflight m) as [|n] eqn:En; [exact Hsame|].
    destruct (isGenerating (ui m)); [|discriminate Hi]. injection Hi as ->.
    split; cbn; [reflexivity | intros H; discriminate H].
  - destruct (inflight m) as [|n] eqn:En; [exact Hsame|].
    destruct (isGenerating (ui m)); [|discriminate Hi]. injection Hi as ->.
    split; cbn; [reflexivity | intros H; discriminate H].
  - destruct (inflight m) as [|n] eqn:En; [exact Hsame|].
    destruct (isGenerating (ui m)); [|discriminate Hi]. injection Hi as ->.
    split; cbn; [reflexivity | intros H; discriminate H].
Qed.

Lemma Flow_run events m : Flow m -> Flow (run events m).
Proof.
  revert m. induction events as [|e events IH]; intros m H; simpl; [exact H|].
  apply IH, Flow_dispatch, H.
Qed.

Lemma Carded_dispatch e m : e <> SettledNull -> Carded m -> Carded (dispatch e m).
Proof.
  intros He Hc. unfold Carded in *. unfold dispatch.
  destruct e as [i|i| | | | |out|location| ], (step (ui m)) eqn:Hstep;
    try (rewrite ?Hstep; exact Hc); try contradiction.
  - destruct (SITUATIONS !! i); [|rewrite Hstep; exact Hc].
    cbn. intros H. discriminate H.
  - destruct (LANGUAGES !! i); [|rewrite Hstep; exact Hc].
    cbn. rewrite Hstep. exact Hc.
  - destruct (isGenerating (ui m)); [rewrite Hstep; exact Hc|].
    unfold handleGenerate_begin.
    destruct (selectedSituation (ui m)) as [s|];
      [destruct (negb (truthy s))|]; cbn; rewrite ?Hstep; exact Hc.
  - cbn. unfold handleBack. rewrite Hstep. cbn. intros H. discriminate H.
  - cbn. unfold handleBack. rewrite Hstep. cbn. intros H. discriminate H.
  - destruct (isSome (cardData (ui m))); [|discriminate (Hc eq_refl)].
    cbn. intros H. discriminate H.
  - destruct (isSome (cardData (ui m))) eqn:Hcard; [|discriminate (Hc eq_refl)].
    cbn. intros _. exact Hcard.
  - destruct (inflight m) as [|n]; [rewrite Hstep; exact Hc|].
    destruct (settle_cases out (ui m)) as [[[H1 H2] | [H1 H2]] _];
      cbn [ui]; rewrite ?H1, ?H2, ?Hstep; auto.
  - destruct (inflight m) as [|n]; [rewrite Hstep; exact Hc|].
    destruct (settle_cases out (ui m)) as [[[H1 H2] | [H1 H2]] _];
      cbn [ui]; rewrite ?H1, ?H2, ?Hstep; auto.
  - destruct (inflight m) as [|n]; [rewrite Hstep; exact Hc|].
    destruct (settle_cases out (ui m)) as [[[H1 H2] | [H1 H2]] _];
      cbn [ui]; rewrite ?H1, ?H2, ?Hstep; auto.
  - cbn. rewrite Hstep. exact Hc.
  - cbn. rewrite Hstep. exact Hc.
  - cbn. rewrite Hstep. exact Hc.
Qed.

Lemma Carded_run events m :
  Forall (fun e => e <> SettledNull) events -> Carded m -> Carded (run events m).
Proof.
  intros Hall. revert m.
  induction Hall as [|e events He _ IH]; intros m H; simpl; [exact H|].
  apply IH, Carded_dispatch; assumption.
Qed.

End WizardRunFacts.

(** X15. However the wizard is driven, at most one rights-card request is
    in flight, the generating flag is set exactly while one is, and the
    wizard holds a card only on its result step.  As long as no 2xx answer
    came with a null body, the converse holds too: on the result step
    there is a card to render.  A 2xx answer with a null body is the
    exception: it puts the wizard on the result step without a card. *)
Theorem wizard_result_step_has_card
    (events : list RightsCardGenerator.Event) (location : jsstring) :
  let m := RightsCardGenerator.run events (RightsCardGenerator.mounted location) in
  (RightsCardGenerator.inflight m <= 1)%nat
  /\ (RightsCardGenerator.isGenerating (RightsCardGenerator.ui m) = true
      <-> RightsCardGenerator.inflight m = 1%nat)
  /\ ((exists card,
         RightsCardGenerator.cardData (RightsCardGenerator.ui m) = Some card) ->
      RightsCardGenerator.step (RightsCardGenerator.ui m)
      = RightsCardGenerator.result)
  /\ (Forall (fun e => e <> RightsCardGenerator.SettledNull) events ->
      RightsCardGenerator.step (RightsCardGenerator.ui m)
      = RightsCardGenerator.result ->
      exists card,
        RightsCardGenerator.cardData (RightsCardGenerator.ui m) = Some card)
  /\ (RightsCardGenerator.inflight m = 1%nat ->
      let m' := RightsCardGenerator.dispatch RightsCardGenerator.SettledNull m in
      RightsCardGenerator.step (RightsCardGenerator.ui m')
      = RightsCardGenerator.result
      /\ RightsCardGenerator.cardData (RightsCardGenerator.ui m') = None
      /\ RightsCardGenerator.isGenerating (RightsCardGenerator.ui m') = false).
Proof.
  cbv zeta.
  destruct (WizardRunFacts.Flow_run events _ (WizardRunFacts.Flow_mounted location))
    as [Hi Hc].
  pose proof (fun Hall => WizardRunFacts.Carded_run events _ Hall
                            (WizardRunFacts.Carded_mounted location)) as Hstrict.
  set (m := RightsCardGenerator.run events (RightsCardGenerator.mounted location)) in *.
  split; [|split; [|split; [|split]]].
  - rewrite Hi. destruct (RightsCardGenerator.isGenerating _); lia.
  - rewrite Hi. destruct (RightsCardGenerator.isGenerating _); split;
      intros H; try reflexivity; discriminate H.
  - intros [card Hcard]. apply Hc. rewrite Hcard. reflexivity.
  - intros Hall Hres. specialize (Hstrict Hall Hres).
    destruct (RightsCardGenerator.cardData (RightsCardGenerator.ui m)) as [card|];
      [eauto | discriminate Hstrict].
  - intros Hone. unfold RightsCardGenerator.dispatch. rewrite Hone.
    destruct (RightsCardGenerator.step (RightsCardGenerator.ui m)); repeat split.
Qed.

Lemma wizard_result_step_has_card_witness :
  let m := RightsCardGenerator.run WizardFacts.forwardSession
             (RightsCardGenerator.mounted (lit "Bengaluru, Karnataka")) in
  Forall (fun e => e <> RightsCardGenerator.SettledNull) WizardFacts.forwardSession
  /\ RightsCardGenerator.step (RightsCardGenerator.ui m) = RightsCardGenerator.result
  /\ exists card, RightsCardGenerator.cardData (RightsCardGenerator.ui m) = Some card.
Proof.
  intros m.
  assert (Hall : Forall (fun e => e <> RightsCardGenerator.SettledNull)
                        WizardFacts.forwardSession)
    by (repeat constructor; discriminate).
  assert (H : RightsCardGenerator.step (RightsCardGenerator.ui m)
              = RightsCardGenerator.result) by reflexivity.
  split; [exact Hall|]. split; [exact H|].
  exact (proj1 (proj2 (proj2 (proj2 (wizard_result_step_has_card
                                       WizardFacts.forwardSession
                                       (lit "Bengaluru, Karnataka"))))) Hall H).
Defined.

(** X16. A rights-card request that does not come back with a card body
    (an error thrown, or a non-2xx answer) never moves the wizard or gives
    it a card: step, card, selected situation and language stay as they
    are, the generating flag is cleared, and the error becomes the fixed
    backend-not-connected text when the caught message names a connection
    failure ([Failed to fetch], [ECONNREFUSED]) and the caught message
    itself otherwise.  The caught message of a non-2xx answer is the
    body's [detail] when that is a non-empty string; [Server error:
    <status>] when the body is not JSON or its [detail] is absent, an
    empty string or another falsy value; the [TypeError] text when the
    body is null; and the string form of a truthy [detail] that is not a
    string, which may be empty. *)
Theorem wizard_failure_keeps_step_and_sets_error
    (out : FetchOutcome RightsCardGenerator.RightsCardData)
    (st : RightsCardGenerator.State) :
  (forall data, out <> Ok data) ->
  let st' := RightsCardGenerator.handleGenerate_settle out st in
  let serverError status := lit "Server error: " ++ ofNumber status in
  exists message,
    caughtMessage (lit "Failed to generate card") out = inl message
    /\ RightsCardGenerator.step st' = RightsCardGenerator.step st
    /\ RightsCardGenerator.cardData st' = RightsCardGenerator.cardData st
    /\ RightsCardGenerator.selectedSituation st'
       = RightsCardGenerator.selectedSituation st
    /\ RightsCardGenerator.selectedLanguage st'
       = RightsCardGenerator.selectedLanguage st
    /\ RightsCardGenerator.isGenerating st' = false
    /\ RightsCardGenerator.error st'
       = Some (if isConnectionFailure message
               then lit "Backend not connected. Please start the backend server."
               else message)
    /\ (forall status d, out = NotOk status (Some d) -> d <> [] -> message = d)
    /\ (forall status, out = NotOk status (Some []) -> message = serverError status)
    /\ (forall status, out = NotOk status None ->
          message = serverError status
          /\ RightsCardGenerator.error st' = Some (serverError status))
    /\ (forall status typeError, out = NotOkNull status typeError ->
          message = typeError)
    /\ (forall status text, out = NotOkDetail status true text -> message = text)
    /\ (forall status text, out = NotOkDetail status false text ->
          message = serverError status)
    /\ (forall m, out = Threw (Some m) -> message = m)
    /\ (out = Threw None -> message = lit "Failed to generate card").
Proof.
  intros Hfail. cbv zeta.
  destruct (caughtMessage (lit "Failed to generate card") out)
    as [message|data] eqn:E.
  2: { exfalso. destruct out as [[m|]|d|status detail|status te|status b text];
         try discriminate E. exact (Hfail d eq_refl). }
  exists message. split; [reflexivity|].
  destruct (WizardRunFacts.settle_caught out st message E)
    as (H1 & H2 & H3 & H4 & H5 & H6).
  repeat (split; [assumption|]).
  split.
  { intros status d -> Hd. cbv [caughtMessage serverErrorMessage] in E.
    apply truthy_true_iff in Hd. rewrite Hd in E. congruence. }
  split.
  { intros status ->. cbv [caughtMessage serverErrorMessage truthy] in E.
    congruence. }
  split.
  { intros status ->. cbv [caughtMessage serverErrorMessage] in E.
    assert (Hm : message = lit "Server error: " ++ ofNumber status)
      by congruence.
    subst message. split; [reflexivity|].
    rewrite H6, serverError_not_connectionFailure. reflexivity. }
  split.
  { intros status typeError ->. cbv [caughtMessage] in E. congruence. }
  split.
  { intros status text ->. cbv [caughtMessage] in E. congruence. }
  split.
  { intros status text ->. cbv [caughtMessage] in E. congruence. }
  split.
  { intros m ->. cbv [caughtMessage] in E. congruence. }
  intros ->. cbv [caughtMessage] in E. congruence.
Qed.

Lemma wizard_failure_keeps_step_and_sets_error_witness :
  let st := RightsCardGenerator.handleSituationSelect (lit "fired")
              RightsCardGenerator.initial in
  let out : FetchOutcome RightsCardGenerator.RightsCardData :=
    NotOk 422 (Some (lit "Invalid situation")) in
  (forall data, out <> Ok data)
  /\ RightsCardGenerator.step (RightsCardGenerator.handleGenerate_settle out st)
     = RightsCardGenerator.configure
  /\ RightsCardGenerator.error (RightsCardGenerator.handleGenerate_settle out st)
     = Some (lit "Invalid situation").
Proof.
  intros st out.
  assert (H : forall data, out <> Ok data) by (intros data; discriminate).
  split; [exact H|].
  destruct (wizard_failure_keeps_step_and_sets_error out st H)
    as (message & _ & Hstep & _ & _ & _ & _ & Herr & Hd & _).
  split; [exact Hstep|].
  rewrite Herr, (Hd 422 (lit "Invalid situation") eq_refl ltac:(discriminate)).
  reflexivity.
Defined.

(** ** The standalone page over whole sessions *)

Module PageRunFacts.
Import RightsCardPage.

Record Flow (m : Machine) : Prop := mkFlow {
  flow_inflight : inflight m = if loading (ui m) then 1%nat else 0%nat;
  flow_loading : loading (ui m) = true -> cardData (ui m) = None /\ error (ui m) = [];
  flow_error : error (ui m) <> [] -> cardData (ui m) = None;
}.

Lemma page_Flow_mounted : Flow mounted.
Proof. split; [reflexivity | discriminate | reflexivity]. Qed.

Lemma page_Flow_dispatch apiBase e m : Flow m -> Flow (dispatch apiBase e m).
Proof.
  intros H. pose proof H as [Hi Hl He]. unfold dispatch.
  destruct e as [i|i| |out| ].
  - destruct (SITUATIONS !! i); [|exact H]. split; assumption.
  - destruct (LANGUAGES !! i); [|exact H]. split; assumption.
  - destruct (loading (ui m)) eqn:Hload; [exact H|].
    split; cbn; [rewrite Hi; reflexivity | auto | auto].
  - destruct (inflight m) as [|n] eqn:En; [exact H|].
    destruct (loading (ui m)) eqn:Hload; [|discriminate Hi].
    injection Hi as ->. destruct (Hl eq_refl) as [Hcard Herr].
    destruct out as [[msg|]|data|status detail|status te|status b text];
      split; cbn;
      try reflexivity; try discriminate; try (intros _; exact Hcard);
      intros Hne; rewrite Herr in Hne; contradiction Hne; reflexivity.
  - destruct (inflight m) as [|n] eqn:En; [exact H|].
    destruct (loading (ui m)) eqn:Hload; [|discriminate Hi].
    injection Hi as ->.
    split; cbn; [reflexivity | discriminate | reflexivity].
Qed.

Lemma page_Flow_run apiBase events m : Flow m -> Flow (run apiBase events m).
Proof.
  revert m. induction events as [|e events IH]; intros m H; simpl; [exact H|].
  apply IH, page_Flow_dispatch, H.
Qed.

Lemma settle_failure_error out st :
  (forall data, out <> Ok data) ->
  error (handleGenerate_settle out st) <> []
  /\ cardData (handleGenerate_settle out st) = cardData st
  /\ loading (handleGenerate_settle out st) = false.
Proof.
  intros Hfail.
  destruct out as [[msg|]|data|status detail|status te|status b text]; cbn;
    try (exfalso; eapply Hfail; reflexivity);
    try (destruct (truthy msg) eqn:E; [apply truthy_true_iff in E|]);
    repeat split; try assumption; discriminate.
Qed.




End PageRunFacts.

(** X17. However the standalone page is driven, at most one request is in
    flight and the loading flag is set exactly while one is; while it
    loads the page holds neither a card nor an error, so a card and an
    error are never shown together; and every failed request leaves a
    non-empty error. *)
Theorem page_never_shows_card_with_error
    (apiBase : string) (events : list RightsCardPage.Event) :
  let m := RightsCardPage.run apiBase events RightsCardPage.mounted in
  (RightsCardPage.inflight m <= 1)%nat
  /\ (RightsCardPage.loading (RightsCardPage.ui m) = true
      <-> RightsCardPage.inflight m = 1%nat)
  /\ (RightsCardPage.loading (RightsCardPage.ui m) = true ->
      RightsCardPage.cardData (RightsCardPage.ui m) = None
      /\ RightsCardPage.error (RightsCardPage.ui m) = [])
  /\ ~ (RightsCardPage.error (RightsCardPage.ui m) <> []
        /\ RightsCardPage.cardData (RightsCardPage.ui m) <> None)
  /\ (forall out, (forall data, out <> Ok data) ->
        RightsCardPage.inflight m = 1%nat ->
        let m' := RightsCardPage.dispatch apiBase (RightsCardPage.Settled out) m in
        RightsCardPage.error (RightsCardPage.ui m') <> []
        /\ RightsCardPage.cardData (RightsCardPage.ui m') = None
        /\ RightsCardPage.loading (RightsCardPage.ui m') = false).
Proof.
  cbv zeta.
  destruct (PageRunFacts.page_Flow_run apiBase events _ PageRunFacts.page_Flow_mounted)
    as [Hi Hl He].
  set (m := RightsCardPage.run apiBase events RightsCardPage.mounted) in *.
  split; [|split; [|split; [|split]]].
  - rewrite Hi. destruct (RightsCardPage.loading _); lia.
  - rewrite Hi. destruct (RightsCardPage.loading _); split;
      intros H; try reflexivity; discriminate H.
  - exact Hl.
  - intros [H1 H2]. apply H2, He, H1.
  - intros out Hfail Hone. cbn [RightsCardPage.dispatch]. rewrite Hone.
    cbn [RightsCardPage.ui].
    destruct (PageRunFacts.settle_failure_error out (RightsCardPage.ui m) Hfail)
      as (H1 & H2 & H3).
    split; [exact H1|]. split; [|exact H3].
    rewrite H2. apply Hl.
    rewrite Hone in Hi. destruct (RightsCardPage.loading _); [reflexivity|discriminate].
Qed.

Lemma page_never_shows_card_with_error_witness :
  let m := RightsCardPage.run "http://localhost:8000"
             [RightsCardPage.ClickGenerate] RightsCardPage.mounted in
  RightsCardPage.loading (RightsCardPage.ui m) = true
  /\ RightsCardPage.inflight m = 1%nat
  /\ RightsCardPage.error
       (RightsCardPage.ui
          (RightsCardPage.dispatch "http://localhost:8000"
             (RightsCardPage.Settled (NotOk 500 None)) m))
     <> [].
Proof.
  intros m.
  assert (Hone : RightsCardPage.inflight m = 1%nat) by reflexivity.
  split; [reflexivity|]. split; [exact Hone|].
  destruct (page_never_shows_card_with_error "http://localhost:8000"
              [RightsCardPage.ClickGenerate]) as (_ & _ & _ & _ & Hfail).
  exact (proj1 (Hfail (NotOk 500 None) ltac:(intros data; discriminate) Hone)).
Defined.


